(** * Tesseract-OCR-Translation: a shallow embedding of the pipeline

    The repository is a Django application with four request handlers
    (upload, OCR, translate, render) over four tables
    (Document, OCRResult, Translation, OutputFile) and a file store.

    Modelling conventions:
    - A Python [str] is the [string] of its UTF-8 bytes.  Splitting,
      joining, replacing and comparing act on the bytes as they act on
      the characters; [len] counts the bytes that start a character;
      white space is all of Unicode's, each character as its bytes.
      Case mapping is that of the ASCII letters: the source lower-cases
      only to compare with lists of ASCII extensions, and upper-cases
      only a format name a form has checked.
    - A raised exception is a value [Raise e] of the [result] type; only
      subclasses of Python's [Exception] are modelled.
    - The relational database is a record of row lists with per-table
      auto-increment counters; the file system is a finite map from paths
      to file contents.
    - The answers of the third-party engines (Tesseract, pdf2image, DeepL,
      the PDF and DOCX libraries, wkhtmltopdf, the font loader) are read
      from a record [External] handed to every call.  The layout work of
      the PDF and DOCX libraries is not modelled: each tier is one engine
      call that returns or raises, and the file it leaves records the
      tier and the text.
    - Database statements succeed.  Whether a file can be written is
      an answer of the outside world too: [create_text_file] and
      [create_image_file] ask it and re-raise its refusal as their
      [except] clauses do; the saves of the PDF and DOCX libraries are
      part of their engine call; the temporary files of the last PDF
      tier, and its copy of one, are taken to be written.
    - What Django does behind the models and forms (cascading deletes,
      the checks of a form field, the storage of an uploaded file) is
      modelled from its documentation, next to the call that relies on
      it.
    - Automatic time stamps ([uploaded_at], [created_at]) are left out:
      no handler reads them except to sort the home page. *)

From Stdlib Require Import Ascii String QArith.
From stdpp Require Import gmap strings list fin_maps pretty.

Local Open Scope string_scope.

(** ** Python strings *)

Module Py.

(** [s.split(c)] for a one-character separator: never empty. *)
Fixpoint split_char (c : ascii) (s : string) : list string :=
  match s with
  | EmptyString => [EmptyString]
  | String a s' =>
      if Ascii.eqb a c then EmptyString :: split_char c s'
      else match split_char c s' with
           | h :: t => String a h :: t
           | [] => [String a EmptyString]
           end
  end.

(** [l[-1]] on a list of strings known to be non-empty. *)
Definition last_item (l : list string) : string := List.last l EmptyString.

Definition is_upper (a : ascii) : bool :=
  let n := nat_of_ascii a in (65 <=? n)%nat && (n <=? 90)%nat.

Definition lower_char (a : ascii) : ascii :=
  if is_upper a then ascii_of_nat (nat_of_ascii a + 32) else a.

(** [s.lower()], ASCII letters only. *)
Fixpoint lower (s : string) : string :=
  match s with
  | EmptyString => EmptyString
  | String a s' => String (lower_char a) (lower s')
  end.

(** The characters [str.isspace] holds of, which [str.split()] and
    [str.strip()] take for white space, each as its UTF-8 bytes:
    U+0009 to U+000D, U+001C to U+0020, U+0085, U+00A0, U+1680,
    U+2000 to U+200A, U+2028, U+2029, U+202F, U+205F and U+3000. *)
Definition utf8 (bytes : list nat) : string :=
  string_of_list_ascii (map ascii_of_nat bytes).

Definition blanks : list string :=
  map utf8
    [[9]; [10]; [11]; [12]; [13]; [28]; [29]; [30]; [31]; [32];
     [194; 133]; [194; 160]; [225; 154; 128];
     [226; 128; 128]; [226; 128; 129]; [226; 128; 130]; [226; 128; 131];
     [226; 128; 132]; [226; 128; 133]; [226; 128; 134]; [226; 128; 135];
     [226; 128; 136]; [226; 128; 137]; [226; 128; 138];
     [226; 128; 168]; [226; 128; 169]; [226; 128; 175]; [226; 129; 159];
     [227; 128; 128]].

(** The number of bytes of the white-space character [s] starts with;
    0 when it starts with none. *)
Definition blank_len (s : string) : nat :=
  match find (fun blank => String.prefix blank s) blanks with
  | Some blank => String.length blank
  | None => 0
  end.

(** [s.split()]: maximal runs of characters that are not white space.
    [cur] is the word being read, kept reversed; [skip] counts the
    bytes of a white-space character still to be passed. *)
Fixpoint split_ws_aux (skip : nat) (cur : list ascii) (s : string)
  : list string :=
  let flush := match cur with
               | [] => []
               | _ => [string_of_list_ascii (rev cur)]
               end in
  match s with
  | EmptyString => flush
  | String a s' =>
      match skip with
      | S k => split_ws_aux k cur s'
      | O =>
          match blank_len s with
          | S k => flush ++ split_ws_aux k [] s'
          | O => split_ws_aux O (a :: cur) s'
          end
      end
  end.

Definition split_ws (s : string) : list string := split_ws_aux O [] s.

(** [len(s)]: a byte starts a character unless it is a continuation
    byte (binary 10xxxxxx). *)
Definition is_continuation (a : ascii) : bool :=
  let n := nat_of_ascii a in (128 <=? n)%nat && (n <? 192)%nat.

Fixpoint len (s : string) : nat :=
  match s with
  | EmptyString => 0
  | String a s' => (if is_continuation a then 0 else 1) + len s'
  end.

(** [s.lstrip()], [s.rstrip()] and [s.strip()].  [all_blank s] says
    that [s] is white space only. *)
Fixpoint lstrip_aux (skip : nat) (s : string) : string :=
  match s with
  | EmptyString => EmptyString
  | String a s' =>
      match skip with
      | S k => lstrip_aux k s'
      | O =>
          match blank_len s with
          | S k => lstrip_aux k s'
          | O => s
          end
      end
  end.

Definition lstrip (s : string) : string := lstrip_aux O s.

Fixpoint all_blank_aux (skip : nat) (s : string) : bool :=
  match s with
  | EmptyString => true
  | String a s' =>
      match skip with
      | S k => all_blank_aux k s'
      | O =>
          match blank_len s with
          | S k => all_blank_aux k s'
          | O => false
          end
      end
  end.

Definition all_blank (s : string) : bool := all_blank_aux O s.

Fixpoint rstrip (s : string) : string :=
  match s with
  | EmptyString => EmptyString
  | String a s' => if all_blank s then EmptyString else String a (rstrip s')
  end.

Definition strip (s : string) : string := lstrip (rstrip s).

(** [s.replace(old, new)] for a non-empty [old]: every occurrence, left
    to right, without overlap.  [skip] counts the characters of a match
    still to be dropped. *)
Fixpoint replace_aux (old new : string) (skip : nat) (s : string) : string :=
  match s with
  | EmptyString => EmptyString
  | String a s' =>
      match skip with
      | S k => replace_aux old new k s'
      | O =>
          if String.prefix old s
          then new +:+ replace_aux old new (String.length old - 1) s'
          else String a (replace_aux old new O s')
      end
  end.

Definition replace (old new s : string) : string := replace_aux old new O s.

Definition is_lower (a : ascii) : bool :=
  let n := nat_of_ascii a in (97 <=? n)%nat && (n <=? 122)%nat.

Definition upper_char (a : ascii) : ascii :=
  if is_lower a then ascii_of_nat (nat_of_ascii a - 32) else a.

(** [s.upper()], ASCII letters only. *)
Fixpoint upper (s : string) : string :=
  match s with
  | EmptyString => EmptyString
  | String a s' => String (upper_char a) (upper s')
  end.

(** [os.path.join(a, b)] on POSIX. *)
Definition ends_with_slash (s : string) : bool :=
  match rev (list_ascii_of_string s) with
  | c :: _ => Ascii.eqb c "/"
  | [] => false
  end.

Definition path_join (a b : string) : string :=
  if String.prefix "/" b then b
  else if String.eqb a "" || ends_with_slash a then a +:+ b
  else a +:+ "/" +:+ b.

(** [os.path.splitext(p)[1]] on POSIX: the last path component is cut
    at its last dot, unless only dots come before it. *)
Definition splitext_ext (p : string) : string :=
  let name := last_item (split_char "/" p) in
  match rev (split_char "." name) with
  | e :: (_ :: _) as front =>
      if existsb (fun x => negb (String.eqb x "")) front
      then "." +:+ e else ""
  | _ => ""
  end.

End Py.

(** ** Exceptions and results *)

(** The exception classes the source names in an [except] clause or
    raises itself; [OtherError] stands for any further subclass of
    [Exception]. *)
Inductive exn_class :=
  | Exception | ValueError | RuntimeError
  | SubprocessError | FileNotFoundError | OtherError.

(** An exception value: its class and [str(e)]. *)
Record exn := mk_exn { exn_cls : exn_class; exn_msg : string }.

Inductive result (A : Type) :=
  | Ok (a : A)
  | Raise (e : exn).
Arguments Ok {A} a.
Arguments Raise {A} e.

#[global] Instance result_ret : MRet result := fun A a => Ok a.

#[global] Instance result_bind : MBind result := fun A B k r =>
  match r with
  | Ok a => k a
  | Raise e => Raise e
  end.

(** [try: body except Exception as e: raise Exception(prefix + str(e))] *)
Definition wrap_exn {A : Type} (prefix : string) (r : result A) : result A :=
  match r with
  | Ok a => Ok a
  | Raise e => Raise (mk_exn Exception (prefix +:+ exn_msg e))
  end.

Definition is_ok {A : Type} (r : result A) : bool :=
  match r with Ok _ => true | Raise _ => false end.

(** ** The outside world *)

Definition nl : string := String "010"%char EmptyString.

(** A decoded raster (a PIL image read from a file or produced by
    pdf2image): an opaque handle. *)
Inductive Bitmap := Bitmap_of (handle : nat).

(** A loaded font, as far as the renderer uses it: [font.getlength]. *)
Record Font := { getlength : string -> Q }.

(** A canvas made by [Image.new] and drawn on by [draw.text]: the
    [(x, y, text)] calls, oldest first. *)
Definition Canvas := list (Z * Z * string).

(** What a stored file holds. *)
Inductive Content :=
  | RawFile (bytes : string)
  | TextFile (text : string)
  | HtmlFile (text : string)
  | DocxFile (tier : nat) (text : string)
  | PdfFile (tier : nat) (text : string)
  | ImageFile (format : string) (img : Canvas).

(** Settings and the answers of the third-party engines. *)
Record External := {
  MEDIA_ROOT : string;
  home_dir : string;
  (* pdf2image.convert_from_path *)
  convert_from_path : string -> result (list Bitmap);
  (* PIL.Image.open *)
  image_open : string -> result Bitmap;
  (* pytesseract.image_to_string(img, lang=language) *)
  image_to_string : Bitmap -> string -> result string;
  (* deepl.Translator(...).translate_text(text, source_lang, target_lang).text *)
  deepl_translate : string -> option string -> string -> result string;
  (* python-docx, with and without the font customisation *)
  docx_styled : string -> result unit;
  docx_plain : string -> result unit;
  (* fpdf2 and ReportLab, each run up to and including its save *)
  fpdf_render : string -> result unit;
  reportlab_render : string -> result unit;
  (* tempfile.NamedTemporaryFile(suffix=...).name *)
  temp_txt_path : string;
  temp_html_path : string;
  (* subprocess.run(['wkhtmltopdf', ...], check=True) *)
  wkhtmltopdf : result unit;
  (* ImageFont.truetype(path, 14) and ImageFont.load_default() *)
  truetype : string -> result Font;
  load_default : Font;
  (* open(path, 'w', encoding='utf-8') followed by f.write(text) *)
  write_text : string -> string -> result unit;
  (* img.save(path, format=format) *)
  image_save : string -> string -> result unit
}.

Abbreviation FS := (gmap string Content).

(** ** utils.py: the OCR adapter *)

Definition page_marker (n : nat) : string :=
  nl +:+ nl +:+ "--- Page " +:+ pretty n +:+ " ---" +:+ nl +:+ nl.

(** [ocr_image] *)
Definition ocr_image (E : External) (image_path language : string)
  : result string :=
  wrap_exn "Error performing OCR on image: "
    (img ← image_open E image_path;
     image_to_string E img language).

(** The [for i, img in enumerate(images)] loop of [ocr_pdf]; [i] is the
    index of the first image of [images], [text] the accumulator. *)
Fixpoint ocr_pages (E : External) (language : string) (i : nat)
    (images : list Bitmap) (text : string) : result string :=
  match images with
  | [] => Ok text
  | img :: rest =>
      page_text ← image_to_string E img language;
      ocr_pages E language (S i) rest
        (text +:+ page_marker (i + 1) +:+ page_text)
  end.

(** [ocr_pdf] *)
Definition ocr_pdf (E : External) (pdf_path language : string)
  : result string :=
  wrap_exn "Error performing OCR on PDF: "
    (images ← convert_from_path E pdf_path;
     ocr_pages E language 0 images "").

(** [perform_ocr] *)
Definition perform_ocr (E : External) (file_path language : string)
  : result string :=
  let file_ext := Py.lower (Py.splitext_ext file_path) in
  if String.eqb file_ext ".pdf" then ocr_pdf E file_path language
  else if existsb (String.eqb file_ext)
            [".png"; ".jpg"; ".jpeg"; ".tiff"; ".bmp"; ".gif"]
  then ocr_image E file_path language
  else Raise (mk_exn ValueError ("Unsupported file format: " +:+ file_ext)).

(** [translate_text] *)
Definition translate_text (E : External) (text : string)
    (source_lang : option string) (target_lang : string) : result string :=
  wrap_exn "Error translating text: "
    (deepl_translate E text source_lang target_lang).

(** ** utils.py: the output renderer

    Every renderer takes the file system and returns it with the value or
    the exception of the call. *)

(** [create_text_file] *)
Definition create_text_file (E : External) (text output_path : string)
    (fs : FS) : result string * FS :=
  match write_text E output_path text with
  | Ok _ => (Ok output_path, <[output_path := TextFile text]> fs)
  | Raise e =>
      (Raise (mk_exn Exception ("Error creating text file: " +:+ exn_msg e)),
       fs)
  end.

(** [create_docx_file]: the styled document, and on any exception the
    plain one. *)
Definition create_docx_file (E : External) (text output_path : string)
    (fs : FS) : result string * FS :=
  match docx_styled E text with
  | Ok _ => (Ok output_path, <[output_path := DocxFile 1 text]> fs)
  | Raise e =>
      match docx_plain E text with
      | Ok _ => (Ok output_path, <[output_path := DocxFile 2 text]> fs)
      | Raise nested_e =>
          (Raise (mk_exn Exception
                    ("Error creating Word document: " +:+ exn_msg e
                     +:+ " -> " +:+ exn_msg nested_e)), fs)
      end
  end.

(** The page handed to wkhtmltopdf. *)
Definition html_content (text : string) : string :=
  let ind := "                    " in
  nl +:+ ind +:+ "<!DOCTYPE html>" +:+ nl
  +:+ ind +:+ "<html>" +:+ nl
  +:+ ind +:+ "<head>" +:+ nl
  +:+ ind +:+ "    <meta charset=" +:+ String "034"%char "UTF-8"
  +:+ String "034"%char ">" +:+ nl
  +:+ ind +:+ "    <style>" +:+ nl
  +:+ ind +:+ "        body { font-family: Arial, sans-serif; }" +:+ nl
  +:+ ind +:+ "        pre { white-space: pre-wrap; }" +:+ nl
  +:+ ind +:+ "    </style>" +:+ nl
  +:+ ind +:+ "</head>" +:+ nl
  +:+ ind +:+ "<body>" +:+ nl
  +:+ ind +:+ "    <pre>" +:+ text +:+ "</pre>" +:+ nl
  +:+ ind +:+ "</body>" +:+ nl
  +:+ ind +:+ "</html>" +:+ nl
  +:+ ind.

(** [except (subprocess.SubprocessError, FileNotFoundError)] *)
Definition tool_unavailable (c : exn_class) : bool :=
  match c with
  | SubprocessError | FileNotFoundError => true
  | _ => false
  end.

Definition pdf_error (e nested_e final_e : exn) : exn :=
  mk_exn Exception
    ("Error creating PDF file: " +:+ exn_msg e +:+ " -> "
     +:+ exn_msg nested_e +:+ " -> " +:+ exn_msg final_e).

(** The innermost [try] of [create_pdf_file]: both libraries have failed
    with [e] and [nested_e]. *)
Definition pdf_last_resort (E : External) (e nested_e : exn)
    (text output_path : string) (fs : FS) : result string * FS :=
  let temp_txt_path := temp_txt_path E in
  let fs := <[temp_txt_path := TextFile text]> fs in
  let temp_html_path := temp_html_path E in
  let fs := <[temp_html_path := HtmlFile (html_content text)]> fs in
  match wkhtmltopdf E with
  | Ok _ =>
      let fs := <[output_path := PdfFile 3 text]> fs in
      (Ok output_path, delete temp_txt_path (delete temp_html_path fs))
  | Raise tool_e =>
      if tool_unavailable (exn_cls tool_e) then
        let txt_path := Py.replace ".pdf" ".txt" output_path in
        (* shutil.copy(temp_txt_path, txt_path) *)
        match fs !! temp_txt_path with
        | Some c =>
            let fs := <[txt_path := c]> fs in
            (Ok txt_path, delete temp_txt_path fs)
        | None =>
            (Raise (pdf_error e nested_e
                      (mk_exn FileNotFoundError temp_txt_path)), fs)
        end
      else (Raise (pdf_error e nested_e tool_e), fs)
  end.

(** [create_pdf_file]: fpdf2, then ReportLab, then the last resort. *)
Definition create_pdf_file (E : External) (text output_path : string)
    (fs : FS) : result string * FS :=
  match fpdf_render E text with
  | Ok _ => (Ok output_path, <[output_path := PdfFile 1 text]> fs)
  | Raise e =>
      match reportlab_render E text with
      | Ok _ => (Ok output_path, <[output_path := PdfFile 2 text]> fs)
      | Raise nested_e => pdf_last_resort E e nested_e text output_path fs
      end
  end.

(** *** The image renderer *)

Definition potential_fonts : list (string * string) :=
  [("Arial Unicode MS", "arialuni.ttf");
   ("MS Gothic", "msgothic.ttc");
   ("Yu Gothic", "yugothic.ttf");
   ("Meiryo", "meiryo.ttc");
   ("Noto Sans CJK JP", "NotoSansCJKjp-Regular.otf")].

(** [os.path.expanduser('~/...')] with the home directory of [E]. *)
Definition font_dirs (E : External) : list string :=
  ["C:/Windows/Fonts/";
   home_dir E +:+ "/.fonts/";
   home_dir E +:+ "/Library/Fonts/"].

(** [os.path.exists] *)
Definition path_exists (fs : FS) (p : string) : bool :=
  bool_decide (is_Some (fs !! p)).

(** The inner [for font_dir in font_dirs] loop: the first directory
    whose file exists and loads. *)
Fixpoint search_dirs (E : External) (fs : FS) (font_file : string)
    (dirs : list string) : option Font :=
  match dirs with
  | [] => None
  | font_dir :: rest =>
      let font_path := Py.path_join font_dir font_file in
      if path_exists fs font_path then
        match truetype E font_path with
        | Ok f => Some f
        | Raise _ => search_dirs E fs font_file rest
        end
      else search_dirs E fs font_file rest
  end.

(** The outer [for font_name, font_file in potential_fonts] loop. *)
Fixpoint search_fonts (E : External) (fs : FS)
    (fonts : list (string * string)) : option Font :=
  match fonts with
  | [] => None
  | (_, font_file) :: rest =>
      match search_dirs E fs font_file (font_dirs E) with
      | Some f => Some f
      | None => search_fonts E fs rest
      end
  end.

Definition find_font (E : External) (fs : FS) : Font :=
  match search_fonts E fs potential_fonts with
  | Some f => f
  | None =>
      match truetype E "arial.ttf" with
      | Ok f => f
      | Raise _ => load_default E
      end
  end.

Definition width : Z := 1000%Z.
Definition height : Z := 1400%Z.

(** The mutable locals of the drawing loop: the canvas [img], the cursor
    [y], and the [img.save] calls made so far, oldest first, each with
    the path and the content it wrote. *)
Record Pen := {
  img : Canvas;
  y : Z;
  saves : list (string * Content)
}.

(** [draw.text((20, y), s, ...)] followed by [y += 20] *)
Definition draw_text (s : string) (p : Pen) : Pen :=
  {| img := (img p ++ [(20, y p, s)%Z])%list; y := (y p + 20)%Z;
     saves := saves p |}.

(** [if y > height - 20: img.save(output_path, format=format);
     img = Image.new(...); y = 20] *)
Definition new_page_if_full (output_path format : string) (p : Pen) : Pen :=
  if (y p >? height - 20)%Z then
    {| img := []; y := 20%Z;
       saves := (saves p ++ [(output_path, ImageFile format (img p))])%list |}
  else p.

Definition nonempty (s : string) : bool := negb (String.eqb s "").

(** [font.getlength(s) <= width - 40] *)
Definition fits (font : Font) (s : string) : bool :=
  Qle_bool (getlength font s) (inject_Z (width - 40)%Z).

(** The [for word in words] loop; returns [current_line] with the pen. *)
Fixpoint wrap_words (font : Font) (output_path format : string)
    (words : list string) (current_line : string) (p : Pen) : string * Pen :=
  match words with
  | [] => (current_line, p)
  | word :: rest =>
      let test_line :=
        if nonempty current_line then current_line +:+ " " +:+ word
        else word in
      if fits font test_line then
        wrap_words font output_path format rest test_line p
      else
        wrap_words font output_path format rest word
          (new_page_if_full output_path format (draw_text current_line p))
  end.

(** The body of [for line in lines]. *)
Definition draw_line (font : Font) (output_path format : string)
    (p : Pen) (line : string) : Pen :=
  let p :=
    if negb (fits font line) then
      let '(current_line, p) :=
        wrap_words font output_path format (Py.split_ws line) "" p in
      if nonempty current_line then draw_text current_line p else p
    else draw_text line p in
  new_page_if_full output_path format p.

(** [img.save(path, ...)], replayed on the file system. *)
Definition apply_saves (ws : list (string * Content)) (fs : FS) : FS :=
  foldl (fun fs w => <[w.1 := w.2]> fs) fs ws.

(** The pen of [create_image_file] when the loop over the lines ends. *)
Definition image_pen (font : Font) (text output_path format : string) : Pen :=
  foldl (draw_line font output_path format)
    {| img := []; y := 20%Z; saves := [] |}
    (Py.split_char "010" text).

(** [create_image_file].  Every [img.save] of a call writes the same
    path in the same format, so the first one raises when any does,
    with nothing written yet. *)
Definition create_image_file (E : External) (text output_path format : string)
    (fs : FS) : result string * FS :=
  let font := find_font E fs in
  let p := image_pen font text output_path format in
  let final_save := (output_path, ImageFile format (img p)) in
  match image_save E output_path format with
  | Ok _ => (Ok output_path, apply_saves (saves p ++ [final_save])%list fs)
  | Raise e =>
      (Raise (mk_exn Exception ("Error creating image file: " +:+ exn_msg e)),
       fs)
  end.

(** [generate_output_file] *)
Definition generate_output_file (E : External)
    (text output_format output_path : string) (fs : FS) : result string * FS :=
  if String.eqb output_format "txt" then
    create_text_file E text output_path fs
  else if String.eqb output_format "docx" then
    create_docx_file E text output_path fs
  else if String.eqb output_format "pdf" then
    create_pdf_file E text output_path fs
  else if String.eqb output_format "jpeg" then
    create_image_file E text output_path "JPEG" fs
  else if String.eqb output_format "png" then
    create_image_file E text output_path "PNG" fs
  else
    (Raise (mk_exn ValueError
              ("Unsupported output format: " +:+ output_format)), fs).

(** ** models.py *)

Record Document := {
  doc_id : nat;
  doc_title : string;
  doc_file : string;        (* name relative to MEDIA_ROOT; empty: no file *)
  doc_file_type : string;
  doc_status : string       (* pending, processing, completed, failed *)
}.

Record OCRResult := {
  ocr_id : nat;
  ocr_document : nat;       (* OneToOneField(Document, CASCADE) *)
  ocr_text : string;
  ocr_language : string
}.

Record Translation := {
  tr_id : nat;
  tr_ocr_result : nat;      (* ForeignKey(OCRResult, CASCADE) *)
  tr_text : string;
  tr_source_language : string;
  tr_target_language : string
}.

Record OutputFile := {
  out_id : nat;
  out_translation : nat;    (* ForeignKey(Translation, CASCADE) *)
  out_file : string;
  out_file_type : string
}.

(** The four tables, rows in insertion order, and the next primary key
    of each. *)
Record DB := {
  documents : list Document;
  ocr_results : list OCRResult;
  translations : list Translation;
  output_files : list OutputFile;
  next_document : nat;
  next_ocr_result : nat;
  next_translation : nat;
  next_output_file : nat
}.

Record World := { db : DB; fs : FS }.

Definition empty_db : DB :=
  {| documents := []; ocr_results := []; translations := [];
     output_files := []; next_document := 1; next_ocr_result := 1;
     next_translation := 1; next_output_file := 1 |}.

Definition empty_world : World := {| db := empty_db; fs := ∅ |}.

(** [get_file_path] and [get_output_path]; [uuid] is [str(uuid.uuid4())]. *)
Definition get_file_path (uuid filename : string) : string :=
  let ext := Py.last_item (Py.split_char "." filename) in
  Py.path_join "uploads" (uuid +:+ "." +:+ ext).

Definition get_output_path (uuid filename : string) : string :=
  let ext := Py.last_item (Py.split_char "." filename) in
  Py.path_join "outputs" (uuid +:+ "." +:+ ext).

(** [field_file.path]: the storage joins the name to MEDIA_ROOT; a
    field without a file raises ValueError. *)
Definition storage_path (E : External) (name : string) : string :=
  Py.path_join (MEDIA_ROOT E) name.

Definition file_path (E : External) (name : string) : result string :=
  if nonempty name then Ok (storage_path E name)
  else Raise (mk_exn ValueError
                "The 'file' attribute has no file associated with it.").

(** Queries. *)
Definition get_document (d : DB) (id : nat) : option Document :=
  find (fun r => doc_id r =? id)%nat (documents d).

Definition get_ocr_result (d : DB) (id : nat) : option OCRResult :=
  find (fun r => ocr_id r =? id)%nat (ocr_results d).

Definition get_translation (d : DB) (id : nat) : option Translation :=
  find (fun r => tr_id r =? id)%nat (translations d).

Definition get_output_file (d : DB) (id : nat) : option OutputFile :=
  find (fun r => out_id r =? id)%nat (output_files d).

(** [document.ocr_result], the reverse side of the one-to-one field. *)
Definition ocr_result_of (d : DB) (doc : nat) : option OCRResult :=
  find (fun r => ocr_document r =? doc)%nat (ocr_results d).

(** The rows that hang on a document. *)
Definition ocr_rows_of (d : DB) (doc : nat) : list OCRResult :=
  List.filter (fun r => ocr_document r =? doc)%nat (ocr_results d).

Definition translation_rows_of (d : DB) (doc : nat) : list Translation :=
  List.filter
    (fun t => existsb (fun r => ocr_id r =? tr_ocr_result t)%nat
                (ocr_rows_of d doc))
    (translations d).

Definition output_rows_of (d : DB) (doc : nat) : list OutputFile :=
  List.filter
    (fun o => existsb (fun t => tr_id t =? out_translation o)%nat
                (translation_rows_of d doc))
    (output_files d).

(** [instance.save()] of a row that exists: an UPDATE by primary key. *)
Definition save_document (doc : Document) (d : DB) : DB :=
  {| documents :=
       map (fun r => if (doc_id r =? doc_id doc)%nat then doc else r)
         (documents d);
     ocr_results := ocr_results d; translations := translations d;
     output_files := output_files d; next_document := next_document d;
     next_ocr_result := next_ocr_result d;
     next_translation := next_translation d;
     next_output_file := next_output_file d |}.

Definition save_translation (t : Translation) (d : DB) : DB :=
  {| documents := documents d; ocr_results := ocr_results d;
     translations :=
       map (fun r => if (tr_id r =? tr_id t)%nat then t else r)
         (translations d);
     output_files := output_files d; next_document := next_document d;
     next_ocr_result := next_ocr_result d;
     next_translation := next_translation d;
     next_output_file := next_output_file d |}.

Definition set_status (s : string) (doc : Document) : Document :=
  {| doc_id := doc_id doc; doc_title := doc_title doc;
     doc_file := doc_file doc; doc_file_type := doc_file_type doc;
     doc_status := s |}.

Definition set_text (s : string) (t : Translation) : Translation :=
  {| tr_id := tr_id t; tr_ocr_result := tr_ocr_result t; tr_text := s;
     tr_source_language := tr_source_language t;
     tr_target_language := tr_target_language t |}.

(** [Model.objects.create(...)]: an INSERT with a fresh primary key. *)
Definition create_document (title file file_type : string) (d : DB)
  : Document * DB :=
  let row := {| doc_id := next_document d; doc_title := title;
                doc_file := file; doc_file_type := file_type;
                doc_status := "pending" |} in
  (row,
   {| documents := documents d ++ [row]; ocr_results := ocr_results d;
      translations := translations d; output_files := output_files d;
      next_document := S (next_document d);
      next_ocr_result := next_ocr_result d;
      next_translation := next_translation d;
      next_output_file := next_output_file d |}).

Definition create_ocr_result (document : nat) (text language : string)
    (d : DB) : OCRResult * DB :=
  let row := {| ocr_id := next_ocr_result d; ocr_document := document;
                ocr_text := text; ocr_language := language |} in
  (row,
   {| documents := documents d; ocr_results := ocr_results d ++ [row];
      translations := translations d; output_files := output_files d;
      next_document := next_document d;
      next_ocr_result := S (next_ocr_result d);
      next_translation := next_translation d;
      next_output_file := next_output_file d |}).

Definition create_translation (ocr_result : nat)
    (text source_language target_language : string) (d : DB)
  : Translation * DB :=
  let row := {| tr_id := next_translation d; tr_ocr_result := ocr_result;
                tr_text := text; tr_source_language := source_language;
                tr_target_language := target_language |} in
  (row,
   {| documents := documents d; ocr_results := ocr_results d;
      translations := translations d ++ [row];
      output_files := output_files d; next_document := next_document d;
      next_ocr_result := next_ocr_result d;
      next_translation := S (next_translation d);
      next_output_file := next_output_file d |}).

Definition create_output_file (translation : nat) (file file_type : string)
    (d : DB) : OutputFile * DB :=
  let row := {| out_id := next_output_file d; out_translation := translation;
                out_file := file; out_file_type := file_type |} in
  (row,
   {| documents := documents d; ocr_results := ocr_results d;
      translations := translations d;
      output_files := output_files d ++ [row];
      next_document := next_document d;
      next_ocr_result := next_ocr_result d;
      next_translation := next_translation d;
      next_output_file := S (next_output_file d) |}).

(** [django.db.models.Model.delete] on a Document row.  The three
    relations are declared [on_delete=models.CASCADE]: Django's deletion
    collector gathers the dependent rows and removes them together with
    the row, in the database.  It does not call the [delete] methods the
    dependent model classes override, and it never touches the files
    that [FileField] columns name. *)
Definition cascade_delete_document (doc : nat) (d : DB) : DB :=
  let gone_o := output_rows_of d doc in
  let gone_t := translation_rows_of d doc in
  let gone_r := ocr_rows_of d doc in
  {| documents :=
       List.filter (fun r => negb (doc_id r =? doc)%nat) (documents d);
     ocr_results :=
       List.filter
         (fun r => negb (existsb (fun g => ocr_id g =? ocr_id r)%nat gone_r))
         (ocr_results d);
     translations :=
       List.filter
         (fun t => negb (existsb (fun g => tr_id g =? tr_id t)%nat gone_t))
         (translations d);
     output_files :=
       List.filter
         (fun o => negb (existsb (fun g => out_id g =? out_id o)%nat gone_o))
         (output_files d);
     next_document := next_document d;
     next_ocr_result := next_ocr_result d;
     next_translation := next_translation d;
     next_output_file := next_output_file d |}.

(** [django.db.models.Model.delete] on an OutputFile row: nothing
    depends on it. *)
Definition delete_output_row (id : nat) (d : DB) : DB :=
  {| documents := documents d; ocr_results := ocr_results d;
     translations := translations d;
     output_files :=
       List.filter (fun o => negb (out_id o =? id)%nat) (output_files d);
     next_document := next_document d;
     next_ocr_result := next_ocr_result d;
     next_translation := next_translation d;
     next_output_file := next_output_file d |}.

(** [if self.file: if os.path.isfile(self.file.path):
     os.remove(self.file.path)] *)
Definition remove_stored_file (E : External) (name : string) (f : FS) : FS :=
  if nonempty name then
    if path_exists f (storage_path E name)
    then delete (storage_path E name) f else f
  else f.

(** [Document.delete] *)
Definition Document_delete (E : External) (doc : Document) (w : World)
  : World :=
  let f := remove_stored_file E (doc_file doc) (fs w) in
  {| db := cascade_delete_document (doc_id doc) (db w); fs := f |}.

(** [OutputFile.delete] *)
Definition OutputFile_delete (E : External) (o : OutputFile) (w : World)
  : World :=
  let f := remove_stored_file E (out_file o) (fs w) in
  {| db := delete_output_row (out_id o) (db w); fs := f |}.

(** ** forms.py *)

(** A file of [request.FILES]: [file.name] as Django hands it to the
    form, and the bytes of the file. *)
Record UploadedFile := { uf_name : string; uf_bytes : string }.

Definition supported_upload_types : list string :=
  ["pdf"; "png"; "jpg"; "jpeg"; "tiff"; "bmp"; "gif"].

(** [DocumentUploadForm.clean_file]: the file type to store on the
    instance, or a validation error.  The field has already accepted the
    file, so it has a name and [if file:] holds. *)
Definition clean_file (file : UploadedFile) : result string :=
  let file_type := Py.lower (Py.last_item (Py.split_char "." (uf_name file))) in
  if negb (existsb (String.eqb file_type) supported_upload_types) then
    Raise (mk_exn OtherError
      "Unsupported file type. Please upload PDF, PNG, JPEG, TIFF, BMP, or GIF files.")
  else Ok file_type.

(** [forms.CharField.clean]: an absent value counts as empty; the value
    is stripped; an empty one is refused when the field is required and
    is the cleaned value otherwise; one that is not empty must not be
    longer than [max_length] characters, when there is one, and must
    hold no null character. *)
Definition CharField (required : bool) (max_length : option nat)
    (posted : option string) : option string :=
  let value := Py.strip (default "" posted) in
  if String.eqb value "" then (if required then None else Some "")
  else
    let too_long :=
      match max_length with
      | Some n => (n <? Py.len value)%nat
      | None => false
      end in
    if too_long || existsb (Ascii.eqb "000") (list_ascii_of_string value)
    then None else Some value.

(** A [CharField(max_length=n)] that is required. *)
Definition clean_char (n : nat) (posted : option string) : option string :=
  CharField true (Some n) posted.

(** [forms.FileField.clean] for the [file] field of the model form,
    which is required, has the model field's [max_length=100] and
    allows no empty file: a file must be posted, its name must be
    at most 100 characters long and not empty, and it must hold at
    least one byte. *)
Definition FileField (file : option UploadedFile) : option UploadedFile :=
  match file with
  | None => None
  | Some f =>
      if (100 <? Py.len (uf_name f))%nat
         || String.eqb (uf_name f) ""
         || String.eqb (uf_bytes f) ""
      then None else Some f
  end.

(** [DocumentUploadForm.is_valid()]: the [file] field accepts the file
    and [clean_file] does; the title, which is optional
    ([blank=True]), is accepted by its [CharField(max_length=255)].
    Returns the cleaned title, the file and its type. *)
Definition DocumentUploadForm (file : option UploadedFile) (title : string)
  : option (string * UploadedFile * string) :=
  match FileField file with
  | None => None
  | Some f =>
      match clean_file f with
      | Ok file_type =>
          match CharField false (Some 255) (Some title) with
          | Some title => Some (title, f, file_type)
          | None => None
          end
      | Raise _ => None
      end
  end.

(** [OCRLanguageForm] and [TranslationForm]: one model-form field each,
    a [CharField(max_length=10)]; the choice lists are set on a field
    that does not read them. *)
Definition OCRLanguageForm (language : option string) : option string :=
  clean_char 10 language.

Definition TranslationForm (target_language : option string) : option string :=
  clean_char 10 target_language.

Definition OUTPUT_FORMATS : list string := ["pdf"; "docx"; "txt"; "jpeg"; "png"].

(** [OutputFormatForm.is_valid()]: the text is a required [CharField]
    without [max_length], the format a [ChoiceField], which takes one
    of the choices as it is posted.  Returns
    [(translated_text, output_format)]. *)
Definition OutputFormatForm (translated_text output_format : option string)
  : option (string * string) :=
  match CharField true None translated_text, output_format with
  | Some t, Some f =>
      if existsb (String.eqb f) OUTPUT_FORMATS then Some (t, f) else None
  | _, _ => None
  end.

(** ** views.py *)

Inductive Method := GET | POST.

(** A message of [django.contrib.messages]: level and text. *)
Definition Message := (string * string)%type.

Inductive Response :=
  | Http404
  | Redirect (to : string) (arg : option nat) (msgs : list Message)
  | Render (view_name : string) (msgs : list Message).

(** A request: the URL it is routed to with its argument, the method,
    the posted fields, and the UUID that [uuid.uuid4()] will draw while
    it is served. *)
Inductive Request :=
  | ReqHome
  | ReqUpload (m : Method) (file : option UploadedFile) (title : string)
      (uuid : string)
  | ReqOcr (document_id : nat) (m : Method) (language : option string)
  | ReqTranslate (ocr_id : nat) (m : Method) (target_language : option string)
  | ReqOutputFormat (translation_id : nat) (m : Method)
      (translated_text output_format : option string) (uuid : string)
  | ReqResult (output_id : nat)
  | ReqDocumentDetail (document_id : nat)
  | ReqDeleteDocument (document_id : nat) (m : Method).

Definition with_db (d : DB) (w : World) : World := {| db := d; fs := fs w |}.
Definition with_fs (f : FS) (w : World) : World := {| db := db w; fs := f |}.

(** [upload_view]; [form.save()] stores the file under the name that
    [get_file_path] makes and inserts the row. *)
Definition upload_view (E : External) (m : Method)
    (file : option UploadedFile) (title uuid : string) (w : World)
  : Response * World :=
  match m with
  | POST =>
      match DocumentUploadForm file title with
      | Some (title, f, file_type) =>
          let name := get_file_path uuid (uf_name f) in
          let files := <[storage_path E name := RawFile (uf_bytes f)]> (fs w) in
          let '(document, d) := create_document title name file_type (db w) in
          (Redirect "translator:ocr" (Some (doc_id document))
             [("success", "Document uploaded successfully!")],
           {| db := d; fs := files |})
      | None => (Render "upload" [], w)
      end
  | GET => (Render "upload" [], w)
  end.

(** [perform_ocr(document.file.path, language)] *)
Definition ocr_call (E : External) (document : Document) (language : string)
  : result string :=
  path ← file_path E (doc_file document);
  perform_ocr E path language.

(** [ocr_view] *)
Definition ocr_view (E : External) (document_id : nat) (m : Method)
    (language : option string) (w : World) : Response * World :=
  match get_document (db w) document_id with
  | None => (Http404, w)
  | Some document =>
      match ocr_result_of (db w) (doc_id document) with
      | Some r =>
          (Redirect "translator:translate" (Some (ocr_id r))
             [("info", "OCR has already been performed on this document.")],
           w)
      | None =>
          match m, OCRLanguageForm language with
          | POST, Some language =>
              let document := set_status "processing" document in
              let d := save_document document (db w) in
              match ocr_call E document language with
              | Ok ocr_text =>
                  let '(ocr_result, d) :=
                    create_ocr_result (doc_id document) ocr_text language d in
                  let document := set_status "completed" document in
                  let d := save_document document d in
                  (Redirect "translator:translate" (Some (ocr_id ocr_result))
                     [("success", "OCR processing completed successfully!")],
                   with_db d w)
              | Raise e =>
                  let document := set_status "failed" document in
                  let d := save_document document d in
                  (Render "ocr"
                     [("error", "OCR processing failed: " +:+ exn_msg e)],
                   with_db d w)
              end
          | _, _ => (Render "ocr" [], w)
          end
      end
  end.

(** The dictionary of [translate_view]. *)
Definition tesseract_to_deepl_items : list (string * string) :=
  [("eng", "EN"); ("fra", "FR"); ("deu", "DE"); ("spa", "ES");
   ("ita", "IT"); ("por", "PT"); ("rus", "RU"); ("jpn", "JA");
   ("chi_sim", "ZH"); ("nld", "NL"); ("pol", "PL")].

Definition tesseract_to_deepl : gmap string string :=
  list_to_map tesseract_to_deepl_items.

(** [translate_view] *)
Definition translate_view (E : External) (id : nat) (m : Method)
    (target_language : option string) (w : World) : Response * World :=
  match get_ocr_result (db w) id with
  | None => (Http404, w)
  | Some ocr_result =>
      match m, TranslationForm target_language with
      | POST, Some target_lang =>
          let source_lang := ocr_language ocr_result in
          let deepl_source_lang := tesseract_to_deepl !! source_lang in
          match
            translate_text E (ocr_text ocr_result) deepl_source_lang target_lang
          with
          | Ok translated_text =>
              let '(translation, d) :=
                create_translation (ocr_id ocr_result) translated_text
                  source_lang target_lang (db w) in
              (Redirect "translator:output_format" (Some (tr_id translation))
                 [("success", "Text translated successfully!")],
               with_db d w)
          | Raise e =>
              (Render "translate"
                 [("error", "Translation failed: " +:+ exn_msg e)], w)
          end
      | _, _ => (Render "translate" [], w)
      end
  end.

(** The path [output_format_view] asks the renderer to write. *)
Definition render_path (E : External) (uuid output_format : string) : string :=
  let output_dir := Py.path_join (MEDIA_ROOT E) "outputs" in
  let filename := uuid +:+ "." +:+ output_format in
  Py.path_join output_dir filename.

(** [output_format_view]; [os.makedirs] leaves the flat file map as it
    is. *)
Definition output_format_view (E : External) (translation_id : nat)
    (m : Method) (translated_text output_format : option string)
    (uuid : string) (w : World) : Response * World :=
  match get_translation (db w) translation_id with
  | None => (Http404, w)
  | Some translation =>
      match m, OutputFormatForm translated_text output_format with
      | POST, Some (edited_text, output_format) =>
          let filename := uuid +:+ "." +:+ output_format in
          let output_path := render_path E uuid output_format in
          match
            generate_output_file E edited_text output_format output_path (fs w)
          with
          | (Ok _, files) =>
              let relative_path := Py.path_join "outputs" filename in
              let '(output_file, d) :=
                create_output_file (tr_id translation) relative_path
                  output_format (db w) in
              let '(d, edits) :=
                if negb (String.eqb edited_text (tr_text translation)) then
                  (save_translation (set_text edited_text translation) d,
                   [("info",
                     "Translation text has been updated with your edits.")])
                else (d, []) in
              (Redirect "translator:result" (Some (out_id output_file))
                 (edits ++
                  [("success",
                    Py.upper output_format +:+ " file generated successfully!")]),
               {| db := d; fs := files |})
          | (Raise e, files) =>
              (Render "output_format"
                 [("error", "Output file generation failed: " +:+ exn_msg e)],
               with_fs files w)
          end
      | _, _ => (Render "output_format" [], w)
      end
  end.

(** [result_view] and [document_detail_view] *)
Definition result_view (output_id : nat) (w : World) : Response * World :=
  match get_output_file (db w) output_id with
  | None => (Http404, w)
  | Some _ => (Render "result" [], w)
  end.

Definition document_detail_view (document_id : nat) (w : World)
  : Response * World :=
  match get_document (db w) document_id with
  | None => (Http404, w)
  | Some _ => (Render "document_detail" [], w)
  end.

(** [delete_document_view] *)
Definition delete_document_view (E : External) (document_id : nat)
    (m : Method) (w : World) : Response * World :=
  match get_document (db w) document_id with
  | None => (Http404, w)
  | Some document =>
      match m with
      | POST =>
          (Redirect "translator:home" None
             [("success", "Document deleted successfully!")],
           Document_delete E document w)
      | GET =>
          (Redirect "translator:document_detail" (Some (doc_id document)) [], w)
      end
  end.

(** urls.py: one request served. *)
Definition serve (E : External) (r : Request) (w : World) : Response * World :=
  match r with
  | ReqHome => (Render "home" [], w)
  | ReqUpload m file title uuid => upload_view E m file title uuid w
  | ReqOcr id m language => ocr_view E id m language w
  | ReqTranslate id m target => translate_view E id m target w
  | ReqOutputFormat id m text format uuid =>
      output_format_view E id m text format uuid w
  | ReqResult id => result_view id w
  | ReqDocumentDetail id => document_detail_view id w
  | ReqDeleteDocument id m => delete_document_view E id m w
  end.

(** The worlds a sequence of requests goes through, the start included.
    Every request comes with the answers the engines give while it is
    served. *)
Fixpoint run (reqs : list (External * Request)) (w : World) : list World :=
  match reqs with
  | [] => [w]
  | (E, r) :: rest => w :: run rest (serve E r w).2
  end.

(** The worlds the application can be in: those a sequence of requests
    reaches from the empty database, whatever files the disk holds. *)
Inductive reachable : World -> Prop :=
  | reach_start f : reachable {| db := empty_db; fs := f |}
  | reach_serve E r w : reachable w -> reachable (serve E r w).2.

(** * Vocabulary of the properties and sample data *)

(** Every [img.save] the pen has made went to [output_path]. *)
Definition saved_at (output_path : string) (p : Pen) : Prop :=
  Forall (fun s => s.1 = output_path) (saves p).

(** *** The rows of an image, told without the canvas

    What [create_image_file] draws, as a list of rows in the order it
    draws them: a line that fits is one row; a line that does not is
    cut at its white space, words being joined by one blank as long as
    the row fits, and the row before a word that does not fit any more
    is drawn as it is, empty or too wide as it may be. *)
Fixpoint wrap_rows (font : Font) (words : list string) (current_line : string)
  : list string :=
  match words with
  | [] => if nonempty current_line then [current_line] else []
  | word :: rest =>
      let test_line :=
        if nonempty current_line then current_line +:+ " " +:+ word
        else word in
      if fits font test_line then wrap_rows font rest test_line
      else current_line :: wrap_rows font rest word
  end.

Definition line_rows (font : Font) (line : string) : list string :=
  if fits font line then [line] else wrap_rows font (Py.split_ws line) "".

Definition text_rows (font : Font) (text : string) : list string :=
  flat_map (line_rows font) (Py.split_char "010" text).

(** Rows on a canvas, from the top margin down, 20 apart. *)
Definition place (rows : list string) : Canvas :=
  imap (fun i s => (20, 20 + 20 * Z.of_nat i, s)%Z) rows.

(** The [i]-th flush of a rendering whose rows are [rows]: rows
    [69 * i] to [69 * i + 68], written to the output path. *)
Definition flush (output_path format : string) (rows : list string) (i : nat)
  : string * Content :=
  (output_path, ImageFile format (place (take 69 (drop (69 * i) rows)))).

(** The pen after the rows [rows] have been drawn and the check for a
    new page has been made: [q] canvases of 69 rows have been flushed
    and the canvas holds the [r] rows since. *)
Definition paged (output_path format : string) (rows : list string) (p : Pen)
  : Prop :=
  ∃ q r : nat,
    length rows = (69 * q + r)%nat ∧ (r < 69)%nat
    ∧ img p = place (drop (69 * q) rows)
    ∧ y p = (20 + 20 * Z.of_nat r)%Z
    ∧ saves p = map (flush output_path format rows) (seq 0 q).

(** The text the specification describes for a PDF whose pages read
    [texts]: before each page's text its marker, pages counted from
    [i + 1]. *)
Fixpoint pages_text (i : nat) (texts : list string) : string :=
  match texts with
  | [] => ""
  | t :: rest => page_marker (i + 1) +:+ t +:+ pages_text (S i) rest
  end.

(** An engine that rasterizes every PDF into three pages and reads page
    [n] as the text "page-n". *)
Definition three_page_engine : External :=
  {| MEDIA_ROOT := "/srv/media"; home_dir := "/root";
     convert_from_path := fun _ => Ok [Bitmap_of 1; Bitmap_of 2; Bitmap_of 3];
     image_open := fun _ => Ok (Bitmap_of 0);
     image_to_string := fun '(Bitmap_of n) _ => Ok ("page-" +:+ pretty n);
     deepl_translate := fun text _ _ => Ok text;
     docx_styled := fun _ => Ok tt; docx_plain := fun _ => Ok tt;
     fpdf_render := fun _ => Ok tt; reportlab_render := fun _ => Ok tt;
     temp_txt_path := "/tmp/tmp1.txt"; temp_html_path := "/tmp/tmp2.html";
     wkhtmltopdf := Ok tt;
     truetype := fun _ => Raise (mk_exn OtherError "cannot open resource");
     load_default :=
       {| getlength := fun s =>
            inject_Z (6 * Z.of_nat (String.length s))%Z |};
     write_text := fun _ _ => Ok tt;
     image_save := fun _ _ => Ok tt |}.


(** A world after one full pass of the pipeline: a document, its OCR
    result, one translation and one rendered output, with their files. *)
Definition sample_db : DB :=
  {| documents :=
       [{| doc_id := 1; doc_title := "Invoice";
           doc_file := "uploads/u1.pdf"; doc_file_type := "pdf";
           doc_status := "completed" |}];
     ocr_results :=
       [{| ocr_id := 1; ocr_document := 1; ocr_text := "hello";
           ocr_language := "eng" |}];
     translations :=
       [{| tr_id := 1; tr_ocr_result := 1; tr_text := "bonjour";
           tr_source_language := "eng"; tr_target_language := "FR" |}];
     output_files :=
       [{| out_id := 1; out_translation := 1; out_file := "outputs/o1.txt";
           out_file_type := "txt" |}];
     next_document := 2; next_ocr_result := 2; next_translation := 2;
     next_output_file := 2 |}.

Definition sample_world : World :=
  {| db := sample_db;
     fs := {[ "/srv/media/uploads/u1.pdf" := RawFile "%PDF-1.4";
              "/srv/media/outputs/o1.txt" := TextFile "bonjour" ]} |}.

(** The status the document is left with. *)
Definition ocr_final_status (r : result string) : string :=
  match r with Ok _ => "completed" | Raise _ => "failed" end.

(** A world right after an upload, and an engine whose rasterizer
    fails. *)
Definition uploaded_doc : Document :=
  {| doc_id := 1; doc_title := "Invoice"; doc_file := "uploads/u1.pdf";
     doc_file_type := "pdf"; doc_status := "pending" |}.

Definition uploaded_world : World :=
  {| db :=
       {| documents := [uploaded_doc]; ocr_results := []; translations := [];
          output_files := []; next_document := 2; next_ocr_result := 1;
          next_translation := 1; next_output_file := 1 |};
     fs := {[ "/srv/media/uploads/u1.pdf" := RawFile "%PDF-1.4" ]} |}.

Definition broken_pdf_engine : External :=
  {| MEDIA_ROOT := MEDIA_ROOT three_page_engine;
     home_dir := home_dir three_page_engine;
     convert_from_path := fun _ =>
       Raise (mk_exn OtherError "Unable to get page count.");
     image_open := image_open three_page_engine;
     image_to_string := image_to_string three_page_engine;
     deepl_translate := deepl_translate three_page_engine;
     docx_styled := docx_styled three_page_engine;
     docx_plain := docx_plain three_page_engine;
     fpdf_render := fpdf_render three_page_engine;
     reportlab_render := reportlab_render three_page_engine;
     temp_txt_path := temp_txt_path three_page_engine;
     temp_html_path := temp_html_path three_page_engine;
     wkhtmltopdf := wkhtmltopdf three_page_engine;
     truetype := truetype three_page_engine;
     load_default := load_default three_page_engine;
     write_text := write_text three_page_engine;
     image_save := image_save three_page_engine |}.

(** No document of the world is in the status 'processing'. *)
Definition settled (w : World) : Prop :=
  Forall (fun d => doc_status d ≠ "processing") (documents (db w)).

(** The text of the translation [id], when there is one. *)
Definition text_of (w : World) (id : nat) : option string :=
  tr_text <$> get_translation (db w) id.

(** The translation [id] has a text before and after, and they differ. *)
Definition text_changed (id : nat) (w1 w2 : World) : bool :=
  match text_of w1 id, text_of w2 id with
  | Some a, Some b => negb (String.eqb a b)
  | _, _ => false
  end.

(** How many times the text of translation [id] changes along a
    sequence of worlds. *)
Fixpoint text_mutations (id : nat) (ws : list World) : nat :=
  match ws with
  | w1 :: (w2 :: _) as rest =>
      (if text_changed id w1 w2 then 1 else 0) + text_mutations id rest
  | _ => 0
  end.

(** The database [output_format_view] leaves after a successful render
    for translation [t] with the text [edited]. *)
Definition rendered_db (t : Translation) (edited file format : string)
    (d : DB) : DB :=
  let d := (create_output_file (tr_id t) file format d).2 in
  if negb (String.eqb edited (tr_text t))
  then save_translation (set_text edited t) d else d.

(** One document taken through the pipeline, then rendered twice with
    two different edits of the translated text. *)
Definition two_edits : list (External * Request) :=
  [(three_page_engine,
    ReqUpload POST (Some {| uf_name := "invoice.pdf"; uf_bytes := "%PDF-1.4" |})
      "Invoice" "u1");
   (three_page_engine, ReqOcr 1 POST (Some "eng"));
   (three_page_engine, ReqTranslate 1 POST (Some "FR"));
   (three_page_engine,
    ReqOutputFormat 1 POST (Some "first edit") (Some "txt") "o1");
   (three_page_engine,
    ReqOutputFormat 1 POST (Some "second edit") (Some "txt") "o2")].

(** The lines "1", "2", ..., "n". *)
Definition numbered_lines (n : nat) : string :=
  String.concat nl (map pretty (seq 1 n)).

(** [old in s] *)
Fixpoint occurs (old s : string) : bool :=
  String.prefix old s
  || match s with
     | EmptyString => false
     | String _ s' => occurs old s'
     end.

(** An installation where neither PDF library works and wkhtmltopdf is
    not installed. *)
Definition no_pdf_tools_engine : External :=
  {| MEDIA_ROOT := MEDIA_ROOT three_page_engine;
     home_dir := home_dir three_page_engine;
     convert_from_path := convert_from_path three_page_engine;
     image_open := image_open three_page_engine;
     image_to_string := image_to_string three_page_engine;
     deepl_translate := deepl_translate three_page_engine;
     docx_styled := docx_styled three_page_engine;
     docx_plain := docx_plain three_page_engine;
     fpdf_render := fun _ =>
       Raise (mk_exn OtherError "No module named 'fpdf'");
     reportlab_render := fun _ =>
       Raise (mk_exn OtherError "Can't open font file");
     temp_txt_path := temp_txt_path three_page_engine;
     temp_html_path := temp_html_path three_page_engine;
     wkhtmltopdf :=
       Raise (mk_exn FileNotFoundError
                "[Errno 2] No such file or directory: 'wkhtmltopdf'");
     truetype := truetype three_page_engine;
     load_default := load_default three_page_engine;
     write_text := write_text three_page_engine;
     image_save := image_save three_page_engine |}.

(** A request that is served without a POST: the three pages that only
    show something, and every GET. *)
Definition is_safe (r : Request) : bool :=
  match r with
  | ReqHome | ReqResult _ | ReqDocumentDetail _ => true
  | ReqUpload m _ _ _ | ReqOcr _ m _ | ReqTranslate _ m _
  | ReqOutputFormat _ m _ _ _ | ReqDeleteDocument _ m =>
      match m with GET => true | POST => false end
  end.

(** The form a request posts is valid (requests without a form count as
    valid). *)
Definition form_valid (r : Request) : bool :=
  match r with
  | ReqUpload _ file title _ =>
      bool_decide (is_Some (DocumentUploadForm file title))
  | ReqOcr _ _ language => bool_decide (is_Some (OCRLanguageForm language))
  | ReqTranslate _ _ target => bool_decide (is_Some (TranslationForm target))
  | ReqOutputFormat _ _ text format _ =>
      bool_decide (is_Some (OutputFormatForm text format))
  | _ => true
  end.

(** The object a request's URL names is in the database (requests that
    name none count as found). *)
Definition target_exists (r : Request) (d : DB) : bool :=
  match r with
  | ReqHome | ReqUpload _ _ _ _ => true
  | ReqOcr id _ _ | ReqDocumentDetail id | ReqDeleteDocument id _ =>
      bool_decide (is_Some (get_document d id))
  | ReqTranslate id _ _ => bool_decide (is_Some (get_ocr_result d id))
  | ReqOutputFormat id _ _ _ _ => bool_decide (is_Some (get_translation d id))
  | ReqResult id => bool_decide (is_Some (get_output_file d id))
  end.

(** *** Consistency of the database *)

(** Every primary key in use is below the counter of its table. *)
Definition keys_fresh (d : DB) : Prop :=
  Forall (fun r => (doc_id r < next_document d)%nat) (documents d)
  ∧ Forall (fun r => (ocr_id r < next_ocr_result d)%nat) (ocr_results d)
  ∧ Forall (fun r => (tr_id r < next_translation d)%nat) (translations d)
  ∧ Forall (fun r => (out_id r < next_output_file d)%nat) (output_files d).

(** No two rows of a table share a primary key. *)
Definition keys_unique (d : DB) : Prop :=
  NoDup (map doc_id (documents d))
  ∧ NoDup (map ocr_id (ocr_results d))
  ∧ NoDup (map tr_id (translations d))
  ∧ NoDup (map out_id (output_files d)).

(** Every foreign key names a row that is there. *)
Definition references_resolve (d : DB) : Prop :=
  Forall (fun r => ocr_document r ∈ map doc_id (documents d)) (ocr_results d)
  ∧ Forall (fun t => tr_ocr_result t ∈ map ocr_id (ocr_results d))
      (translations d)
  ∧ Forall (fun o => out_translation o ∈ map tr_id (translations d))
      (output_files d).

(** No document has two OCR results. *)
Definition one_ocr_result_each (d : DB) : Prop :=
  NoDup (map ocr_document (ocr_results d)).

(** Every document is pending, completed or failed, and it is completed
    exactly when it has an OCR result. *)
Definition status_matches_rows (d : DB) : Prop :=
  Forall
    (fun x =>
       (doc_status x = "pending" ∨ doc_status x = "completed"
        ∨ doc_status x = "failed")
       ∧ (doc_status x = "completed"
          ↔ doc_id x ∈ map ocr_document (ocr_results d)))
    (documents d).

Definition consistent (d : DB) : Prop :=
  keys_fresh d ∧ keys_unique d ∧ references_resolve d
  ∧ one_ocr_result_each d ∧ status_matches_rows d.

(** *** Paths and names *)

(** [c in s] for a character. *)
Fixpoint has_char (c : ascii) (s : string) : bool :=
  match s with
  | EmptyString => false
  | String a s' => Ascii.eqb a c || has_char c s'
  end.

(** A character of [str(uuid.uuid4())]: a lower-case hexadecimal digit
    or a dash. *)
Definition is_uuid_char (a : ascii) : bool :=
  let n := nat_of_ascii a in
  ((48 <=? n)%nat && (n <=? 57)%nat) || ((97 <=? n)%nat && (n <=? 102)%nat)
  || (n =? 45)%nat.

(** A non-empty string of such characters. *)
Definition uuid_like (s : string) : bool :=
  nonempty s && forallb is_uuid_char (list_ascii_of_string s).

(** The world after a sequence of requests. *)
Definition serve_all (reqs : list (External * Request)) (w : World) : World :=
  foldl (fun w '(E, r) => (serve E r w).2) w reqs.

(** An engine whose OCR cannot read the second page of a PDF. *)
Definition smudged_page_engine : External :=
  {| MEDIA_ROOT := MEDIA_ROOT three_page_engine;
     home_dir := home_dir three_page_engine;
     convert_from_path := convert_from_path three_page_engine;
     image_open := image_open three_page_engine;
     image_to_string := fun '(Bitmap_of n) _ =>
       if (n =? 2)%nat
       then Raise (mk_exn OtherError "tesseract failed on page 2")
       else Ok ("page-" +:+ pretty n);
     deepl_translate := deepl_translate three_page_engine;
     docx_styled := docx_styled three_page_engine;
     docx_plain := docx_plain three_page_engine;
     fpdf_render := fpdf_render three_page_engine;
     reportlab_render := reportlab_render three_page_engine;
     temp_txt_path := temp_txt_path three_page_engine;
     temp_html_path := temp_html_path three_page_engine;
     wkhtmltopdf := wkhtmltopdf three_page_engine;
     truetype := truetype three_page_engine;
     load_default := load_default three_page_engine;
     write_text := write_text three_page_engine;
     image_save := image_save three_page_engine |}.

(** An engine whose OCR leaves white space around the text of a page:
    an ideographic space (U+3000) and a blank before it, a no-break
    space (U+00A0) and a line feed behind it. *)
Definition padded_page_engine : External :=
  {| MEDIA_ROOT := MEDIA_ROOT three_page_engine;
     home_dir := home_dir three_page_engine;
     convert_from_path := fun _ => Ok [Bitmap_of 1; Bitmap_of 2];
     image_open := image_open three_page_engine;
     image_to_string := fun '(Bitmap_of n) _ =>
       Ok (Py.utf8 [227; 128; 128] +:+ " page-" +:+ pretty n
           +:+ Py.utf8 [194; 160] +:+ nl);
     deepl_translate := deepl_translate three_page_engine;
     docx_styled := docx_styled three_page_engine;
     docx_plain := docx_plain three_page_engine;
     fpdf_render := fpdf_render three_page_engine;
     reportlab_render := reportlab_render three_page_engine;
     temp_txt_path := temp_txt_path three_page_engine;
     temp_html_path := temp_html_path three_page_engine;
     wkhtmltopdf := wkhtmltopdf three_page_engine;
     truetype := truetype three_page_engine;
     load_default := load_default three_page_engine;
     write_text := write_text three_page_engine;
     image_save := image_save three_page_engine |}.

(** *** The canvas *)

(** A [draw.text] call inside the margins: at the left margin, on a row
    between the top margin and the last row above the bottom margin. *)
Definition on_canvas (d : Z * Z * string) : Prop :=
  d.1.1 = 20%Z ∧ (20 ≤ d.1.2 ≤ height - 20)%Z.

(** A saved image whose rows are all inside the margins, at most [n] of
    them. *)
Definition image_within (n : nat) (s : string * Content) : Prop :=
  ∃ format c,
    s.2 = ImageFile format c ∧ Forall on_canvas c ∧ (length c ≤ n)%nat.

(** The pen between a [draw.text] and the check for a new page. *)
Definition pen_drawing (p : Pen) : Prop :=
  y p = (20 + 20 * Z.of_nat (length (img p)))%Z
  ∧ (y p ≤ height)%Z
  ∧ Forall on_canvas (img p)
  ∧ Forall (image_within 69) (saves p).

(** The pen after the check: the next row is still above the bottom
    margin. *)
Definition pen_ready (p : Pen) : Prop :=
  pen_drawing p ∧ (y p ≤ height - 20)%Z.

(** A row as the renderer means to draw it: it fits between the
    margins, or it is a single word of a line of the text (too wide to
    fit), or it is empty. *)
Definition row_fits (font : Font) (lines : list string) (s : string) : Prop :=
  fits font s = true ∨ s = ""
  ∨ ∃ line, line ∈ lines ∧ s ∈ Py.split_ws line.

Definition rows_fit (font : Font) (lines : list string) (p : Pen) : Prop :=
  Forall (fun d => row_fits font lines d.2) (img p)
  ∧ Forall (fun s => ∃ format c,
                s.2 = ImageFile format c
                ∧ Forall (fun d => row_fits font lines d.2) c)
      (saves p).

(** *** The font search, flattened *)

(** The fifteen paths the font search looks at, in the order it looks at
    them: font by font, and for each font directory by directory. *)
Definition candidate_paths (E : External) : list string :=
  flat_map
    (fun '(_, font_file) =>
       map (fun font_dir => Py.path_join font_dir font_file) (font_dirs E))
    potential_fonts.

(** The first path of a list that exists and loads as a font. *)
Fixpoint first_loadable (E : External) (f : FS) (paths : list string)
  : option Font :=
  match paths with
  | [] => None
  | p :: rest =>
      if path_exists f p then
        match truetype E p with
        | Ok font => Some font
        | Raise _ => first_loadable E f rest
        end
      else first_loadable E f rest
  end.

(** ** utils.py: how the DOCX and PDF renderers cut the text into pages

    [create_docx_file] (both tiers) and [create_pdf_file] (tiers 1 and
    2) cut the text at the page markers with the same statements; the
    definitions below are those statements, and the calls the python-docx
    document and the ReportLab canvas receive from them. *)

Module PyStr.

(** [s[n:]] *)
Fixpoint drop (n : nat) (s : string) : string :=
  match n, s with
  | S k, String _ s' => drop k s'
  | _, _ => s
  end.

(** [s.split(sep, 1)] for a non-empty [sep]: the text before and after
    the first [sep], or nothing when [sep] does not occur. *)
Fixpoint partition (sep s : string) : option (string * string) :=
  if String.prefix sep s then Some (EmptyString, drop (String.length sep) s)
  else match s with
       | EmptyString => None
       | String a s' =>
           match partition sep s' with
           | Some (before, after) => Some (String a before, after)
           | None => None
           end
       end.

(** [s.split(sep)] for a non-empty [sep]; [skip] counts the characters
    of a separator still to be dropped. *)
Fixpoint split_aux (sep : string) (skip : nat) (s : string) : list string :=
  match s with
  | EmptyString => [EmptyString]
  | String a s' =>
      match skip with
      | S k => split_aux sep k s'
      | O =>
          if String.prefix sep s
          then EmptyString :: split_aux sep (String.length sep - 1) s'
          else match split_aux sep O s' with
               | h :: t => String a h :: t
               | [] => [String a EmptyString]
               end
      end
  end.

Definition split (sep s : string) : list string := split_aux sep O s.

End PyStr.

(** [pages = text.split("--- Page")] *)
Definition split_pages (text : string) : list string :=
  PyStr.split "--- Page" text.

(** The content of a page after the first:
    [parts = page.split("---", 1)], then [parts[1].strip()] when there
    are two parts and [parts[0].strip()] otherwise. *)
Definition page_content (page : string) : string :=
  match PyStr.partition "---" page with
  | Some (_, after) => Py.strip after
  | None => Py.strip page
  end.

(** What a python-docx document is given. *)
Inductive DocxItem :=
  | Paragraph (text : string)
  | PageBreak.

(** The [add_paragraph] and [add_page_break] calls of
    [create_docx_file], in order; the two tiers make the same ones. *)
Definition docx_body (text : string) : list DocxItem :=
  match split_pages text with
  | [] => []
  | first :: rest =>
      ((if nonempty (Py.strip first)
        then [Paragraph (Py.strip first)] else [])
       ++ flat_map (fun page => [PageBreak; Paragraph (page_content page)])
            rest)%list
  end.

(** The contents [create_pdf_file] lays out, one per PDF page it
    starts: the first part stripped, the others cut after their
    marker. *)
Definition pdf_contents (text : string) : list string :=
  match split_pages text with
  | [] => []
  | first :: rest => Py.strip first :: map page_content rest
  end.

(** *** The ReportLab tier

    [letter] is 612 by 792 points.  The canvas is the pages closed by
    [showPage], the [drawString] calls on the open page, and the cursor
    [y]. *)
Definition letter_height : Z := 792%Z.

Record PdfCanvas := {
  closed_pages : list (list (Z * Z * string));
  open_page : list (Z * Z * string);
  cursor : Z
}.

(** [c.showPage()] *)
Definition showPage (c : PdfCanvas) : PdfCanvas :=
  {| closed_pages := (closed_pages c ++ [open_page c])%list;
     open_page := []; cursor := cursor c |}.

Definition at_top (c : PdfCanvas) : PdfCanvas :=
  {| closed_pages := closed_pages c; open_page := open_page c;
     cursor := (letter_height - 40)%Z |}.

(** The body of [for line in lines]: a new page when the cursor is
    below the bottom margin, then [c.drawString(40, y, line)] and
    [y -= 14]. *)
Definition pdf_draw_line (c : PdfCanvas) (line : string) : PdfCanvas :=
  let c := if (cursor c <? 40)%Z then at_top (showPage c) else c in
  {| closed_pages := closed_pages c;
     open_page := (open_page c ++ [(40%Z, cursor c, line)])%list;
     cursor := (cursor c - 14)%Z |}.

(** One content: [lines = content.split('\n')], the cursor at the top,
    then the lines. *)
Definition pdf_draw_content (c : PdfCanvas) (content : string) : PdfCanvas :=
  foldl pdf_draw_line (at_top c) (Py.split_char "010" content).

(** The body of [for i, page_content in enumerate(pages)]; [first] says
    whether [i] is 0. *)
Fixpoint pdf_draw_contents (first : bool) (c : PdfCanvas)
    (contents : list string) : PdfCanvas :=
  match contents with
  | [] => c
  | content :: rest =>
      pdf_draw_contents false
        (pdf_draw_content (if first then c else showPage c) content) rest
  end.

(** The pages of the PDF when [c.save()] closes the last one. *)
Definition reportlab_pages (text : string) : list (list (Z * Z * string)) :=
  let c := pdf_draw_contents true
             {| closed_pages := []; open_page := [];
                cursor := (letter_height - 40)%Z |}
             (pdf_contents text) in
  (closed_pages c ++ [open_page c])%list.

(** *** Vocabulary for the pages *)

(** A [drawString] inside the margins of a letter page. *)
Definition on_page (d : Z * Z * string) : Prop :=
  d.1.1 = 40%Z ∧ (40 ≤ d.1.2 ≤ letter_height - 40)%Z.

(** The strings a canvas has drawn so far, in order. *)
Definition drawn_lines (c : PdfCanvas) : list string :=
  map snd (concat (closed_pages c ++ [open_page c])).

Definition pdf_canvas_ok (c : PdfCanvas) : Prop :=
  cursor c = (letter_height - 40 - 14 * Z.of_nat (length (open_page c)))%Z
  ∧ (26 ≤ cursor c)%Z
  ∧ Forall on_page (open_page c)
  ∧ Forall (fun page => Forall on_page page ∧ (length page ≤ 51)%nat)
      (closed_pages c).

(** *** Vocabulary for the page markers *)

(** Every character of [s] satisfies [p]. *)
Fixpoint all_chars (p : ascii → bool) (s : string) : bool :=
  match s with
  | EmptyString => true
  | String a s' => p a && all_chars p s'
  end.

Definition is_digit (a : ascii) : bool :=
  let n := nat_of_ascii a in (48 <=? n)%nat && (n <=? 57)%nat.

(** What [split("--- Page")] makes of the text [x] followed by the
    marked pages [texts], numbered from [i + 1]: each part ends with
    the two line feeds that open the next marker, and starts with the
    rest of its own marker. *)
Fixpoint marked_parts (i : nat) (x : string) (texts : list string)
  : list string :=
  match texts with
  | [] => [x]
  | t :: rest =>
      (x +:+ nl +:+ nl)
      :: marked_parts (S i)
           (" " +:+ pretty (i + 1) +:+ " ---" +:+ nl +:+ nl +:+ t) rest
  end.

(** A page text that does not itself hold the words of a marker. *)
Definition marker_free (t : string) : Prop := occurs "--- Page" t = false.

(** * Properties *)

(** ** Strings *)

Lemma append_assoc (a b c : string) : (a +:+ b) +:+ c = a +:+ (b +:+ c).
Proof.
  induction a as [|x a IH]; [reflexivity | exact (f_equal (String x) IH)].
Qed.

Lemma append_nil_r (a : string) : a +:+ "" = a.
Proof.
  induction a as [|x a IH]; [reflexivity | exact (f_equal (String x) IH)].
Qed.

(** ** The OCR adapter *)

Lemma ocr_pages_text (E : External) (language : string)
    (images : list Bitmap) :
  ∀ (texts : list string) (i : nat) (acc : string),
    Forall2 (fun img t => image_to_string E img language = Ok t) images texts →
    ocr_pages E language i images acc = Ok (acc +:+ pages_text i texts).
Proof.
  induction images as [|img images IH]; intros texts i acc Hall.
  - inversion Hall; subst. simpl. by rewrite append_nil_r.
  - inversion Hall as [|? t ? rest Hhd Htl]; subst.
    cbn [ocr_pages pages_text]. rewrite Hhd.
    cbn [mbind result_bind]. rewrite (IH rest (S i) _ Htl).
    by rewrite !append_assoc.
Qed.

Lemma pages_text_three (t1 t2 t3 : string) :
  pages_text 0 [t1; t2; t3] =
  nl +:+ nl +:+ "--- Page 1 ---" +:+ nl +:+ nl +:+ t1 +:+
  nl +:+ nl +:+ "--- Page 2 ---" +:+ nl +:+ nl +:+ t2 +:+
  nl +:+ nl +:+ "--- Page 3 ---" +:+ nl +:+ nl +:+ t3.
Proof.
  cbn [pages_text]. rewrite append_nil_r. unfold page_marker.
  by rewrite !append_assoc.
Qed.

(** C6: when the rasterizer yields the page images [images] and the OCR
    engine reads them as [texts], [ocr_pdf] returns, for the pages in
    order and counted from 1, the marker of page k followed by the text
    of page k, and nothing else. *)
Theorem ocr_pdf_concatenates_pages (E : External) (pdf_path language : string)
    (images : list Bitmap) (texts : list string) :
  convert_from_path E pdf_path = Ok images →
  Forall2 (fun img t => image_to_string E img language = Ok t) images texts →
  ocr_pdf E pdf_path language = Ok (pages_text 0 texts).
Proof.
  intros Hconv Hall. unfold ocr_pdf. rewrite Hconv. simpl.
  by rewrite (ocr_pages_text E language images texts 0 "" Hall).
Qed.

Lemma ocr_pdf_three_pages :
  ocr_pdf three_page_engine "/srv/media/uploads/a.pdf" "eng" =
  Ok (nl +:+ nl +:+ "--- Page 1 ---" +:+ nl +:+ nl +:+ "page-1" +:+
      nl +:+ nl +:+ "--- Page 2 ---" +:+ nl +:+ nl +:+ "page-2" +:+
      nl +:+ nl +:+ "--- Page 3 ---" +:+ nl +:+ nl +:+ "page-3").
Proof.
  apply (ocr_pdf_concatenates_pages three_page_engine
           "/srv/media/uploads/a.pdf" "eng"
           [Bitmap_of 1; Bitmap_of 2; Bitmap_of 3]
           ["page-1"; "page-2"; "page-3"]).
  - reflexivity.
  - repeat constructor.
Defined.

(** ** The translation adapter *)

Lemma tesseract_to_deepl_keys_NoDup : NoDup tesseract_to_deepl_items.*1.
Proof. apply (bool_decide_unpack _). by vm_compute. Qed.

(** C7: on a POST with a valid form, [translate_view] asks the engine
    for the text of the OCR result with, as source language, what the
    Tesseract-to-DeepL table holds for the OCR language: the table's
    image of a code that is in the table ('eng' gives 'EN'), and no
    source language at all for a code that is not ('heb'). *)
Theorem translate_view_source_language (E : External) (w : World) (id : nat)
    (r : OCRResult) (posted : option string) (target_lang : string) :
  get_ocr_result (db w) id = Some r →
  TranslationForm posted = Some target_lang →
  translate_view E id POST posted w =
    match
      deepl_translate E (ocr_text r) (tesseract_to_deepl !! ocr_language r)
        target_lang
    with
    | Ok translated =>
        (Redirect "translator:output_format" (Some (next_translation (db w)))
           [("success", "Text translated successfully!")],
         with_db
           (create_translation (ocr_id r) translated (ocr_language r)
              target_lang (db w)).2 w)
    | Raise e =>
        (Render "translate"
           [("error",
             "Translation failed: Error translating text: " +:+ exn_msg e)],
         w)
    end
  ∧ (∀ code deepl, (code, deepl) ∈ tesseract_to_deepl_items →
       tesseract_to_deepl !! code = Some deepl)
  ∧ (∀ code, code ∉ tesseract_to_deepl_items.*1 →
       tesseract_to_deepl !! code = None)
  ∧ tesseract_to_deepl !! "eng" = Some "EN"
  ∧ tesseract_to_deepl !! "heb" = None.
Proof.
  intros Hr Hform. split; [|split; [|split; [|split]]].
  - unfold translate_view. rewrite Hr, Hform. unfold translate_text.
    destruct (deepl_translate E _ _ _) as [t|e]; reflexivity.
  - intros code deepl Hin.
    by apply elem_of_list_to_map_1; [apply tesseract_to_deepl_keys_NoDup|].
  - intros code Hout. by apply not_elem_of_list_to_map_1.
  - by vm_compute.
  - by vm_compute.
Qed.

Lemma translate_view_source_language_eng :
  translate_view three_page_engine 1 POST (Some "DE") sample_world =
  (Redirect "translator:output_format" (Some 2)
     [("success", "Text translated successfully!")],
   with_db
     (create_translation 1 "hello" "eng" "DE" sample_db).2 sample_world).
Proof.
  exact (proj1 (translate_view_source_language three_page_engine sample_world
                  1 {| ocr_id := 1; ocr_document := 1; ocr_text := "hello";
                       ocr_language := "eng" |}
                  (Some "DE") "DE" eq_refl eq_refl)).
Defined.

(** ** Upload *)

Lemma supported_type_nonempty (name : string) :
  existsb (String.eqb (Py.lower (Py.last_item (Py.split_char "." name))))
    supported_upload_types = true →
  String.eqb name "" = false.
Proof. by destruct name. Qed.

(** What a valid upload form says of what was posted. *)
Lemma DocumentUploadForm_some (file : option UploadedFile) (title t : string)
    (f : UploadedFile) (file_type : string) :
  DocumentUploadForm file title = Some (t, f, file_type) →
  file = Some f
  ∧ file_type = Py.lower (Py.last_item (Py.split_char "." (uf_name f)))
  ∧ existsb (String.eqb file_type) supported_upload_types = true
  ∧ (Py.len (uf_name f) ≤ 100)%nat
  ∧ uf_bytes f ≠ ""
  ∧ CharField false (Some 255) (Some title) = Some t.
Proof.
  unfold DocumentUploadForm, FileField, clean_file.
  destruct file as [f'|]; [|done].
  destruct (100 <? Py.len (uf_name f'))%nat eqn:Hlen; [done|].
  destruct (String.eqb (uf_name f') ""); [done|].
  destruct (String.eqb_spec (uf_bytes f') "") as [|Hbytes]; [done|].
  cbn [orb].
  destruct (existsb _ supported_upload_types) eqn:Hsup; [|done].
  cbn [negb].
  destruct (CharField false (Some 255) (Some title)) as [t'|]; [|done].
  intros [= -> -> <-]. apply Nat.ltb_ge in Hlen. by repeat split.
Qed.

(** C8: a posted file whose name ends, after its last dot and
    whatever the case, in one of pdf, png, jpg, jpeg, tiff, bmp, gif
    gives one new Document row, with that ending in lower case as
    [file_type] and the status 'pending', and its bytes stored under
    the uploads directory, provided the fields of the form accept what
    was posted: the file holds at least one byte, its name is at most
    100 characters long, and the title field accepts the title, whose
    cleaned value the row gets.  A posted file with any other ending
    is rejected and leaves the database and the file store as they
    were, and so does an empty file, a name that is too long or a
    title the field refuses. *)
Theorem upload_view_by_extension (E : External) (file : UploadedFile)
    (title uuid : string) (w : World) :
  let file_type :=
    Py.lower (Py.last_item (Py.split_char "." (uf_name file))) in
  let out := upload_view E POST (Some file) title uuid w in
  (existsb (String.eqb file_type) supported_upload_types = true →
   (Py.len (uf_name file) ≤ 100)%nat →
   uf_bytes file ≠ "" →
   ∀ cleaned : string,
     CharField false (Some 255) (Some title) = Some cleaned →
     documents (db out.2) =
       (documents (db w) ++
          [{| doc_id := next_document (db w); doc_title := cleaned;
              doc_file := get_file_path uuid (uf_name file);
              doc_file_type := file_type; doc_status := "pending" |}])%list
     ∧ fs out.2 !! storage_path E (get_file_path uuid (uf_name file))
       = Some (RawFile (uf_bytes file))
     ∧ out.1 = Redirect "translator:ocr" (Some (next_document (db w)))
                 [("success", "Document uploaded successfully!")])
  ∧ (existsb (String.eqb file_type) supported_upload_types = false
     ∨ (100 < Py.len (uf_name file))%nat
     ∨ uf_bytes file = ""
     ∨ CharField false (Some 255) (Some title) = None →
     out = (Render "upload" [], w)).
Proof.
  intros file_type out. subst out file_type.
  unfold upload_view, DocumentUploadForm, FileField. split.
  - intros Hsup Hlen Hbytes cleaned Htitle.
    apply Nat.ltb_ge in Hlen. rewrite Hlen.
    rewrite (supported_type_nonempty _ Hsup).
    apply String.eqb_neq in Hbytes. rewrite Hbytes.
    cbn [orb]. unfold clean_file. rewrite Hsup, Htitle.
    cbn [negb fst snd create_document db fs documents].
    split; [reflexivity|]. split; [|reflexivity].
    apply lookup_insert_eq.
  - intros Hrefused.
    destruct ((100 <? Py.len (uf_name file))%nat
              || String.eqb (uf_name file) ""
              || String.eqb (uf_bytes file) "") eqn:Hfield; [done|].
    apply orb_false_elim in Hfield as [Hfield Hbytes].
    apply orb_false_elim in Hfield as [Hlen Hname].
    unfold clean_file.
    destruct Hrefused as [Hsup|[Hlong|[Hempty|Htitle]]].
    + by rewrite Hsup.
    + apply Nat.ltb_lt in Hlong. congruence.
    + apply String.eqb_eq in Hempty. congruence.
    + rewrite Htitle.
      by destruct (negb (existsb _ supported_upload_types)).
Qed.

Lemma upload_view_by_extension_examples :
  documents
    (db (upload_view three_page_engine POST
           (Some {| uf_name := "Scan.01.PDF"; uf_bytes := "%PDF-1.4" |})
           " Invoice 7 " "0b0e" {| db := empty_db; fs := ∅ |}).2)
  = [{| doc_id := 1; doc_title := "Invoice 7";
        doc_file := "uploads/0b0e.PDF";
        doc_file_type := "pdf"; doc_status := "pending" |}]
  ∧ upload_view three_page_engine POST
      (Some {| uf_name := "notes.docx"; uf_bytes := "PK" |})
      "" "0b0e" {| db := empty_db; fs := ∅ |}
    = (Render "upload" [], {| db := empty_db; fs := ∅ |}).
Proof.
  split.
  - apply (proj1 (upload_view_by_extension three_page_engine
                    {| uf_name := "Scan.01.PDF"; uf_bytes := "%PDF-1.4" |}
                    " Invoice 7 " "0b0e" {| db := empty_db; fs := ∅ |}));
      [reflexivity | simpl; lia | done | reflexivity].
  - apply (proj2 (upload_view_by_extension three_page_engine
                    {| uf_name := "notes.docx"; uf_bytes := "PK" |}
                    "" "0b0e" {| db := empty_db; fs := ∅ |})).
    left. reflexivity.
Defined.

(** A file with a supported extension that is refused: it is empty. *)
Lemma upload_view_refuses_empty_file :
  existsb (String.eqb (Py.lower (Py.last_item (Py.split_char "." "scan.pdf"))))
    supported_upload_types = true
  ∧ upload_view three_page_engine POST
      (Some {| uf_name := "scan.pdf"; uf_bytes := "" |})
      "Invoice" "0b0e" {| db := empty_db; fs := ∅ |}
    = (Render "upload" [], {| db := empty_db; fs := ∅ |}).
Proof. split; reflexivity. Qed.

(** ** The database *)

Section Rows.
Context {A : Type}.

Lemma find_none_filter (f : A → bool) (l : list A) :
  find f l = None → List.filter f l = [].
Proof.
  induction l as [|x l IH]; simpl; [done|].
  destruct (f x); [done | exact IH].
Qed.

Lemma find_some_holds (f : A → bool) (l : list A) (x : A) :
  find f l = Some x → f x = true ∧ x ∈ l.
Proof.
  induction l as [|y l IH]; simpl; [done|].
  destruct (f y) eqn:Hy.
  - intros [= ->]. split; [done | apply list_elem_of_here].
  - intros H. destruct (IH H) as [? ?]. split; [done|].
    by apply list_elem_of_further.
Qed.

(** Replacing the rows that [c] selects by [d], which [f] selects
    exactly when [c] does, moves the first hit of [f] to [d]. *)
Lemma find_replace (f c : A → bool) (d x : A) (l : list A) :
  (∀ r, f r = c r) → f d = true → find f l = Some x →
  find f (map (fun r => if c r then d else r) l) = Some d.
Proof.
  intros Hfc Hd. induction l as [|y l IH]; simpl; [done|].
  destruct (f y) eqn:Hy.
  - intros _. rewrite <- Hfc, Hy. by rewrite Hd.
  - intros H. rewrite <- Hfc, Hy, Hy. by apply IH.
Qed.

Lemma Forall_replace (P : A → Prop) (c : A → bool) (d : A) (l : list A) :
  P d → Forall P l → Forall P (map (fun r => if c r then d else r) l).
Proof.
  intros Hd Hl. induction Hl as [|y l Hy Hl IH]; simpl; constructor.
  - by destruct (c y).
  - exact IH.
Qed.

Lemma Forall_list_filter (P : A → Prop) (f : A → bool) (l : list A) :
  Forall P l → Forall P (List.filter f l).
Proof.
  intros Hl. induction Hl as [|y l Hy Hl IH]; simpl; [constructor|].
  destruct (f y); [by constructor | exact IH].
Qed.

Lemma replace_twice (c : A → bool) (d1 d2 : A) (l : list A) :
  c d1 = true →
  map (fun r => if c r then d2 else r)
    (map (fun r => if c r then d1 else r) l)
  = map (fun r => if c r then d2 else r) l.
Proof.
  intros Hd. rewrite map_map. apply map_ext. intros r.
  destruct (c r) eqn:Hr; [by rewrite Hd | by rewrite Hr].
Qed.

Lemma Forall_replace_twice (P : A → Prop) (c : A → bool) (d1 d2 : A)
    (l : list A) :
  c d1 = true → P d2 → Forall P l →
  Forall P (map (fun r => if c r then d2 else r)
              (map (fun r => if c r then d1 else r) l)).
Proof.
  intros Hc Hd Hl. rewrite replace_twice by exact Hc.
  by apply Forall_replace.
Qed.
End Rows.

Lemma get_document_id (d : DB) (id : nat) (doc : Document) :
  get_document d id = Some doc → doc_id doc = id.
Proof.
  intros H. apply find_some_holds in H as [H _]. by apply Nat.eqb_eq in H.
Qed.

Lemma get_document_when_saved (d : DB) (id : nat) (old doc : Document) :
  get_document d id = Some old → doc_id doc = id →
  get_document (save_document doc d) id = Some doc.
Proof.
  intros Hold Hid. unfold get_document, save_document. cbn [documents].
  apply (find_replace _ _ doc old); [| by apply Nat.eqb_eq | exact Hold].
  intros r. by rewrite Hid.
Qed.

Lemma save_document_twice (d : DB) (d1 d2 : Document) :
  doc_id d1 = doc_id d2 →
  save_document d2 (save_document d1 d) = save_document d2 d.
Proof.
  intros Hid. unfold save_document. cbn [documents ocr_results translations
    output_files next_document next_ocr_result next_translation
    next_output_file]. f_equal. rewrite Hid.
  apply (replace_twice (fun r => doc_id r =? doc_id d2)%nat).
  by apply Nat.eqb_eq.
Qed.

(** ** The OCR stage *)

(** What [ocr_view] does with a document that has no OCR result yet,
    on a POST with a valid form. *)
Lemma ocr_view_processed (E : External) (w : World) (id : nat)
    (doc : Document) (posted : option string) (language : string) :
  get_document (db w) id = Some doc →
  ocr_result_of (db w) id = None →
  OCRLanguageForm posted = Some language →
  ocr_view E id POST posted w =
    match ocr_call E doc language with
    | Ok text =>
        (Redirect "translator:translate" (Some (next_ocr_result (db w)))
           [("success", "OCR processing completed successfully!")],
         with_db
           (save_document (set_status "completed" doc)
              (create_ocr_result id text language
                 (save_document (set_status "processing" doc) (db w))).2) w)
    | Raise e =>
        (Render "ocr" [("error", "OCR processing failed: " +:+ exn_msg e)],
         with_db (save_document (set_status "failed" doc) (db w)) w)
    end.
Proof.
  intros Hdoc Hnone Hform. pose proof (get_document_id _ _ _ Hdoc) as Hid.
  unfold ocr_view. rewrite Hdoc. cbv beta iota.
  rewrite Hid, Hnone, Hform. cbv beta iota.
  change (ocr_call E (set_status "processing" doc) language)
    with (ocr_call E doc language).
  change (doc_id (set_status "processing" doc)) with (doc_id doc).
  change (set_status "completed" (set_status "processing" doc))
    with (set_status "completed" doc).
  change (set_status "failed" (set_status "processing" doc))
    with (set_status "failed" doc).
  destruct (ocr_call E doc language) as [text|e].
  - rewrite Hid. reflexivity.
  - by rewrite save_document_twice.
Qed.

Lemma ocr_view_processed_document (E : External) (w : World) (id : nat)
    (doc : Document) (posted : option string) (language : string) :
  get_document (db w) id = Some doc →
  ocr_result_of (db w) id = None →
  OCRLanguageForm posted = Some language →
  get_document (db (ocr_view E id POST posted w).2) id =
    Some (set_status (ocr_final_status (ocr_call E doc language)) doc).
Proof.
  intros Hdoc Hnone Hform.
  pose proof (get_document_id _ _ _ Hdoc) as Hid.
  rewrite (ocr_view_processed E w id doc posted language Hdoc Hnone Hform).
  destruct (ocr_call E doc language) as [text|e];
    cbn [snd with_db db ocr_final_status].
  - apply (get_document_when_saved _ _ (set_status "processing" doc));
      [|exact Hid].
    change (get_document (save_document (set_status "processing" doc) (db w))
              id = Some (set_status "processing" doc)).
    by apply (get_document_when_saved _ _ doc).
  - by apply (get_document_when_saved _ _ doc).
Qed.

(** C5: a POST with a valid form for a document that has no OCR result
    yet.  If the OCR call returns, the document has exactly one
    OCRResult row, holding the text and the language, and its status is
    'completed'.  If the OCR call raises, the document has no OCRResult
    row, its status is 'failed', and nothing else has changed: the
    other fields of the document, the other documents, the three other
    tables and the file store are as they were. *)
Theorem ocr_view_completed_or_failed (E : External) (w : World) (id : nat)
    (doc : Document) (posted : option string) (language : string) :
  get_document (db w) id = Some doc →
  ocr_result_of (db w) id = None →
  OCRLanguageForm posted = Some language →
  let w' := (ocr_view E id POST posted w).2 in
  match ocr_call E doc language with
  | Ok text =>
      ocr_rows_of (db w') id =
        [{| ocr_id := next_ocr_result (db w); ocr_document := id;
            ocr_text := text; ocr_language := language |}]
      ∧ get_document (db w') id =
          Some {| doc_id := id; doc_title := doc_title doc;
                  doc_file := doc_file doc;
                  doc_file_type := doc_file_type doc;
                  doc_status := "completed" |}
  | Raise e =>
      ocr_rows_of (db w') id = []
      ∧ get_document (db w') id =
          Some {| doc_id := id; doc_title := doc_title doc;
                  doc_file := doc_file doc;
                  doc_file_type := doc_file_type doc;
                  doc_status := "failed" |}
      ∧ documents (db w') =
          map (fun r =>
                 if (doc_id r =? id)%nat
                 then {| doc_id := id; doc_title := doc_title doc;
                         doc_file := doc_file doc;
                         doc_file_type := doc_file_type doc;
                         doc_status := "failed" |}
                 else r)
            (documents (db w))
      ∧ ocr_results (db w') = ocr_results (db w)
      ∧ translations (db w') = translations (db w)
      ∧ output_files (db w') = output_files (db w)
      ∧ fs w' = fs w
  end.
Proof.
  intros Hdoc Hnone Hform w'. subst w'.
  pose proof (get_document_id _ _ _ Hdoc) as Hid.
  pose proof (ocr_view_processed_document E w id doc posted language
                Hdoc Hnone Hform) as Hstatus.
  rewrite (ocr_view_processed E w id doc posted language Hdoc Hnone Hform)
    in Hstatus |- *.
  destruct (ocr_call E doc language) as [text|e]; cbn [snd] in Hstatus |- *.
  - split; [|rewrite Hstatus; unfold set_status; by rewrite Hid].
    unfold ocr_rows_of. cbn [with_db db save_document create_ocr_result
      snd ocr_results]. rewrite List.filter_app.
    rewrite (find_none_filter _ _ Hnone). cbn [List.filter ocr_document].
    by rewrite Nat.eqb_refl.
  - split; [|split; [rewrite Hstatus; unfold set_status; by rewrite Hid|]].
    + unfold ocr_rows_of. cbn [with_db db save_document ocr_results].
      by apply find_none_filter.
    + cbn [with_db db fs save_document documents ocr_results translations
             output_files].
      subst id. by repeat split.
Qed.

Lemma ocr_view_completed_or_failed_examples :
  (ocr_rows_of (db (ocr_view three_page_engine 1 POST (Some "eng ")
                      uploaded_world).2) 1
   = [{| ocr_id := 1; ocr_document := 1;
         ocr_text := pages_text 0 ["page-1"; "page-2"; "page-3"];
         ocr_language := "eng" |}]
   ∧ get_document (db (ocr_view three_page_engine 1 POST (Some "eng ")
                         uploaded_world).2) 1
     = Some {| doc_id := 1; doc_title := "Invoice";
               doc_file := "uploads/u1.pdf"; doc_file_type := "pdf";
               doc_status := "completed" |})
  ∧ (ocr_rows_of (db (ocr_view broken_pdf_engine 1 POST (Some "eng")
                        uploaded_world).2) 1 = []
     ∧ get_document (db (ocr_view broken_pdf_engine 1 POST (Some "eng")
                           uploaded_world).2) 1
       = Some {| doc_id := 1; doc_title := "Invoice";
                 doc_file := "uploads/u1.pdf"; doc_file_type := "pdf";
                 doc_status := "failed" |}).
Proof.
  split.
  - exact (ocr_view_completed_or_failed three_page_engine uploaded_world 1
             uploaded_doc (Some "eng ") "eng" eq_refl eq_refl eq_refl).
  - pose proof (ocr_view_completed_or_failed broken_pdf_engine uploaded_world
                  1 uploaded_doc (Some "eng") "eng" eq_refl eq_refl eq_refl)
      as (Hrows & Hstatus & _).
    exact (conj Hrows Hstatus).
Defined.

(** *** No document stays in 'processing' *)

Lemma upload_view_settled E m file title uuid w :
  settled w → settled (upload_view E m file title uuid w).2.
Proof.
  intros Hw. unfold upload_view. destruct m; [exact Hw|].
  destruct (DocumentUploadForm file title) as [[[t f] ft]|]; [|exact Hw].
  unfold settled. cbn [snd db create_document documents].
  apply Forall_app. split; [exact Hw|]. by repeat constructor.
Qed.

Lemma ocr_view_settled E id m language w :
  settled w → settled (ocr_view E id m language w).2.
Proof.
  intros Hw. unfold ocr_view.
  destruct (get_document (db w) id) as [doc|]; [|exact Hw].
  destruct (ocr_result_of (db w) (doc_id doc)); [exact Hw|].
  destruct m; [exact Hw|].
  destruct (OCRLanguageForm language) as [lang|]; [|exact Hw].
  destruct (ocr_call E _ lang) as [text|e]; unfold settled;
    cbn [snd with_db db save_document create_ocr_result documents];
    apply (Forall_replace_twice _ (fun r => doc_id r =? doc_id doc)%nat
             (set_status "processing" doc));
    [apply Nat.eqb_refl | by cbn [doc_status set_status] | exact Hw
    |apply Nat.eqb_refl | by cbn [doc_status set_status] | exact Hw].
Qed.

Lemma translate_view_settled E id m target w :
  settled w → settled (translate_view E id m target w).2.
Proof.
  intros Hw. unfold translate_view.
  destruct (get_ocr_result (db w) id) as [r|]; [|exact Hw].
  destruct m; [exact Hw|].
  destruct (TranslationForm target) as [t|]; [|exact Hw].
  by destruct (translate_text E _ _ t).
Qed.

Lemma output_format_view_settled E id m text format uuid w :
  settled w → settled (output_format_view E id m text format uuid w).2.
Proof.
  intros Hw. unfold output_format_view.
  destruct (get_translation (db w) id) as [t|]; [|exact Hw].
  destruct m; [exact Hw|].
  destruct (OutputFormatForm text format) as [[edited f]|]; [|exact Hw].
  destruct (generate_output_file E edited f _ (fs w)) as [[p|e] files];
    [|exact Hw].
  by destruct (negb (String.eqb edited (tr_text t))).
Qed.

Lemma delete_document_view_settled E id m w :
  settled w → settled (delete_document_view E id m w).2.
Proof.
  intros Hw. unfold delete_document_view.
  destruct (get_document (db w) id) as [doc|]; [|exact Hw].
  destruct m; [exact Hw|].
  unfold settled. cbn [snd Document_delete db cascade_delete_document documents].
  by apply Forall_list_filter.
Qed.

Lemma serve_settled E r w : settled w → settled (serve E r w).2.
Proof.
  intros Hw. destruct r; cbn [serve].
  - exact Hw.
  - by apply upload_view_settled.
  - by apply ocr_view_settled.
  - by apply translate_view_settled.
  - by apply output_format_view_settled.
  - unfold result_view. by destruct (get_output_file _ _).
  - unfold document_detail_view. by destruct (get_document _ _).
  - by apply delete_document_view_settled.
Qed.

Lemma reachable_settled w : reachable w → settled w.
Proof.
  induction 1 as [f|E r w _ IH]; [constructor | by apply serve_settled].
Qed.

(** C10: in a world the application can reach, after a POST with a
    valid form to the OCR endpoint of a document, the document is still
    there and its status is not 'processing'; when the handler ran the
    OCR (the document had no OCR result yet), the status is 'completed'
    if the OCR call returned and 'failed' if it raised. *)
Theorem ocr_view_never_leaves_processing (E : External) (w : World)
    (id : nat) (doc : Document) (posted : option string) (language : string) :
  reachable w →
  get_document (db w) id = Some doc →
  OCRLanguageForm posted = Some language →
  ∃ doc',
    get_document (db (ocr_view E id POST posted w).2) id = Some doc'
    ∧ doc_status doc' ≠ "processing"
    ∧ (ocr_result_of (db w) id = None →
       doc_status doc' = ocr_final_status (ocr_call E doc language)).
Proof.
  intros Hreach Hdoc Hform.
  destruct (ocr_result_of (db w) id) as [r|] eqn:Hocr.
  - exists doc. pose proof (get_document_id _ _ _ Hdoc) as Hid.
    unfold ocr_view. rewrite Hdoc. cbv beta iota. rewrite Hid, Hocr.
    cbn [snd]. split; [exact Hdoc|]. split; [|done].
    apply find_some_holds in Hdoc as [_ Hin].
    pose proof (reachable_settled w Hreach) as Hall.
    unfold settled in Hall. rewrite Forall_forall in Hall. by apply Hall.
  - exists (set_status (ocr_final_status (ocr_call E doc language)) doc).
    split; [by apply ocr_view_processed_document|].
    split; [|done].
    by destruct (ocr_call E doc language).
Qed.

Lemma uploaded_world_reachable : reachable uploaded_world.
Proof.
  exact (reach_serve three_page_engine
           (ReqUpload POST (Some {| uf_name := "invoice.pdf";
                                    uf_bytes := "%PDF-1.4" |})
              "Invoice" "u1")
           {| db := empty_db; fs := ∅ |} (reach_start ∅)).
Defined.

Lemma ocr_view_never_leaves_processing_example :
  ∃ doc',
    get_document (db (ocr_view broken_pdf_engine 1 POST (Some "eng")
                        uploaded_world).2) 1 = Some doc'
    ∧ doc_status doc' ≠ "processing"
    ∧ (ocr_result_of (db uploaded_world) 1 = None →
       doc_status doc' = "failed").
Proof.
  exact (ocr_view_never_leaves_processing broken_pdf_engine uploaded_world 1
           uploaded_doc (Some "eng") "eng" uploaded_world_reachable
           eq_refl eq_refl).
Defined.

(** ** Deletion *)

Section Cascade.
Context {A : Type}.

(** Rows picked by [sel] are all dropped by a filter that drops every
    row with the key of a picked row. *)
Lemma dropped_by_key (key : A → nat) (sel : A → bool) (l : list A) (x : A) :
  x ∈ List.filter sel l →
  x ∉ List.filter
        (fun r => negb (existsb (fun g => key g =? key r)%nat
                          (List.filter sel l))) l.
Proof.
  intros Hx Hin. apply list_elem_of_In, filter_In in Hin as [_ Hkeep].
  apply negb_true_iff, not_true_iff_false in Hkeep. apply Hkeep.
  apply existsb_exists. exists x. split; [by apply list_elem_of_In|].
  apply Nat.eqb_refl.
Qed.
End Cascade.

Lemma remove_stored_file_gone (E : External) (name : string) (f : FS) :
  nonempty name = true →
  remove_stored_file E name f !! storage_path E name = None.
Proof.
  intros Hname. unfold remove_stored_file, path_exists. rewrite Hname.
  case_bool_decide as Hex.
  - apply lookup_delete_eq.
  - by apply eq_None_not_Some.
Qed.

Lemma remove_stored_file_other (E : External) (name : string) (f : FS)
    (p : string) :
  p ≠ storage_path E name → remove_stored_file E name f !! p = f !! p.
Proof.
  intros Hp. unfold remove_stored_file.
  destruct (nonempty name); [|done].
  destruct (path_exists f _); [|done].
  by apply lookup_delete_ne.
Qed.

(** C1 (what the code does): [Document.delete] removes the document's
    own file and the row, and the cascade removes the rows of the OCR
    result, the translations and the output files; but a file stored for
    one of these output files, at a path other than the upload's, is
    still on the disk afterwards: the cascade does not run
    [OutputFile.delete]. *)
Theorem document_delete_keeps_output_files (E : External) (w : World)
    (doc : Document) (o : OutputFile) (c : Content) :
  nonempty (doc_file doc) = true →
  o ∈ output_rows_of (db w) (doc_id doc) →
  fs w !! storage_path E (out_file o) = Some c →
  storage_path E (out_file o) ≠ storage_path E (doc_file doc) →
  let w' := Document_delete E doc w in
  get_document (db w') (doc_id doc) = None
  ∧ (∀ r, r ∈ ocr_rows_of (db w) (doc_id doc) → r ∉ ocr_results (db w'))
  ∧ (∀ t, t ∈ translation_rows_of (db w) (doc_id doc) →
          t ∉ translations (db w'))
  ∧ (∀ o', o' ∈ output_rows_of (db w) (doc_id doc) →
           o' ∉ output_files (db w'))
  ∧ fs w' !! storage_path E (doc_file doc) = None
  ∧ fs w' !! storage_path E (out_file o) = Some c.
Proof.
  intros Hname Ho Hfile Hne w'. subst w'. unfold Document_delete.
  cbn [db fs cascade_delete_document documents ocr_results translations
         output_files].
  split; [|split; [|split; [|split; [|split]]]].
  - unfold get_document. cbn [documents].
    destruct (find _ _) as [x|] eqn:Hfind; [|done].
    apply find_some_holds in Hfind as [Hid Hin].
    apply list_elem_of_In, filter_In in Hin as [_ Hkeep].
    by rewrite Hid in Hkeep.
  - intros r Hr. by apply (dropped_by_key ocr_id).
  - intros t Ht. by apply (dropped_by_key tr_id).
  - intros o' Ho'. by apply (dropped_by_key out_id).
  - by apply remove_stored_file_gone.
  - rewrite remove_stored_file_other by exact Hne. exact Hfile.
Qed.

Lemma document_delete_keeps_output_files_example :
  let doc := {| doc_id := 1; doc_title := "Invoice";
                doc_file := "uploads/u1.pdf"; doc_file_type := "pdf";
                doc_status := "completed" |} in
  let w' := Document_delete three_page_engine doc sample_world in
  get_document (db w') 1 = None
  ∧ (∀ r, r ∈ ocr_rows_of sample_db 1 → r ∉ ocr_results (db w'))
  ∧ (∀ t, t ∈ translation_rows_of sample_db 1 → t ∉ translations (db w'))
  ∧ (∀ o', o' ∈ output_rows_of sample_db 1 → o' ∉ output_files (db w'))
  ∧ fs w' !! "/srv/media/uploads/u1.pdf" = None
  ∧ fs w' !! "/srv/media/outputs/o1.txt" = Some (TextFile "bonjour").
Proof.
  intros doc.
  apply (document_delete_keeps_output_files three_page_engine sample_world
           doc {| out_id := 1; out_translation := 1;
                  out_file := "outputs/o1.txt"; out_file_type := "txt" |}
           (TextFile "bonjour")).
  - reflexivity.
  - vm_compute. apply list_elem_of_here.
  - reflexivity.
  - vm_compute. discriminate.
Defined.

(** Deleting the output file itself does remove its stored file. *)
Lemma OutputFile_delete_removes_file (E : External) (o : OutputFile)
    (w : World) :
  nonempty (out_file o) = true →
  fs (OutputFile_delete E o w) !! storage_path E (out_file o) = None
  ∧ get_output_file (db (OutputFile_delete E o w)) (out_id o) = None.
Proof.
  intros Hname. unfold OutputFile_delete. cbn [fs db]. split.
  - by apply remove_stored_file_gone.
  - unfold get_output_file, delete_output_row. cbn [output_files].
    destruct (find _ _) as [x|] eqn:Hfind; [|done].
    apply find_some_holds in Hfind as [Hid Hin].
    apply list_elem_of_In, filter_In in Hin as [_ Hkeep].
    by rewrite Hid in Hkeep.
Qed.

(** ** The text of a translation *)

Section Find.
Context {A : Type}.

Lemma find_app_some (f : A → bool) (l l' : list A) (x : A) :
  find f l = Some x → find f (l ++ l') = Some x.
Proof.
  induction l as [|y l IH]; simpl; [done|]. by destruct (f y).
Qed.

Lemma find_replace_other (f c : A → bool) (d : A) (l : list A) :
  f d = false → (∀ r, c r = true → f r = false) →
  find f (map (fun r => if c r then d else r) l) = find f l.
Proof.
  intros Hd Hc. induction l as [|y l IH]; simpl; [done|].
  destruct (c y) eqn:Hy.
  - by rewrite Hd, (Hc y Hy).
  - by rewrite IH.
Qed.

Lemma find_filter_by_key (f g : A → bool) (l : list A) :
  (∀ r1 r2, f r1 = true → f r2 = true → g r1 = g r2) →
  find f (List.filter g l) =
    match find f l with
    | Some x => if g x then Some x else None
    | None => None
    end.
Proof.
  intros Hkey. induction l as [|y l IH]; simpl; [done|].
  destruct (g y) eqn:Hg; simpl.
  - destruct (f y) eqn:Hf; [by rewrite Hg | exact IH].
  - destruct (f y) eqn:Hf; [|exact IH].
    rewrite Hg, IH. destruct (find f l) as [x|] eqn:Hfind; [|done].
    apply find_some_holds in Hfind as [Hx _].
    by rewrite (Hkey x y Hx Hf), Hg.
Qed.
End Find.

Lemma get_translation_id (d : DB) (id : nat) (t : Translation) :
  get_translation d id = Some t → tr_id t = id.
Proof.
  intros H. apply find_some_holds in H as [H _]. by apply Nat.eqb_eq in H.
Qed.

Lemma strip_absent : Py.strip (default "" None) = "".
Proof. reflexivity. Qed.

(** What a [CharField] returns is the stripped value that was posted. *)
Lemma CharField_some (required : bool) (max_length : option nat)
    (posted : option string) (value : string) :
  CharField required max_length posted = Some value →
  value = Py.strip (default "" posted)
  ∧ (required = true → value ≠ "").
Proof.
  unfold CharField.
  destruct (String.eqb_spec (Py.strip (default "" posted)) "") as [->|Hne].
  - destruct required; [done|]. by intros [= <-].
  - destruct (_ || _); [done|]. by intros [= <-].
Qed.

Lemma OutputFormatForm_some (posted_text posted_format : option string)
    (edited format : string) :
  OutputFormatForm posted_text posted_format = Some (edited, format) →
  (∃ posted, posted_text = Some posted ∧ edited = Py.strip posted)
  ∧ edited ≠ ""
  ∧ posted_format = Some format
  ∧ format ∈ OUTPUT_FORMATS.
Proof.
  unfold OutputFormatForm.
  destruct (CharField true None posted_text) as [t|] eqn:Htext; [|done].
  destruct posted_format as [f|]; [|done].
  destruct (existsb (String.eqb f) OUTPUT_FORMATS) eqn:Hex; [|done].
  intros [= -> ->].
  destruct (CharField_some _ _ _ _ Htext) as [Hstrip Hne].
  split.
  - destruct posted_text as [posted|]; [by exists posted|].
    rewrite strip_absent in Hstrip. by destruct (Hne eq_refl).
  - split; [by apply Hne|]. split; [done|].
    apply existsb_exists in Hex as (x & Hin & Heq).
    apply String.eqb_eq in Heq as ->. by apply list_elem_of_In.
Qed.

Lemma output_format_view_world (E : External) (w : World) (id : nat)
    (t : Translation) (posted_text posted_format : option string)
    (uuid edited format : string) :
  get_translation (db w) id = Some t →
  OutputFormatForm posted_text posted_format = Some (edited, format) →
  (output_format_view E id POST posted_text posted_format uuid w).2 =
    match
      generate_output_file E edited format (render_path E uuid format) (fs w)
    with
    | (Ok _, files) =>
        {| db := rendered_db t edited
                   (Py.path_join "outputs" (uuid +:+ "." +:+ format))
                   format (db w);
           fs := files |}
    | (Raise _, files) => with_fs files w
    end.
Proof.
  intros Ht Hform. unfold output_format_view. rewrite Ht, Hform.
  cbv beta iota.
  destruct (generate_output_file E edited format _ (fs w)) as [[p|e] files];
    [|reflexivity].
  unfold rendered_db. cbn [create_output_file snd].
  by destruct (negb (String.eqb edited (tr_text t))).
Qed.

Lemma text_of_rendered_db (w : World) (id : nat) (t : Translation)
    (edited file format : string) (files : FS) :
  get_translation (db w) id = Some t →
  text_of {| db := rendered_db t edited file format (db w); fs := files |} id
  = Some edited.
Proof.
  intros Ht. pose proof (get_translation_id _ _ _ Ht) as Hid.
  unfold text_of, rendered_db. cbn [db create_output_file snd].
  destruct (String.eqb_spec edited (tr_text t)) as [->|Hne]; cbn [negb].
  - unfold get_translation in *. cbn [translations]. by rewrite Ht.
  - unfold get_translation in *. cbn [save_translation translations].
    rewrite (find_replace _ (fun r => tr_id r =? tr_id (set_text edited t))%nat
               (set_text edited t) t); [done | | | exact Ht].
    + intros r. cbn [set_text tr_id]. by rewrite Hid.
    + cbn [set_text tr_id]. by apply Nat.eqb_eq.
Qed.

Lemma text_of_rendered_db_other (w : World) (id id' : nat) (t : Translation)
    (edited file format : string) (files : FS) :
  get_translation (db w) id' = Some t → id ≠ id' →
  text_of {| db := rendered_db t edited file format (db w); fs := files |} id
  = text_of w id.
Proof.
  intros Ht Hne. pose proof (get_translation_id _ _ _ Ht) as Hid.
  unfold text_of, rendered_db. cbn [db create_output_file snd].
  destruct (negb (String.eqb edited (tr_text t))); [|done].
  unfold get_translation. cbn [save_translation translations].
  rewrite find_replace_other; [done | |].
  - cbn [set_text tr_id]. apply Nat.eqb_neq. congruence.
  - intros r Hr. cbn [set_text tr_id] in Hr. apply Nat.eqb_eq in Hr.
    apply Nat.eqb_neq. congruence.
Qed.

Lemma text_of_same_translations (w1 w2 : World) (id : nat) :
  translations (db w1) = translations (db w2) → text_of w1 id = text_of w2 id.
Proof. intros H. unfold text_of, get_translation. by rewrite H. Qed.

Lemma upload_view_translations E m file title uuid w :
  translations (db (upload_view E m file title uuid w).2) = translations (db w).
Proof.
  unfold upload_view. destruct m; [done|].
  by destruct (DocumentUploadForm file title) as [[[t f] ft]|].
Qed.

Lemma ocr_view_translations E id m language w :
  translations (db (ocr_view E id m language w).2) = translations (db w).
Proof.
  unfold ocr_view. destruct (get_document (db w) id) as [doc|]; [|done].
  destruct (ocr_result_of (db w) (doc_id doc)); [done|].
  destruct m; [done|]. destruct (OCRLanguageForm language) as [lang|]; [|done].
  by destruct (ocr_call E _ lang).
Qed.

Lemma translate_view_keeps_text E id' m target w id a :
  text_of w id = Some a →
  text_of (translate_view E id' m target w).2 id = Some a.
Proof.
  intros Ha. unfold translate_view.
  destruct (get_ocr_result (db w) id') as [r|]; [|done].
  destruct m; [done|]. destruct (TranslationForm target) as [t|]; [|done].
  destruct (translate_text E _ _ t) as [text|e]; [|done].
  unfold text_of, get_translation in *.
  cbn [snd with_db db create_translation translations].
  destruct (find _ (translations (db w))) as [x|] eqn:Hfind; [|done].
  by rewrite (find_app_some _ _ _ _ Hfind).
Qed.

Lemma delete_document_view_keeps_text E id' m w id a b :
  text_of w id = Some a →
  text_of (delete_document_view E id' m w).2 id = Some b → b = a.
Proof.
  intros Ha. unfold delete_document_view.
  destruct (get_document (db w) id') as [doc|]; [|cbn [snd]; congruence].
  destruct m; [cbn [snd]; congruence|].
  unfold text_of, get_translation in *.
  cbn [snd Document_delete db cascade_delete_document translations].
  rewrite find_filter_by_key.
  - destruct (find _ (translations (db w))) as [x|]; [|done].
    destruct (negb _); [congruence | done].
  - intros r1 r2 H1 H2. apply Nat.eqb_eq in H1, H2.
    by rewrite H1, H2.
Qed.

(** C2, as the code has it: along the handlers of views.py the text of
    an existing translation changes only in [output_format_view], on a
    POST with a valid form whose render succeeded, and the new text is
    what the form made of the posted text: the posted text without the
    white space around it.  Every such request leaves that cleaned text
    in the translation.  Nothing bounds how many such requests are
    served. *)
Theorem translation_text_changes_at_render_only (E : External) (r : Request)
    (w : World) (id : nat) (a : string) :
  text_of w id = Some a →
  (∀ b, text_of (serve E r w).2 id = Some b → b ≠ a →
     ∃ posted format uuid,
       r = ReqOutputFormat id POST (Some posted) (Some format) uuid
       ∧ b = Py.strip posted
       ∧ OutputFormatForm (Some posted) (Some format) = Some (b, format)
       ∧ is_ok (generate_output_file E b format (render_path E uuid format)
                  (fs w)).1 = true)
  ∧ (∀ posted format uuid edited,
       r = ReqOutputFormat id POST (Some posted) (Some format) uuid →
       OutputFormatForm (Some posted) (Some format) = Some (edited, format) →
       is_ok (generate_output_file E edited format (render_path E uuid format)
                (fs w)).1 = true →
       edited = Py.strip posted
       ∧ text_of (serve E r w).2 id = Some (Py.strip posted)).
Proof.
  intros Ha. split.
  - intros b Hb Hne. destruct r as [|m file title uuid|id' m language
      |id' m target|id' m text format uuid|id'|id'|id' m]; cbn [serve] in Hb.
    + cbn [snd] in Hb. congruence.
    + rewrite (text_of_same_translations _ w) in Hb
        by apply upload_view_translations. congruence.
    + rewrite (text_of_same_translations _ w) in Hb
        by apply ocr_view_translations. congruence.
    + rewrite (translate_view_keeps_text _ _ _ _ _ _ _ Ha) in Hb. congruence.
    + destruct (get_translation (db w) id') as [t|] eqn:Ht;
        [|unfold output_format_view in Hb; rewrite Ht in Hb;
          cbn [snd] in Hb; congruence].
      destruct m;
        [unfold output_format_view in Hb; rewrite Ht in Hb;
         cbn [snd] in Hb; congruence|].
      destruct (OutputFormatForm text format) as [[edited f]|] eqn:Hform;
        [|unfold output_format_view in Hb; rewrite Ht, Hform in Hb;
          cbn [snd] in Hb; congruence].
      rewrite (output_format_view_world E w id' t text format uuid edited f
                 Ht Hform) in Hb.
      destruct (generate_output_file E edited f _ (fs w)) as [[p|e] files]
        eqn:Hgen;
        [|rewrite (text_of_same_translations _ w) in Hb by done; congruence].
      destruct (decide (id = id')) as [<-|Hid].
      * rewrite (text_of_rendered_db w id t) in Hb by exact Ht.
        injection Hb as ->.
        destruct (OutputFormatForm_some _ _ _ _ Hform)
          as ((posted & -> & Hstrip) & _ & -> & _).
        exists posted, f, uuid. rewrite Hgen. by repeat split.
      * rewrite (text_of_rendered_db_other w id id' t) in Hb by done.
        congruence.
    + unfold result_view in Hb.
      destruct (get_output_file (db w) id'); cbn [snd] in Hb; congruence.
    + unfold document_detail_view in Hb.
      destruct (get_document (db w) id'); cbn [snd] in Hb; congruence.
    + apply (delete_document_view_keeps_text _ _ _ _ _ _ _ Ha) in Hb.
      congruence.
  - intros posted format uuid edited -> Hform Hok. cbn [serve].
    destruct (OutputFormatForm_some _ _ _ _ Hform)
      as ((posted' & [= <-] & Hstrip) & _).
    split; [exact Hstrip|]. rewrite <- Hstrip.
    unfold text_of in Ha.
    destruct (get_translation (db w) id) as [t|] eqn:Ht; [|done].
    rewrite (output_format_view_world E w id t _ _ uuid edited format Ht Hform).
    destruct (generate_output_file E edited format _ (fs w))
      as [[p|e] files]; [|done].
    by apply text_of_rendered_db.
Qed.

Lemma translation_text_changes_at_render_example :
  text_of
    (serve three_page_engine
       (ReqOutputFormat 1 POST (Some "  salut ") (Some "txt") "o2")
       sample_world).2 1
  = Some "salut".
Proof.
  exact (proj2 (proj2 (translation_text_changes_at_render_only
                         three_page_engine
                         (ReqOutputFormat 1 POST (Some "  salut ")
                            (Some "txt") "o2")
                         sample_world 1 "bonjour" eq_refl)
                  "  salut " "txt" "o2" "salut" eq_refl eq_refl eq_refl)).
Defined.

(** C2 as stated fails: the text of a translation can be overwritten
    more than once; here translation 1 is overwritten by each of the two
    render requests. *)
Lemma translation_text_overwritten_twice :
  ¬ (∀ (reqs : list (External * Request)) (id : nat),
       (text_mutations id (run reqs {| db := empty_db; fs := ∅ |}) ≤ 1)%nat).
Proof.
  intros Hclaim. specialize (Hclaim two_edits 1).
  vm_compute in Hclaim. lia.
Qed.

Lemma two_edits_texts :
  map (fun w => text_of w 1) (run two_edits {| db := empty_db; fs := ∅ |})
  = [None; None; None;
     Some (pages_text 0 ["page-1"; "page-2"; "page-3"]);
     Some "first edit"; Some "second edit"].
Proof. by vm_compute. Qed.

(** ** The image renderer *)

Section SavesAt.
Variables (font : Font) (output_path format : string).

Lemma draw_text_saved_at s p :
  saved_at output_path p → saved_at output_path (draw_text s p).
Proof. done. Qed.

Lemma new_page_if_full_saved_at p :
  saved_at output_path p →
  saved_at output_path (new_page_if_full output_path format p).
Proof.
  intros Hp. unfold new_page_if_full. destruct (y p >? _)%Z; [|exact Hp].
  unfold saved_at. cbn [saves]. apply Forall_app. split; [exact Hp|].
  by repeat constructor.
Qed.

Lemma wrap_words_saved_at words :
  ∀ current_line p, saved_at output_path p →
    saved_at output_path
      (wrap_words font output_path format words current_line p).2.
Proof.
  induction words as [|word rest IH]; intros current_line p Hp; [exact Hp|].
  cbn [wrap_words]. destruct (fits font _); apply IH; [exact Hp|].
  by apply new_page_if_full_saved_at, draw_text_saved_at.
Qed.

Lemma draw_line_saved_at p line :
  saved_at output_path p →
  saved_at output_path (draw_line font output_path format p line).
Proof.
  intros Hp. unfold draw_line. apply new_page_if_full_saved_at.
  destruct (negb (fits font line)); [|by apply draw_text_saved_at].
  pose proof (wrap_words_saved_at (Py.split_ws line) "" p Hp) as Hw.
  destruct (wrap_words _ _ _ _ _ _) as [current_line p'].
  destruct (nonempty current_line); [by apply draw_text_saved_at | exact Hw].
Qed.

Lemma draw_lines_saved_at lines :
  ∀ p, saved_at output_path p →
    saved_at output_path
      (foldl (draw_line font output_path format) p lines).
Proof.
  induction lines as [|line rest IH]; intros p Hp; [exact Hp|].
  cbn [foldl]. by apply IH, draw_line_saved_at.
Qed.

Lemma image_pen_saved_at text :
  saved_at output_path (image_pen font text output_path format).
Proof. apply draw_lines_saved_at. constructor. Qed.
End SavesAt.

(** Writes that all go to one path leave only the last one there. *)
Lemma apply_saves_one_path (path : string) (last : Content)
    (ws : list (string * Content)) :
  ∀ f : FS,
    Forall (fun s => s.1 = path) ws →
    apply_saves (ws ++ [(path, last)]) f = <[path := last]> f.
Proof.
  induction ws as [|[p c] ws IH]; intros f Hws; [reflexivity|].
  inversion Hws as [|? ? Hp Hrest]; subst. cbn [fst] in *.
  change (apply_saves (ws ++ [(p, last)]) (<[p := c]> f) = <[p := last]> f).
  rewrite (IH _ Hrest). apply insert_insert_eq.
Qed.

(** *** Sixty-nine rows to a canvas *)

Lemma place_snoc (rows : list string) (s : string) :
  place (rows ++ [s])
  = (place rows ++ [(20, 20 + 20 * Z.of_nat (length rows), s)%Z])%list.
Proof.
  unfold place. rewrite imap_app. cbn [imap]. by rewrite Nat.add_0_r.
Qed.

Lemma flush_stable (output_path format : string) (rows more : list string)
    (q : nat) :
  (69 * q ≤ length rows)%nat →
  map (flush output_path format (rows ++ more)) (seq 0 q)
  = map (flush output_path format rows) (seq 0 q).
Proof.
  intros Hq. apply map_ext_in. intros i Hi. apply in_seq in Hi.
  unfold flush. do 3 f_equal.
  rewrite drop_app_le by lia. apply take_app_le.
  rewrite length_drop. lia.
Qed.

Section Paged.
Variables (font : Font) (output_path format : string).

(** With fewer than 69 rows on the canvas the check finds room. *)
Lemma paged_no_flush (rows : list string) (p : Pen) :
  paged output_path format rows p →
  new_page_if_full output_path format p = p.
Proof.
  intros (q & r & _ & Hr & _ & Hy & _). unfold new_page_if_full, height.
  destruct (Z.gtb_spec (y p) (1400 - 20)) as [Hfull|]; [lia | done].
Qed.

(** One more row: drawn below the others, and when it is the 69th, the
    canvas is flushed and a fresh one started. *)
Lemma paged_draw_text (rows : list string) (s : string) (p : Pen) :
  paged output_path format rows p →
  paged output_path format (rows ++ [s])
    (new_page_if_full output_path format (draw_text s p)).
Proof.
  intros (q & r & Hlen & Hr & Himg & Hy & Hsaves).
  assert (Hdrop : drop (69 * q) (rows ++ [s])
                  = (drop (69 * q) rows ++ [s])%list)
    by (apply drop_app_le; lia).
  assert (Hcanvas : (img p ++ [(20, y p, s)%Z])%list
                    = place (drop (69 * q) (rows ++ [s]))).
  { rewrite Hdrop, place_snoc, <- Himg, length_drop, Hy.
    do 4 f_equal. lia. }
  unfold new_page_if_full, height. cbn [draw_text y img saves].
  destruct (Z.gtb_spec (y p + 20) (1400 - 20)) as [Hfull|Hroom].
  - exists (S q), 0. rewrite length_app. cbn [length].
    split; [lia|]. split; [lia|]. cbn [img y saves].
    split; [|split; [done|]].
    + rewrite drop_ge; [done|]. rewrite length_app. cbn [length]. lia.
    + rewrite seq_S, map_app, flush_stable, <- Hsaves by lia.
      cbn [map Nat.add]. unfold flush. do 3 f_equal.
      rewrite Hcanvas. rewrite take_ge; [done|].
      rewrite length_drop, length_app. cbn [length]. lia.
  - exists q, (S r). rewrite length_app. cbn [length].
    rewrite Hy in Hroom.
    split; [lia|]. split; [lia|]. cbn [draw_text img y saves].
    split; [exact Hcanvas|]. split; [rewrite Hy; lia|].
    by rewrite flush_stable by lia.
Qed.

Lemma paged_wrap_words (words : list string) :
  ∀ (current_line : string) (rows : list string) (p : Pen),
    paged output_path format rows p →
    paged output_path format (rows ++ wrap_rows font words current_line)
      (new_page_if_full output_path format
         (let '(current_line, p) :=
            wrap_words font output_path format words current_line p in
          if nonempty current_line then draw_text current_line p else p)).
Proof.
  induction words as [|word rest IH]; intros current_line rows p Hp.
  - cbn [wrap_words wrap_rows]. destruct (nonempty current_line).
    + by apply paged_draw_text.
    + rewrite app_nil_r. by rewrite (paged_no_flush rows p Hp).
  - cbn [wrap_words wrap_rows]. destruct (fits font _); [by apply IH|].
    change (current_line :: wrap_rows font rest word)
      with ([current_line] ++ wrap_rows font rest word)%list.
    rewrite app_assoc. apply IH. by apply paged_draw_text.
Qed.

Lemma paged_draw_line (rows : list string) (p : Pen) (line : string) :
  paged output_path format rows p →
  paged output_path format (rows ++ line_rows font line)
    (draw_line font output_path format p line).
Proof.
  intros Hp. unfold draw_line, line_rows. destruct (fits font line).
  - by apply paged_draw_text.
  - by apply paged_wrap_words.
Qed.

Lemma paged_draw_lines (lines : list string) :
  ∀ (rows : list string) (p : Pen),
    paged output_path format rows p →
    paged output_path format (rows ++ flat_map (line_rows font) lines)
      (foldl (draw_line font output_path format) p lines).
Proof.
  induction lines as [|line rest IH]; intros rows p Hp.
  - by rewrite app_nil_r.
  - cbn [foldl flat_map]. rewrite app_assoc. by apply IH, paged_draw_line.
Qed.

Lemma paged_image_pen (text : string) :
  paged output_path format (text_rows font text)
    (image_pen font text output_path format).
Proof.
  apply (paged_draw_lines _ []). exists 0, 0.
  split; [done|]. split; [lia|]. by split.
Qed.

(** The pen when the loop ends, by the rows of the text alone. *)
Lemma image_pen_by_rows (text : string) :
  let rows := text_rows font text in
  let k := (length rows / 69)%nat in
  let p := image_pen font text output_path format in
  saves p = map (flush output_path format rows) (seq 0 k)
  ∧ img p = place (drop (69 * k) rows).
Proof.
  intros rows k p.
  destruct (paged_image_pen text) as (q & r & Hlen & Hr & Himg & _ & Hsaves).
  assert (k = q) as ->; [|done].
  subst k. fold rows in Hlen. rewrite Hlen.
  symmetry. apply (Nat.div_unique _ 69 q r); lia.
Qed.
End Paged.

(** C3: every [img.save] of [create_image_file] writes the output path:
    with the rows of the text numbered as they are drawn, flush [i]
    writes rows [69 i] to [69 i + 68], and the final save what is left
    after the last full canvas.  So when the saves succeed the call
    returns the output path and the file there holds the rows after
    the last flush and no other: of [n] rows, the first
    [69 * (n / 69)] are in no file, which is at least 69 of them as
    soon as there is one flush. *)
Theorem create_image_file_keeps_last_canvas (E : External)
    (text output_path format : string) (f : FS) :
  image_save E output_path format = Ok tt →
  let rows := text_rows (find_font E f) text in
  let k := (length rows / 69)%nat in
  saves (image_pen (find_font E f) text output_path format)
    = map (flush output_path format rows) (seq 0 k)
  ∧ create_image_file E text output_path format f =
      (Ok output_path,
       <[output_path := ImageFile format (place (drop (69 * k) rows))]> f)
  ∧ (length (drop (69 * k) rows) = length rows - 69 * k)%nat
  ∧ (69 ≤ length rows → 69 ≤ 69 * k)%nat.
Proof.
  intros Hsave rows k.
  destruct (image_pen_by_rows (find_font E f) output_path format text)
    as [Hsaves Himg].
  fold rows k in Hsaves, Himg.
  split; [exact Hsaves|]. split; [|split].
  - unfold create_image_file. rewrite Hsave, Himg.
    apply (f_equal (pair (Ok output_path))).
    apply apply_saves_one_path, image_pen_saved_at.
  - apply length_drop.
  - intros Hrows. subst k.
    pose proof (Nat.Div0.div_le_mono 69 (length rows) 69 Hrows) as Hk.
    rewrite Nat.div_same in Hk by lia. lia.
Qed.

(** Seventy-one numbered lines: sixty-nine go to the canvas that is
    flushed, and the file ends up with the last two only. *)
Lemma create_image_file_keeps_last_canvas_example :
  create_image_file three_page_engine (numbered_lines 71)
    "/srv/media/outputs/o3.png" "PNG" ∅
  = (Ok "/srv/media/outputs/o3.png",
     {[ "/srv/media/outputs/o3.png" :=
          ImageFile "PNG" [(20, 20, "70"); (20, 40, "71")]%Z ]}).
Proof.
  refine (eq_trans
            (proj1 (proj2 (create_image_file_keeps_last_canvas
                             three_page_engine (numbered_lines 71)
                             "/srv/media/outputs/o3.png" "PNG" ∅ eq_refl)))
            _).
  by vm_compute.
Defined.

(** Seventy-one numbered lines: the canvas takes sixty-nine of them, is
    flushed once, and the file ends up with the last two only. *)
Lemma create_image_file_loses_first_page :
  let p := image_pen (load_default three_page_engine) (numbered_lines 71)
             "/srv/media/outputs/o3.png" "PNG" in
  map (fun s => (s.1, match s.2 with
                      | ImageFile _ c => length c
                      | _ => 0
                      end)) (saves p)
  = [("/srv/media/outputs/o3.png", 69)]
  ∧ (create_image_file three_page_engine (numbered_lines 71)
       "/srv/media/outputs/o3.png" "PNG" ∅).2
      !! "/srv/media/outputs/o3.png"
    = Some (ImageFile "PNG" [(20, 20, "70"); (20, 40, "71")]%Z).
Proof. by vm_compute. Qed.

(** ** The PDF renderer *)

Lemma length_append (a b : string) :
  String.length (a +:+ b) = String.length a + String.length b.
Proof.
  induction a as [|x a IH]; [reflexivity|].
  change (S (String.length (a +:+ b)) = S (String.length a + String.length b)).
  by rewrite IH.
Qed.

Lemma prefix_append (old : string) :
  ∀ x y : string,
    (String.length old ≤ String.length x)%nat →
    String.prefix old (x +:+ y) = String.prefix old x.
Proof.
  induction old as [|c old IH]; intros x y Hlen;
    [by destruct x; [destruct y|]|].
  destruct x as [|b x]; [cbn in Hlen; lia|].
  change (String b x +:+ y) with (String b (x +:+ y)).
  cbn [String.prefix]. destruct (ascii_dec c b); [|done].
  apply IH. cbn in Hlen. lia.
Qed.

Lemma replace_aux_no_match (old new : string) (a : ascii) (s : string) :
  String.prefix old (String a s) = false →
  Py.replace_aux old new 0 (String a s)
  = String a (Py.replace_aux old new 0 s).
Proof. intros H. cbn [Py.replace_aux]. by rewrite H. Qed.

(** Where '.pdf' occurs only as the ending of the path, the replacement
    is the rewriting of the suffix. *)
Lemma replace_pdf_suffix (stem : string) :
  occurs ".pdf" (stem +:+ ".pd") = false →
  Py.replace ".pdf" ".txt" (stem +:+ ".pdf") = stem +:+ ".txt".
Proof.
  unfold Py.replace. induction stem as [|a s IH]; [by vm_compute|].
  change (String a s +:+ ".pd") with (String a (s +:+ ".pd")).
  change (String a s +:+ ".pdf") with (String a (s +:+ ".pdf")).
  change (String a s +:+ ".txt") with (String a (s +:+ ".txt")).
  cbn [occurs]. intros [Hhere Hrest]%orb_false_elim.
  rewrite replace_aux_no_match.
  - f_equal. by apply IH.
  - etransitivity; [|exact Hhere].
    assert (String a (s +:+ ".pdf") = String a (s +:+ ".pd") +:+ "f") as ->.
    { change (String a (s +:+ ".pd") +:+ "f")
        with (String a ((s +:+ ".pd") +:+ "f")).
      by rewrite append_assoc. }
    apply prefix_append.
    change (String.length (String a (s +:+ ".pd")))
      with (S (String.length (s +:+ ".pd"))).
    rewrite length_append. cbn. lia.
Qed.

(** A path that the replacement leaves alone has no '.pdf' in it. *)
Lemma replace_pdf_fixed (s : string) :
  Py.replace ".pdf" ".txt" s = s → occurs ".pdf" s = false.
Proof.
  unfold Py.replace. induction s as [|a s IH]; [done|].
  intros Heq. cbn [occurs Py.replace_aux] in *.
  destruct (String.prefix ".pdf" (String a s)) eqn:Hpre.
  - exfalso. destruct s as [|b s]; cbn [String.prefix] in Hpre.
    + by destruct (ascii_dec "." a).
    + destruct (ascii_dec "." a) as [<-|]; [|done].
      destruct (ascii_dec "p" b) as [<-|]; [|done].
      cbv [String.append] in Heq. discriminate Heq.
  - cbn [orb]. apply IH. by injection Heq.
Qed.

Lemma occurs_suffix (stem : string) : occurs ".pdf" (stem +:+ ".pdf") = true.
Proof.
  induction stem as [|a s IH]; [done|].
  change (String a s +:+ ".pdf") with (String a (s +:+ ".pdf")).
  cbn [occurs]. rewrite IH. apply orb_true_r.
Qed.

Lemma replace_pdf_moves (stem : string) :
  Py.replace ".pdf" ".txt" (stem +:+ ".pdf") ≠ stem +:+ ".pdf".
Proof.
  intros H%replace_pdf_fixed. by rewrite occurs_suffix in H.
Qed.

(** What [create_pdf_file] does when both libraries raise and
    wkhtmltopdf cannot be run. *)
Lemma create_pdf_file_degrades (E : External) (text output_path : string)
    (f : FS) (e nested_e tool_e : exn) :
  fpdf_render E text = Raise e →
  reportlab_render E text = Raise nested_e →
  wkhtmltopdf E = Raise tool_e →
  tool_unavailable (exn_cls tool_e) = true →
  temp_txt_path E ≠ temp_html_path E →
  create_pdf_file E text output_path f =
    (Ok (Py.replace ".pdf" ".txt" output_path),
     delete (temp_txt_path E)
       (<[Py.replace ".pdf" ".txt" output_path := TextFile text]>
          (<[temp_html_path E := HtmlFile (html_content text)]>
             (<[temp_txt_path E := TextFile text]> f)))).
Proof.
  intros H1 H2 H3 Hcls Htemp. unfold create_pdf_file, pdf_last_resort.
  rewrite H1, H2, H3, Hcls.
  by rewrite lookup_insert_ne, lookup_insert_eq by done.
Qed.

(** C4, at a path where the code and the claim part: with both
    libraries failing and wkhtmltopdf missing, [create_pdf_file] does
    not raise and writes the raw text, but in the path it writes and
    returns every '.pdf' is replaced, the one inside the file name too,
    not only the suffix. *)
Theorem create_pdf_file_rewrites_every_pdf :
  let requested := "/srv/media/outputs/scan.pdf.fr.pdf" in
  let out := create_pdf_file no_pdf_tools_engine "salut" requested ∅ in
  out.1 = Ok "/srv/media/outputs/scan.txt.fr.txt"
  ∧ out.2 !! "/srv/media/outputs/scan.txt.fr.txt" = Some (TextFile "salut")
  ∧ out.2 !! "/srv/media/outputs/scan.pdf.fr.txt" = None
  ∧ out.2 !! requested = None.
Proof. by vm_compute. Qed.

(** Where the path has '.pdf' only as its ending, the degraded result
    is the path with the suffix rewritten, holding the raw text. *)
Lemma create_pdf_file_degrades_to_txt (E : External) (text stem : string)
    (f : FS) (e nested_e tool_e : exn) :
  fpdf_render E text = Raise e →
  reportlab_render E text = Raise nested_e →
  wkhtmltopdf E = Raise tool_e →
  tool_unavailable (exn_cls tool_e) = true →
  temp_txt_path E ≠ temp_html_path E →
  temp_txt_path E ≠ stem +:+ ".txt" →
  occurs ".pdf" (stem +:+ ".pd") = false →
  let out := create_pdf_file E text (stem +:+ ".pdf") f in
  out.1 = Ok (stem +:+ ".txt")
  ∧ out.2 !! (stem +:+ ".txt") = Some (TextFile text).
Proof.
  intros H1 H2 H3 Hcls Htemp Htxt Hstem out. subst out.
  rewrite (create_pdf_file_degrades E text _ f e nested_e tool_e) by done.
  rewrite (replace_pdf_suffix stem Hstem). cbn [fst snd]. split; [done|].
  rewrite lookup_delete_ne by done. apply lookup_insert_eq.
Qed.

(** ** The render request *)

Lemma path_join_ends (a b : string) : ∃ pre, Py.path_join a b = pre +:+ b.
Proof.
  unfold Py.path_join. destruct (String.prefix "/" b); [by exists ""|].
  destruct (String.eqb a "" || Py.ends_with_slash a); [by exists a|].
  exists (a +:+ "/"). by rewrite append_assoc.
Qed.

Lemma render_path_pdf (E : External) (uuid : string) :
  ∃ stem, render_path E uuid "pdf" = stem +:+ ".pdf".
Proof.
  unfold render_path.
  destruct (path_join_ends (Py.path_join (MEDIA_ROOT E) "outputs")
              (uuid +:+ "." +:+ "pdf")) as [pre ->].
  exists (pre +:+ uuid). by rewrite append_assoc.
Qed.

Lemma relative_output_path (uuid format : string) :
  String.prefix "/" uuid = false →
  Py.path_join "outputs" (uuid +:+ "." +:+ format)
  = "outputs/" +:+ uuid +:+ "." +:+ format.
Proof.
  intros Huuid. unfold Py.path_join.
  assert (String.prefix "/" (uuid +:+ "." +:+ format) = false) as ->;
    [|reflexivity].
  destruct uuid as [|c u]; [by destruct format|].
  change (String c u +:+ "." +:+ format)
    with (String c (u +:+ "." +:+ format)).
  cbn [String.prefix] in *. destruct (ascii_dec "/" c); [|done].
  by destruct u.
Qed.

Lemma rendered_db_output_files (t : Translation)
    (edited file format : string) (d : DB) :
  output_files (rendered_db t edited file format d) =
    (output_files d ++
       [{| out_id := next_output_file d; out_translation := tr_id t;
           out_file := file; out_file_type := format |}])%list.
Proof.
  unfold rendered_db. by destruct (negb (String.eqb edited (tr_text t))).
Qed.

(** C9: a POST with a valid form whose render returns adds one
    OutputFile row whose file is 'outputs/{uuid}.{format}' for the
    requested format, whatever path the renderer returned.  When the
    format is pdf, both libraries raise and wkhtmltopdf cannot be run,
    the renderer returns another path than the one asked for, the row
    still names the '.pdf' file, and the file store holds at the
    requested path exactly what it held before the request. *)
Theorem output_file_row_names_requested_path (E : External) (w : World)
    (id : nat) (t : Translation) (posted_text posted_format : option string)
    (uuid edited format : string) :
  get_translation (db w) id = Some t →
  OutputFormatForm posted_text posted_format = Some (edited, format) →
  String.prefix "/" uuid = false →
  is_ok (generate_output_file E edited format (render_path E uuid format)
           (fs w)).1 = true →
  let w' := (output_format_view E id POST posted_text posted_format uuid w).2 in
  output_files (db w') =
    (output_files (db w) ++
       [{| out_id := next_output_file (db w); out_translation := id;
           out_file := "outputs/" +:+ uuid +:+ "." +:+ format;
           out_file_type := format |}])%list
  ∧ (∀ e nested_e tool_e,
       format = "pdf" →
       fpdf_render E edited = Raise e →
       reportlab_render E edited = Raise nested_e →
       wkhtmltopdf E = Raise tool_e →
       tool_unavailable (exn_cls tool_e) = true →
       temp_txt_path E ≠ temp_html_path E →
       temp_txt_path E ≠ render_path E uuid "pdf" →
       temp_html_path E ≠ render_path E uuid "pdf" →
       (generate_output_file E edited "pdf" (render_path E uuid "pdf")
          (fs w)).1
         = Ok (Py.replace ".pdf" ".txt" (render_path E uuid "pdf"))
       ∧ Py.replace ".pdf" ".txt" (render_path E uuid "pdf")
         ≠ render_path E uuid "pdf"
       ∧ fs w' !! render_path E uuid "pdf" = fs w !! render_path E uuid "pdf").
Proof.
  intros Ht Hform Huuid Hok w'. subst w'.
  pose proof (get_translation_id _ _ _ Ht) as Hid.
  rewrite (output_format_view_world E w id t _ _ uuid edited format Ht Hform).
  destruct (generate_output_file E edited format _ (fs w)) as [[p|x] files]
    eqn:Hgen; [|done].
  split.
  - cbn [db]. rewrite rendered_db_output_files, Hid.
    by rewrite relative_output_path.
  - intros e nested_e tool_e -> H1 H2 H3 Hcls Htemp Htxt Hhtml.
    assert (Hmoves : Py.replace ".pdf" ".txt" (render_path E uuid "pdf")
                     ≠ render_path E uuid "pdf").
    { destruct (render_path_pdf E uuid) as [stem ->].
      apply replace_pdf_moves. }
    change (generate_output_file E edited "pdf" (render_path E uuid "pdf")
              (fs w))
      with (create_pdf_file E edited (render_path E uuid "pdf") (fs w))
      in Hgen |- *.
    rewrite (create_pdf_file_degrades E edited _ (fs w) e nested_e tool_e)
      in Hgen |- * by done.
    injection Hgen as _ <-. cbn [fst fs]. split; [done|]. split; [done|].
    rewrite lookup_delete_ne by done.
    by rewrite !lookup_insert_ne by done.
Qed.

Lemma output_file_row_names_requested_path_example :
  let w' := (output_format_view no_pdf_tools_engine 1 POST (Some "salut")
               (Some "pdf") "o2" sample_world).2 in
  output_files (db w') =
    [{| out_id := 1; out_translation := 1; out_file := "outputs/o1.txt";
        out_file_type := "txt" |};
     {| out_id := 2; out_translation := 1; out_file := "outputs/o2.pdf";
        out_file_type := "pdf" |}]
  ∧ (generate_output_file no_pdf_tools_engine "salut" "pdf"
       "/srv/media/outputs/o2.pdf" (fs sample_world)).1
    = Ok "/srv/media/outputs/o2.txt"
  ∧ fs w' !! "/srv/media/outputs/o2.pdf" = None.
Proof.
  destruct (output_file_row_names_requested_path no_pdf_tools_engine
              sample_world 1
              {| tr_id := 1; tr_ocr_result := 1; tr_text := "bonjour";
                 tr_source_language := "eng"; tr_target_language := "FR" |}
              (Some "salut") (Some "pdf") "o2" "salut" "pdf"
              eq_refl eq_refl eq_refl eq_refl) as [Hrow Hdegraded].
  destruct (Hdegraded _ _ _ eq_refl eq_refl eq_refl eq_refl eq_refl
              ltac:(discriminate) ltac:(discriminate) ltac:(discriminate))
    as (Hreturned & _ & Hfile).
  split; [exact Hrow|]. split; [exact Hreturned | exact Hfile].
Defined.

(** * Further properties of the handlers *)

(** ** Requests that change nothing *)

Lemma not_is_Some_None {A : Type} (o : option A) :
  bool_decide (is_Some o) = false → o = None.
Proof.
  intros H. apply bool_decide_eq_false in H. by apply eq_None_not_Some.
Qed.

Lemma serve_missing_object (E : External) (r : Request) (w : World) :
  target_exists r (db w) = false → serve E r w = (Http404, w).
Proof.
  destruct r; cbn [target_exists serve]; try done;
    intros H%not_is_Some_None.
  - unfold ocr_view. by rewrite H.
  - unfold translate_view. by rewrite H.
  - unfold output_format_view. by rewrite H.
  - unfold result_view. by rewrite H.
  - unfold document_detail_view. by rewrite H.
  - unfold delete_document_view. by rewrite H.
Qed.

(** A request whose URL names an object that is not in the database is
    answered with a 404 and changes nothing. *)
Theorem missing_object_is_404 (E : External) (r : Request) (w : World) :
  target_exists r (db w) = false → serve E r w = (Http404, w).
Proof. apply serve_missing_object. Qed.

Lemma missing_object_is_404_example :
  serve three_page_engine (ReqDeleteDocument 7 POST) sample_world
  = (Http404, sample_world).
Proof.
  exact (missing_object_is_404 three_page_engine (ReqDeleteDocument 7 POST)
           sample_world eq_refl).
Defined.

(** The database and the file store change only when a POST with a
    valid form is served for an object that exists: a GET, an invalid
    form or a missing object leave the world as it was. *)
Theorem world_changes_only_on_valid_post (E : External) (r : Request)
    (w : World) :
  is_safe r = true ∨ form_valid r = false ∨ target_exists r (db w) = false →
  (serve E r w).2 = w.
Proof.
  intros [Hsafe|[Hform|Hmissing]].
  - destruct r as [|m ? ? ?|id m ?|id m ?|id m ? ? ?|id|id|id m];
      cbn [is_safe] in Hsafe; try (destruct m; [|done]); cbn [serve].
    + done.
    + done.
    + unfold ocr_view. destruct (get_document _ _) as [doc|]; [|done].
      by destruct (ocr_result_of _ _).
    + unfold translate_view. by destruct (get_ocr_result _ _).
    + unfold output_format_view. by destruct (get_translation _ _).
    + unfold result_view. by destruct (get_output_file _ _).
    + unfold document_detail_view. by destruct (get_document _ _).
    + unfold delete_document_view. by destruct (get_document _ _).
  - destruct r as [|m ? ? ?|id m ?|id m ?|id m ? ? ?|id|id|id m];
      cbn [form_valid] in Hform; try done;
      apply not_is_Some_None in Hform; cbn [serve].
    + unfold upload_view. rewrite Hform. by destruct m.
    + unfold ocr_view. destruct (get_document _ _) as [doc|]; [|done].
      destruct (ocr_result_of _ _); [done|]. rewrite Hform. by destruct m.
    + unfold translate_view. destruct (get_ocr_result _ _); [|done].
      rewrite Hform. by destruct m.
    + unfold output_format_view. destruct (get_translation _ _); [|done].
      rewrite Hform. by destruct m.
  - by rewrite serve_missing_object.
Qed.

(** An upload of an empty file, a language of eleven letters and a
    render with nothing but blanks as text are refused by their forms
    and change nothing. *)
Lemma world_changes_only_on_valid_post_example :
  (serve three_page_engine
     (ReqUpload POST (Some {| uf_name := "scan.pdf"; uf_bytes := "" |})
        "Invoice" "u2")
     sample_world).2 = sample_world
  ∧ (serve three_page_engine (ReqOcr 1 POST (Some "engengengen"))
       uploaded_world).2 = uploaded_world
  ∧ (serve three_page_engine
       (ReqOutputFormat 1 POST (Some "   ") (Some "txt") "o9")
       sample_world).2 = sample_world.
Proof.
  split; [|split]; apply world_changes_only_on_valid_post;
    right; left; reflexivity.
Defined.

(** ** Consistency of the database *)

Section Keys.
Context {A : Type} (key : A → nat).

Lemma map_key_replace (k : nat) (d : A) (l : list A) :
  key d = k →
  map key (map (fun r => if (key r =? k)%nat then d else r) l) = map key l.
Proof.
  intros Hd. induction l as [|x l IH]; [done|]. cbn [map]. rewrite IH.
  destruct (Nat.eqb_spec (key x) k) as [Hx|Hx]; [|done]. by rewrite Hd, Hx.
Qed.

Lemma elem_of_map_key (x : A) (l : list A) : x ∈ l → key x ∈ map key l.
Proof.
  intros Hx. apply list_elem_of_In, in_map. by apply list_elem_of_In.
Qed.

Lemma elem_of_map_key_inv (k : nat) (l : list A) :
  k ∈ map key l → ∃ x, x ∈ l ∧ key x = k.
Proof.
  intros Hk. apply list_elem_of_In, in_map_iff in Hk as (x & Hx & Hin).
  exists x. split; [by apply list_elem_of_In | done].
Qed.

Lemma NoDup_map_snoc (n : nat) (x : A) (l : list A) :
  Forall (fun r => (key r < n)%nat) l → key x = n →
  NoDup (map key l) → NoDup (map key (l ++ [x])).
Proof.
  intros Hfresh Hx Hl. rewrite map_app. apply NoDup_app. split; [done|].
  split; [|apply NoDup_singleton].
  intros k Hk Hk'. apply list_elem_of_singleton in Hk'. subst k.
  apply elem_of_map_key_inv in Hk as (r & Hr & Hkey).
  rewrite Forall_forall in Hfresh. specialize (Hfresh r Hr). lia.
Qed.

Lemma NoDup_map_filter (f : A → bool) (l : list A) :
  NoDup (map key l) → NoDup (map key (List.filter f l)).
Proof.
  induction l as [|x l IH]; [done|]. cbn [map List.filter].
  intros [Hx Hl]%NoDup_cons. destruct (f x); [|by apply IH].
  cbn [map]. apply NoDup_cons. split; [|by apply IH].
  intros Hin. apply Hx. apply elem_of_map_key_inv in Hin as (r & Hr & Hkey).
  rewrite <- Hkey. apply elem_of_map_key.
  apply list_elem_of_In, filter_In in Hr as [Hr _]. by apply list_elem_of_In.
Qed.

Lemma NoDup_map_key_inj (x y : A) (l : list A) :
  NoDup (map key l) → x ∈ l → y ∈ l → key x = key y → x = y.
Proof.
  induction l as [|z l IH]; [by intros _ ?%not_elem_of_nil|].
  cbn [map]. intros [Hz Hl]%NoDup_cons Hx Hy Hkey.
  apply elem_of_cons in Hx as [->|Hx], Hy as [->|Hy].
  - done.
  - exfalso. apply Hz. rewrite Hkey. by apply elem_of_map_key.
  - exfalso. apply Hz. rewrite <- Hkey. by apply elem_of_map_key.
  - by apply IH.
Qed.

Lemma find_key_none (k : nat) (l : list A) :
  find (fun r => key r =? k)%nat l = None → k ∉ map key l.
Proof.
  intros Hfind Hin. apply elem_of_map_key_inv in Hin as (x & Hx & Hkey).
  apply list_elem_of_In in Hx.
  pose proof (find_none _ _ Hfind x Hx) as Hno. cbn in Hno.
  apply Nat.eqb_neq in Hno. done.
Qed.
End Keys.

Lemma elem_of_list_filter {A : Type} (f : A → bool) (x : A) (l : list A) :
  x ∈ List.filter f l ↔ x ∈ l ∧ f x = true.
Proof. rewrite !list_elem_of_In. apply filter_In. Qed.

Lemma Forall_replace_unless {A : Type} (P : A → Prop) (c : A → bool) (d : A)
    (l : list A) :
  P d → Forall (fun r => c r = false → P r) l →
  Forall P (map (fun r => if c r then d else r) l).
Proof.
  intros Hd Hl. induction Hl as [|y l Hy Hl IH]; cbn [map]; constructor.
  - destruct (c y) eqn:Hc; [done | by apply Hy].
  - exact IH.
Qed.

Lemma Forall_lt_S {A : Type} (key : A → nat) (n : nat) (l : list A) :
  Forall (fun r => (key r < n)%nat) l → Forall (fun r => (key r < S n)%nat) l.
Proof.
  intros Hl. eapply Forall_impl; [exact Hl|]. intros r Hr. cbn beta in *. lia.
Qed.

Lemma Forall_snoc_fresh {A : Type} (key : A → nat) (n : nat) (x : A)
    (l : list A) :
  key x = n → Forall (fun r => (key r < n)%nat) l →
  Forall (fun r => (key r < S n)%nat) (l ++ [x]).
Proof.
  intros Hx Hl. apply Forall_app. split; [by apply Forall_lt_S|].
  apply Forall_singleton. lia.
Qed.

Lemma consistent_create_document (title file file_type : string) (d : DB) :
  consistent d → consistent (create_document title file file_type d).2.
Proof.
  intros ((Hfd & Hfo & Hft & Hfx) & (Hud & Huo & Hut & Hux)
          & (Hro & Hrt & Hrx) & Hone & Hstatus).
  unfold consistent, keys_fresh, keys_unique, references_resolve,
    one_ocr_result_each, status_matches_rows.
  cbn [create_document snd documents ocr_results translations output_files
         next_document next_ocr_result next_translation next_output_file].
  repeat split; try done.
  - by apply Forall_snoc_fresh.
  - by apply (NoDup_map_snoc doc_id (next_document d)).
  - eapply Forall_impl; [exact Hro|]. intros r Hr. cbn beta in *.
    rewrite map_app. apply elem_of_app. by left.
  - apply Forall_app. split; [exact Hstatus|]. apply Forall_singleton.
    cbn [doc_id doc_status]. split; [by left|]. split; [done|].
    + intros Hin.
      apply elem_of_map_key_inv in Hin as (r & Hr & Hdoc).
      rewrite Forall_forall in Hro. specialize (Hro r Hr). cbn beta in Hro.
      rewrite Hdoc in Hro.
      apply elem_of_map_key_inv in Hro as (x & Hx & Hid).
      rewrite Forall_forall in Hfd. specialize (Hfd x Hx). cbn beta in Hfd.
      lia.
Qed.

(** [save_document] of a document of the database with a new status
    that fits its OCR rows. *)
Lemma consistent_save_status (s : string) (doc : Document) (d : DB) :
  doc ∈ documents d →
  (s = "pending" ∨ s = "completed" ∨ s = "failed") →
  (s = "completed" ↔ doc_id doc ∈ map ocr_document (ocr_results d)) →
  consistent d → consistent (save_document (set_status s doc) d).
Proof.
  intros Hdoc Hknown Hrows ((Hfd & Hfo & Hft & Hfx) & (Hud & Huo & Hut & Hux)
          & (Hro & Hrt & Hrx) & Hone & Hstatus).
  unfold consistent, keys_fresh, keys_unique, references_resolve,
    one_ocr_result_each, status_matches_rows.
  cbn [save_document documents ocr_results translations output_files
         next_document next_ocr_result next_translation next_output_file].
  change (doc_id (set_status s doc)) with (doc_id doc).
  rewrite (map_key_replace doc_id) by done.
  repeat split; try done.
  - apply Forall_replace; [|done]. rewrite Forall_forall in Hfd.
    by apply (Hfd doc).
  - by apply Forall_replace.
Qed.

Lemma consistent_create_translation (r : OCRResult)
    (text source target : string) (d : DB) :
  r ∈ ocr_results d →
  consistent d →
  consistent (create_translation (ocr_id r) text source target d).2.
Proof.
  intros Hr ((Hfd & Hfo & Hft & Hfx) & (Hud & Huo & Hut & Hux)
          & (Hro & Hrt & Hrx) & Hone & Hstatus).
  unfold consistent, keys_fresh, keys_unique, references_resolve,
    one_ocr_result_each, status_matches_rows.
  cbn [create_translation snd documents ocr_results translations
         output_files next_document next_ocr_result next_translation
         next_output_file].
  repeat split; try done.
  - by apply Forall_snoc_fresh.
  - by apply (NoDup_map_snoc tr_id (next_translation d)).
  - apply Forall_app. split; [done|]. apply Forall_singleton.
    by apply (elem_of_map_key ocr_id).
  - eapply Forall_impl; [exact Hrx|]. intros o Ho. cbn beta in *.
    rewrite map_app. apply elem_of_app. by left.
Qed.

Lemma consistent_rendered_db (t : Translation) (edited file format : string)
    (d : DB) :
  t ∈ translations d →
  consistent d → consistent (rendered_db t edited file format d).
Proof.
  intros Ht ((Hfd & Hfo & Hft & Hfx) & (Hud & Huo & Hut & Hux)
          & (Hro & Hrt & Hrx) & Hone & Hstatus).
  assert (Hcreated :
    consistent (create_output_file (tr_id t) file format d).2).
  { unfold consistent, keys_fresh, keys_unique, references_resolve,
      one_ocr_result_each, status_matches_rows.
    cbn [create_output_file snd documents ocr_results translations
           output_files next_document next_ocr_result next_translation
           next_output_file].
    repeat split; try done.
    - by apply Forall_snoc_fresh.
    - by apply (NoDup_map_snoc out_id (next_output_file d)).
    - apply Forall_app. split; [done|]. apply Forall_singleton.
      by apply (elem_of_map_key tr_id). }
  unfold rendered_db. destruct (negb _); [|exact Hcreated].
  clear Hfd Hfo Hft Hfx Hud Huo Hut Hux Hro Hrt Hrx Hone Hstatus.
  destruct Hcreated as ((Hfd & Hfo & Hft & Hfx) & (Hud & Huo & Hut & Hux)
          & (Hro & Hrt & Hrx) & Hone & Hstatus).
  cbn [create_output_file snd documents ocr_results translations
         output_files next_document next_ocr_result next_translation
         next_output_file] in *.
  unfold consistent, keys_fresh, keys_unique, references_resolve,
    one_ocr_result_each, status_matches_rows.
  cbn [save_translation create_output_file snd documents ocr_results
         translations output_files next_document next_ocr_result
         next_translation next_output_file].
  change (tr_id (set_text edited t)) with (tr_id t).
  rewrite (map_key_replace tr_id) by done.
  repeat split; try done.
  - apply Forall_replace; [|done]. rewrite Forall_forall in Hft.
    by apply (Hft t).
  - apply Forall_replace; [|done]. rewrite Forall_forall in Hrt.
    by apply (Hrt t).
Qed.

Lemma consistent_ocr_completed (doc : Document) (id : nat)
    (text language : string) (d : DB) :
  doc ∈ documents d → doc_id doc = id →
  id ∉ map ocr_document (ocr_results d) →
  consistent d →
  consistent
    (save_document (set_status "completed" doc)
       (create_ocr_result id text language
          (save_document (set_status "processing" doc) d)).2).
Proof.
  intros Hdoc Hid Hnone ((Hfd & Hfo & Hft & Hfx) & (Hud & Huo & Hut & Hux)
          & (Hro & Hrt & Hrx) & Hone & Hstatus).
  unfold consistent, keys_fresh, keys_unique, references_resolve,
    one_ocr_result_each, status_matches_rows.
  cbn [save_document create_ocr_result snd documents ocr_results translations
         output_files next_document next_ocr_result next_translation
         next_output_file].
  change (doc_id (set_status "completed" doc)) with (doc_id doc).
  change (doc_id (set_status "processing" doc)) with (doc_id doc).
  rewrite (replace_twice (fun r => doc_id r =? doc_id doc)%nat)
    by apply Nat.eqb_refl.
  rewrite (map_key_replace doc_id) by done.
  repeat split; try done.
  - apply Forall_replace; [|done]. rewrite Forall_forall in Hfd.
    by apply (Hfd doc).
  - by apply Forall_snoc_fresh.
  - by apply (NoDup_map_snoc ocr_id (next_ocr_result d)).
  - apply Forall_app. split; [done|]. apply Forall_singleton.
    cbn [ocr_document]. rewrite <- Hid. by apply (elem_of_map_key doc_id).
  - eapply Forall_impl; [exact Hrt|]. intros t Ht. cbn beta in *.
    rewrite map_app. apply elem_of_app. by left.
  - rewrite map_app. apply NoDup_app. split; [done|].
    split; [|apply NoDup_singleton].
    intros k Hk Hk'%list_elem_of_singleton. cbn [ocr_document] in Hk'.
    by subst k.
  - rewrite map_app. cbn [map ocr_document].
    apply Forall_replace_unless.
    + cbn [doc_status doc_id set_status]. split; [by right; left|].
      split; [|done]. intros _. apply elem_of_app. right.
      apply list_elem_of_singleton. done.
    + eapply Forall_impl; [exact Hstatus|].
      intros x [Hknown Hrows] Hx. cbn beta in *. split; [done|].
      rewrite Hrows, elem_of_app, list_elem_of_singleton.
      apply Nat.eqb_neq in Hx. rewrite Hid in Hx. tauto.
Qed.

Lemma consistent_cascade_delete (x : nat) (d : DB) :
  consistent d → consistent (cascade_delete_document x d).
Proof.
  intros ((Hfd & Hfo & Hft & Hfx) & (Hud & Huo & Hut & Hux)
          & (Hro & Hrt & Hrx) & Hone & Hstatus).
  (* a kept OCR row does not belong to the deleted document *)
  assert (Hkept_ocr : ∀ r,
    r ∈ ocr_results (cascade_delete_document x d) →
    r ∈ ocr_results d ∧ ocr_document r ≠ x).
  { intros r [Hr Hkeep]%elem_of_list_filter. split; [done|]. intros Hdoc.
    apply negb_true_iff, not_true_iff_false in Hkeep. apply Hkeep.
    apply existsb_exists. exists r. split; [|apply Nat.eqb_refl].
    apply list_elem_of_In, elem_of_list_filter. split; [done|].
    by apply Nat.eqb_eq. }
  (* an OCR row of another document is kept *)
  assert (Hkeeps_ocr : ∀ r,
    r ∈ ocr_results d → ocr_document r ≠ x →
    r ∈ ocr_results (cascade_delete_document x d)).
  { intros r Hr Hdoc. apply elem_of_list_filter. split; [done|].
    apply negb_true_iff, not_true_iff_false. intros Hgone.
    apply existsb_exists in Hgone as (g & Hg & Hkey).
    apply list_elem_of_In, elem_of_list_filter in Hg as [Hg Hgdoc].
    apply Nat.eqb_eq in Hkey, Hgdoc.
    assert (g = r) as -> by by apply (NoDup_map_key_inj ocr_id _ _ _ Huo).
    done. }
  (* a kept translation hangs on a kept OCR row *)
  assert (Hkept_tr : ∀ t,
    t ∈ translations (cascade_delete_document x d) →
    t ∈ translations d
    ∧ ∀ r, r ∈ ocr_results d → ocr_id r = tr_ocr_result t →
           ocr_document r ≠ x).
  { intros t [Ht Hkeep]%elem_of_list_filter. split; [done|].
    intros r Hr Hkey Hdoc.
    apply negb_true_iff, not_true_iff_false in Hkeep. apply Hkeep.
    apply existsb_exists. exists t. split; [|apply Nat.eqb_refl].
    apply list_elem_of_In, elem_of_list_filter. split; [done|].
    apply existsb_exists. exists r. split; [|by apply Nat.eqb_eq].
    apply list_elem_of_In, elem_of_list_filter. split; [done|].
    by apply Nat.eqb_eq. }
  (* a kept output file hangs on a kept translation *)
  assert (Hkept_out : ∀ o,
    o ∈ output_files (cascade_delete_document x d) →
    o ∈ output_files d
    ∧ ∀ t, t ∈ translations d → tr_id t = out_translation o →
           t ∈ translations (cascade_delete_document x d)).
  { intros o [Ho Hkeep]%elem_of_list_filter. split; [done|].
    intros t Ht Hkey. apply elem_of_list_filter. split; [done|].
    apply negb_true_iff, not_true_iff_false. intros Hgone.
    apply existsb_exists in Hgone as (g & Hg & Hgkey).
    apply Nat.eqb_eq in Hgkey.
    assert (g = t) as ->.
    { apply (NoDup_map_key_inj tr_id _ _ _ Hut); [|done|done].
      apply list_elem_of_In in Hg.
      by apply elem_of_list_filter in Hg as [Hg _]. }
    apply negb_true_iff, not_true_iff_false in Hkeep. apply Hkeep.
    apply existsb_exists. exists o. split; [|apply Nat.eqb_refl].
    apply list_elem_of_In, elem_of_list_filter. split; [done|].
    apply existsb_exists. exists t. split; [done | by apply Nat.eqb_eq]. }
  unfold consistent, keys_fresh, keys_unique, references_resolve,
    one_ocr_result_each, status_matches_rows.
  repeat split;
    try (cbn [cascade_delete_document documents ocr_results translations
                output_files next_document next_ocr_result next_translation
                next_output_file];
         first [by apply Forall_list_filter | by apply NoDup_map_filter]).
  - apply Forall_forall. intros r Hr.
    destruct (Hkept_ocr r Hr) as [Hin Hdoc].
    rewrite Forall_forall in Hro.
    destruct (elem_of_map_key_inv doc_id _ _ (Hro r Hin)) as (y & Hy & Hkey).
    rewrite <- Hkey. apply (elem_of_map_key doc_id).
    cbn [cascade_delete_document documents]. apply elem_of_list_filter.
    split; [done|]. apply negb_true_iff, Nat.eqb_neq. congruence.
  - apply Forall_forall. intros t Ht.
    destruct (Hkept_tr t Ht) as [Hin Hocr].
    rewrite Forall_forall in Hrt.
    destruct (elem_of_map_key_inv ocr_id _ _ (Hrt t Hin)) as (r & Hr & Hkey).
    rewrite <- Hkey. apply (elem_of_map_key ocr_id).
    apply Hkeeps_ocr; [done|]. by apply Hocr.
  - apply Forall_forall. intros o Ho.
    destruct (Hkept_out o Ho) as [Hin Htr].
    rewrite Forall_forall in Hrx.
    destruct (elem_of_map_key_inv tr_id _ _ (Hrx o Hin)) as (t & Ht & Hkey).
    rewrite <- Hkey. apply (elem_of_map_key tr_id). by apply Htr.
  - apply Forall_forall. intros y Hy.
    cbn [cascade_delete_document documents] in Hy.
    apply elem_of_list_filter in Hy as [Hy Hkeep].
    apply negb_true_iff, Nat.eqb_neq in Hkeep.
    unfold status_matches_rows in Hstatus. rewrite Forall_forall in Hstatus.
    destruct (Hstatus y Hy) as [Hknown Hrows]. split; [exact Hknown|].
    rewrite Hrows. split.
    + intros (r & Hr & Hdoc)%(elem_of_map_key_inv ocr_document).
      rewrite <- Hdoc. apply (elem_of_map_key ocr_document).
      apply Hkeeps_ocr; [done | congruence].
    + intros (r & Hr & Hdoc)%(elem_of_map_key_inv ocr_document).
      rewrite <- Hdoc. apply (elem_of_map_key ocr_document).
      by apply Hkept_ocr.
Qed.

Lemma serve_consistent (E : External) (r : Request) (w : World) :
  consistent (db w) → consistent (db (serve E r w).2).
Proof.
  intros Hw.
  destruct r as [|m file title uuid|id m language|id m target
                |id m text format uuid|id|id|id m]; cbn [serve].
  - exact Hw.
  - unfold upload_view. destruct m; [exact Hw|].
    destruct (DocumentUploadForm file title) as [[[t f] ft]|]; [|exact Hw].
    cbn [snd db]. by apply consistent_create_document.
  - unfold ocr_view.
    destruct (get_document (db w) id) as [doc|] eqn:Hdoc; [|exact Hw].
    destruct (ocr_result_of (db w) (doc_id doc)) eqn:Hocr; [exact Hw|].
    destruct m; [exact Hw|].
    destruct (OCRLanguageForm language) as [lang|]; [|exact Hw].
    apply find_some_holds in Hdoc as [_ Hin].
    apply (find_key_none ocr_document) in Hocr.
    destruct (ocr_call E _ lang) as [text|e]; cbn [snd with_db db].
    + by apply (consistent_ocr_completed doc (doc_id doc)).
    + rewrite save_document_twice by done.
      apply (consistent_save_status "failed" doc);
        [done | by right; right | | done].
      split; [discriminate | by intros ?%Hocr].
  - unfold translate_view.
    destruct (get_ocr_result (db w) id) as [o|] eqn:Ho; [|exact Hw].
    destruct m; [exact Hw|].
    destruct (TranslationForm target) as [t|]; [|exact Hw].
    destruct (translate_text E _ _ t) as [text|e]; [|exact Hw].
    cbn [snd with_db db]. apply consistent_create_translation; [|done].
    by apply find_some_holds in Ho as [_ Hin].
  - destruct (get_translation (db w) id) as [t|] eqn:Ht;
      [|unfold output_format_view; by rewrite Ht].
    destruct m; [unfold output_format_view; by rewrite Ht|].
    destruct (OutputFormatForm text format) as [[edited f]|] eqn:Hform;
      [|unfold output_format_view; by rewrite Ht, Hform].
    rewrite (output_format_view_world E w id t text format uuid edited f
               Ht Hform).
    destruct (generate_output_file E edited f _ (fs w)) as [[p|e] files];
      [|exact Hw].
    cbn [db]. apply consistent_rendered_db; [|done].
    by apply find_some_holds in Ht as [_ Hin].
  - unfold result_view. by destruct (get_output_file _ _).
  - unfold document_detail_view. by destruct (get_document _ _).
  - unfold delete_document_view.
    destruct (get_document (db w) id) as [doc|]; [|exact Hw].
    destruct m; [exact Hw|]. cbn [snd Document_delete db].
    by apply consistent_cascade_delete.
Qed.

Lemma reachable_consistent (w : World) : reachable w → consistent (db w).
Proof.
  induction 1 as [f|E r w _ IH]; [|by apply serve_consistent].
  unfold consistent, keys_fresh, keys_unique, references_resolve,
    one_ocr_result_each, status_matches_rows. cbn.
  repeat split; constructor.
Qed.

Lemma serve_all_reachable (reqs : list (External * Request)) :
  ∀ w, reachable w → reachable (serve_all reqs w).
Proof.
  induction reqs as [|[E r] reqs IH]; intros w Hw; [exact Hw|].
  apply IH. by constructor.
Qed.

(** In every world the application can reach, no foreign key dangles:
    each OCR result belongs to a document that is there, each
    translation to an OCR result that is there, each output file to a
    translation that is there. *)
Theorem reachable_references_resolve (w : World) :
  reachable w → references_resolve (db w).
Proof. intros Hw. by apply reachable_consistent in Hw as (_ & _ & ? & _). Qed.

(** After one document has gone through the pipeline and been rendered
    twice, each table has rows, and their foreign keys resolve. *)
Lemma reachable_references_resolve_example :
  let w := serve_all two_edits {| db := empty_db; fs := ∅ |} in
  (map doc_id (documents (db w)) = [1]
   ∧ map (fun r => (ocr_id r, ocr_document r)) (ocr_results (db w))
     = [(1, 1)]
   ∧ map (fun r => (tr_id r, tr_ocr_result r)) (translations (db w))
     = [(1, 1)]
   ∧ map (fun r => (out_id r, out_translation r)) (output_files (db w))
     = [(1, 1); (2, 1)])
  ∧ references_resolve (db w).
Proof.
  intros w. split; [by vm_compute|].
  apply (reachable_references_resolve w).
  apply serve_all_reachable. constructor.
Defined.

Lemma filter_key_at_most_one {A : Type} (key : A → nat) (k : nat)
    (l : list A) :
  NoDup (map key l) →
  (length (List.filter (fun r => key r =? k)%nat l) ≤ 1)%nat.
Proof.
  induction l as [|x l IH]; [cbn; lia|]. cbn [map List.filter].
  intros [Hx Hl]%NoDup_cons. specialize (IH Hl).
  destruct (Nat.eqb_spec (key x) k) as [Hk|Hk]; [|exact IH].
  cbn [length].
  destruct (List.filter _ l) as [|y rest] eqn:Hfilter; [cbn; lia|].
  exfalso. apply Hx.
  assert (Hy : y ∈ List.filter (fun r => key r =? k)%nat l)
    by (rewrite Hfilter; apply list_elem_of_here).
  apply elem_of_list_filter in Hy as [Hy Hyk]. apply Nat.eqb_eq in Hyk.
  rewrite Hk, <- Hyk. by apply elem_of_map_key.
Qed.

(** In every world the application can reach, its requests being
    served one after the other, a document has at most one OCR result:
    [ocr_view] creates one only after finding none. *)
Theorem reachable_at_most_one_ocr_result (w : World) (document : nat) :
  reachable w → (length (ocr_rows_of (db w) document) ≤ 1)%nat.
Proof.
  intros Hw. apply reachable_consistent in Hw as (_ & _ & _ & Hone & _).
  by apply filter_key_at_most_one.
Qed.

(** A document whose OCR has run, and for which the OCR page is posted
    a second time: it has one OCR result and no more. *)
Lemma reachable_at_most_one_ocr_result_example :
  let w := serve_all (two_edits ++
                      [(three_page_engine, ReqOcr 1 POST (Some "fra"))])%list
             {| db := empty_db; fs := ∅ |} in
  map (fun r => (ocr_id r, ocr_language r)) (ocr_rows_of (db w) 1)
    = [(1, "eng")]
  ∧ (length (ocr_rows_of (db w) 1) ≤ 1)%nat.
Proof.
  intros w. split; [by vm_compute|].
  apply (reachable_at_most_one_ocr_result w 1).
  apply serve_all_reachable. constructor.
Defined.

(** In every world the application can reach, its requests being
    served one after the other, a document is pending, completed or
    failed, and it is completed exactly when it has an OCR result: the
    stage of a document can be read off its rows. *)
Theorem reachable_status_matches_ocr_result (w : World) (x : Document) :
  reachable w → x ∈ documents (db w) →
  (doc_status x = "pending" ∨ doc_status x = "completed"
   ∨ doc_status x = "failed")
  ∧ (doc_status x = "completed"
     ↔ is_Some (ocr_result_of (db w) (doc_id x))).
Proof.
  intros Hw Hx. apply reachable_consistent in Hw as (_ & _ & _ & _ & Hs).
  unfold status_matches_rows in Hs. rewrite Forall_forall in Hs.
  destruct (Hs x Hx) as [Hknown Hrows]. split; [exact Hknown|].
  rewrite Hrows. unfold ocr_result_of. split.
  - intros (r & Hr & Hdoc)%(elem_of_map_key_inv ocr_document).
    destruct (find _ _) as [y|] eqn:Hfind; [done|].
    apply (find_key_none ocr_document) in Hfind. exfalso. apply Hfind.
    rewrite <- Hdoc. by apply elem_of_map_key.
  - intros [r Hr]. apply find_some_holds in Hr as [Hdoc Hin].
    apply Nat.eqb_eq in Hdoc. rewrite <- Hdoc. by apply elem_of_map_key.
Qed.

(** Two uploads; the OCR of the first returns and the OCR of the second
    raises.  The first document is completed and has its OCR result,
    the second is failed and has none. *)
Lemma reachable_status_matches_ocr_result_example :
  let w := serve_all
             [(three_page_engine,
               ReqUpload POST
                 (Some {| uf_name := "invoice.pdf"; uf_bytes := "%PDF-1.4" |})
                 "Invoice" "u1");
              (three_page_engine,
               ReqUpload POST
                 (Some {| uf_name := "letter.pdf"; uf_bytes := "%PDF-1.4" |})
                 "Letter" "u2");
              (three_page_engine, ReqOcr 1 POST (Some "eng"));
              (broken_pdf_engine, ReqOcr 2 POST (Some "eng"))]
             {| db := empty_db; fs := ∅ |} in
  let first := {| doc_id := 1; doc_title := "Invoice";
                  doc_file := "uploads/u1.pdf"; doc_file_type := "pdf";
                  doc_status := "completed" |} in
  let second := {| doc_id := 2; doc_title := "Letter";
                   doc_file := "uploads/u2.pdf"; doc_file_type := "pdf";
                   doc_status := "failed" |} in
  documents (db w) = [first; second]
  ∧ map ocr_document (ocr_results (db w)) = [1]
  ∧ (doc_status first = "completed"
     ↔ is_Some (ocr_result_of (db w) (doc_id first)))
  ∧ (doc_status second = "completed"
     ↔ is_Some (ocr_result_of (db w) (doc_id second))).
Proof.
  intros w first second.
  assert (Hw : reachable w) by (apply serve_all_reachable; constructor).
  assert (Hdocs : documents (db w) = [first; second]) by by vm_compute.
  split; [exact Hdocs|]. split; [by vm_compute|]. split.
  - apply (reachable_status_matches_ocr_result w first Hw).
    rewrite Hdocs. apply list_elem_of_here.
  - apply (reachable_status_matches_ocr_result w second Hw).
    rewrite Hdocs. apply list_elem_of_further, list_elem_of_here.
Defined.

(** ** From the upload to the OCR dispatch *)

Section Split.
Variable c : ascii.

Lemma split_char_nonempty (s : string) : Py.split_char c s ≠ [].
Proof.
  destruct s as [|a s]; [done|]. cbn [Py.split_char].
  destruct (Ascii.eqb a c); [done|]. by destruct (Py.split_char c s).
Qed.

Lemma split_char_no_sep (s : string) :
  has_char c s = false → Py.split_char c s = [s].
Proof.
  induction s as [|a s IH]; [done|]. cbn [has_char Py.split_char].
  intros [Ha Hs]%orb_false_elim. rewrite Ha, (IH Hs). done.
Qed.

Lemma split_char_app_sep (a b : string) :
  has_char c a = false →
  Py.split_char c (a +:+ String c b) = a :: Py.split_char c b.
Proof.
  induction a as [|x a IH].
  - intros _. change ("" +:+ String c b) with (String c b).
    cbn [Py.split_char]. by rewrite Ascii.eqb_refl.
  - cbn [has_char]. intros [Hx Ha]%orb_false_elim.
    change (String x a +:+ String c b) with (String x (a +:+ String c b)).
    cbn [Py.split_char]. by rewrite Hx, (IH Ha).
Qed.

(** The pieces of a split do not hold the separator. *)
Lemma split_char_pieces (s : string) :
  Forall (fun p => has_char c p = false) (Py.split_char c s).
Proof.
  induction s as [|a s IH]; [by repeat constructor|]. cbn [Py.split_char].
  destruct (Ascii.eqb a c) eqn:Ha; [by constructor|].
  destruct (Py.split_char c s) as [|h t];
    [apply Forall_singleton; cbn [has_char]; by rewrite Ha|].
  inversion IH as [|? ? Hh Ht]; subst. constructor; [|done].
  cbn [has_char]. by rewrite Ha, Hh.
Qed.

Lemma last_item_piece (s : string) :
  has_char c (Py.last_item (Py.split_char c s)) = false.
Proof.
  pose proof (split_char_pieces s) as Hall.
  pose proof (split_char_nonempty s) as Hne.
  unfold Py.last_item. rewrite Forall_forall in Hall. apply Hall.
  apply list_elem_of_In.
  destruct (exists_last Hne) as (front & x & ->).
  rewrite last_last. apply in_or_app. right. by left.
Qed.

Lemma has_char_app_sep (pre rest : string) :
  has_char c (pre +:+ String c rest) = true.
Proof.
  induction pre as [|y pre IH].
  - change ("" +:+ String c rest) with (String c rest). cbn [has_char].
    apply orb_true_iff. left. apply Ascii.eqb_refl.
  - change (String y pre +:+ String c rest)
      with (String y (pre +:+ String c rest)).
    cbn [has_char]. rewrite IH. apply orb_true_r.
Qed.

Lemma split_char_one_piece (s h : string) :
  Py.split_char c s = [h] → h = s.
Proof.
  revert h. induction s as [|a s IH]; intros h Hsplit;
    cbn [Py.split_char] in Hsplit; [by injection Hsplit|].
  pose proof (split_char_nonempty s) as Hne.
  destruct (Ascii.eqb a c).
  - injection Hsplit as _ Hnil. done.
  - destruct (Py.split_char c s) as [|h0 [|h1 t0]]; [done| |done].
    injection Hsplit as <-. by rewrite (IH h0).
Qed.

(** After a separator that is the last one, the last piece is what
    follows it. *)
Lemma last_item_after_sep (pre rest : string) :
  has_char c rest = false →
  Py.last_item (Py.split_char c (pre +:+ String c rest)) = rest.
Proof.
  intros Hrest. unfold Py.last_item. induction pre as [|x pre IH].
  - change ("" +:+ String c rest) with (String c rest).
    cbn [Py.split_char]. rewrite Ascii.eqb_refl, (split_char_no_sep _ Hrest).
    done.
  - change (String x pre +:+ String c rest)
      with (String x (pre +:+ String c rest)).
    cbn [Py.split_char].
    destruct (Py.split_char c (pre +:+ String c rest)) as [|h t] eqn:Hsplit;
      [by destruct (split_char_nonempty (pre +:+ String c rest))|].
    destruct (Ascii.eqb x c); [exact IH|].
    destruct t as [|h' t]; [|exact IH].
    (* one piece only: impossible, the separator is there *)
    exfalso. pose proof (split_char_pieces (pre +:+ String c rest)) as Hall.
    rewrite Hsplit, Forall_singleton in Hall.
    rewrite (split_char_one_piece _ _ Hsplit), has_char_app_sep in Hall.
    done.
Qed.
End Split.

Lemma has_char_append (c : ascii) (a b : string) :
  has_char c (a +:+ b) = has_char c a || has_char c b.
Proof.
  induction a as [|x a IH]; [done|].
  change (String x a +:+ b) with (String x (a +:+ b)).
  cbn [has_char]. by rewrite IH, orb_assoc.
Qed.

Lemma lower_char_slash (a : ascii) :
  Ascii.eqb (Py.lower_char a) "/" = Ascii.eqb a "/".
Proof. by destruct a as [[] [] [] [] [] [] [] []]. Qed.

Lemma has_char_lower_slash (s : string) :
  has_char "/" (Py.lower s) = has_char "/" s.
Proof.
  induction s as [|a s IH]; [done|]. cbn [Py.lower has_char].
  by rewrite lower_char_slash, IH.
Qed.

Lemma uuid_char_plain (a : ascii) :
  is_uuid_char a = true → Ascii.eqb a "/" = false ∧ Ascii.eqb a "." = false.
Proof. by destruct a as [[] [] [] [] [] [] [] []]. Qed.

Lemma uuid_like_plain (uuid : string) :
  uuid_like uuid = true →
  nonempty uuid = true ∧ has_char "/" uuid = false
  ∧ has_char "." uuid = false.
Proof.
  unfold uuid_like. intros [Hne Hall]%andb_prop. split; [done|]. clear Hne.
  induction uuid as [|a u IH]; [done|].
  cbn [list_ascii_of_string forallb] in Hall.
  apply andb_prop in Hall as [Ha Hu].
  destruct (uuid_char_plain a Ha) as [Hslash Hdot].
  destruct (IH Hu) as [IHslash IHdot]. cbn [has_char].
  by rewrite Hslash, Hdot, IHslash, IHdot.
Qed.

Lemma prefix_slash_append (u v : string) :
  nonempty u = true → has_char "/" u = false →
  String.prefix "/" (u +:+ v) = false.
Proof.
  destruct u as [|a u]; [done|]. intros _. cbn [has_char].
  intros [Ha _]%orb_false_elim.
  change (String a u +:+ v) with (String a (u +:+ v)).
  cbn [String.prefix]. destruct (ascii_dec "/" a) as [<-|]; [|done].
  by rewrite Ascii.eqb_refl in Ha.
Qed.

Lemma supported_type_plain (file_type : string) :
  existsb (String.eqb file_type) supported_upload_types = true →
  has_char "/" file_type = false.
Proof.
  intros (x & Hin & Heq)%existsb_exists. apply String.eqb_eq in Heq as ->.
  cbn in Hin. by destruct Hin as [<-|[<-|[<-|[<-|[<-|[<-|[<-|[]]]]]]]].
Qed.

(** [perform_ocr] on a path whose extension, in lower case, is a dot
    and a supported upload type. *)
Lemma perform_ocr_by_type (E : External) (path language file_type : string) :
  Py.lower (Py.splitext_ext path) = "." +:+ file_type →
  existsb (String.eqb file_type) supported_upload_types = true →
  perform_ocr E path language =
    if String.eqb file_type "pdf" then ocr_pdf E path language
    else ocr_image E path language.
Proof.
  intros Hext (x & Hin & Heq)%existsb_exists. unfold perform_ocr.
  rewrite Hext. apply String.eqb_eq in Heq as ->.
  cbn in Hin. by destruct Hin as [<-|[<-|[<-|[<-|[<-|[<-|[<-|[]]]]]]]].
Qed.

(** The extension [os.path.splitext] finds on the stored path of an
    upload is the dot and the extension [get_file_path] kept. *)
Lemma splitext_stored_upload (E : External) (uuid filename : string) :
  uuid_like uuid = true →
  let ext := Py.last_item (Py.split_char "." filename) in
  has_char "/" ext = false →
  Py.splitext_ext (storage_path E (get_file_path uuid filename))
  = "." +:+ ext.
Proof.
  intros (Hne & Hslash & Hdot)%uuid_like_plain ext Hext.
  unfold get_file_path. fold ext.
  assert (Hname : has_char "/" (uuid +:+ "." +:+ ext) = false).
  { rewrite has_char_append, Hslash. cbn [orb].
    change ("." +:+ ext) with (String "." ext). cbn [has_char].
    by rewrite Hext. }
  assert (Py.path_join "uploads" (uuid +:+ "." +:+ ext)
          = "uploads" +:+ String "/" (uuid +:+ "." +:+ ext)) as ->.
  { unfold Py.path_join. by rewrite prefix_slash_append. }
  unfold storage_path.
  destruct (path_join_ends (MEDIA_ROOT E)
              ("uploads" +:+ String "/" (uuid +:+ "." +:+ ext)))
    as [pre ->].
  rewrite <- append_assoc. unfold Py.splitext_ext.
  rewrite (last_item_after_sep "/" _ _ Hname).
  change (uuid +:+ "." +:+ ext) with (uuid +:+ String "." ext).
  rewrite (split_char_app_sep "." _ _ Hdot).
  rewrite (split_char_no_sep "." ext) by apply last_item_piece.
  unfold nonempty in Hne. cbn [rev app existsb]. by rewrite Hne.
Qed.

(** A document that [upload_view] accepted is never refused by
    [perform_ocr] as an unsupported format: its stored file goes to the
    PDF path when its type is 'pdf' and to the image path otherwise. *)
Theorem uploaded_file_reaches_an_ocr_engine (E : External)
    (file : UploadedFile) (title uuid language : string)
    (t : string) (f : UploadedFile) (file_type : string) :
  DocumentUploadForm (Some file) title = Some (t, f, file_type) →
  uuid_like uuid = true →
  let path := storage_path E (get_file_path uuid (uf_name file)) in
  perform_ocr E path language =
    if String.eqb file_type "pdf" then ocr_pdf E path language
    else ocr_image E path language.
Proof.
  intros Hform Huuid path.
  destruct (DocumentUploadForm_some _ _ _ _ _ Hform)
    as ([= <-] & -> & Hsup & _).
  apply perform_ocr_by_type; [|exact Hsup]. subst path.
  rewrite splitext_stored_upload; [done | exact Huuid |].
  rewrite <- has_char_lower_slash. by apply supported_type_plain.
Qed.

Lemma uploaded_file_reaches_an_ocr_engine_example :
  perform_ocr three_page_engine "/srv/media/uploads/0b0e-4f.JPG" "eng"
  = ocr_image three_page_engine "/srv/media/uploads/0b0e-4f.JPG" "eng".
Proof.
  exact (uploaded_file_reaches_an_ocr_engine three_page_engine
           {| uf_name := "holiday.photo.JPG"; uf_bytes := "JFIF" |}
           "" "0b0e-4f" "eng" ""
           {| uf_name := "holiday.photo.JPG"; uf_bytes := "JFIF" |} "jpg"
           eq_refl eq_refl).
Defined.

(** ** Failures of the OCR engines *)

Lemma ocr_pages_first_failure (E : External) (language : string)
    (read : list Bitmap) :
  ∀ (texts : list string) (bad : Bitmap) (rest : list Bitmap) (e : exn)
    (i : nat) (acc : string),
    Forall2 (fun img t => image_to_string E img language = Ok t) read texts →
    image_to_string E bad language = Raise e →
    ocr_pages E language i (read ++ bad :: rest)%list acc = Raise e.
Proof.
  induction read as [|img read IH]; intros texts bad rest e i acc Hall Hbad.
  - cbn [app ocr_pages]. by rewrite Hbad.
  - inversion Hall as [|? t ? texts' Hhd Htl]; subst.
    cbn [app ocr_pages]. rewrite Hhd. cbn [mbind result_bind].
    by apply (IH texts').
Qed.

(** [ocr_pdf] is all or nothing: when a page cannot be read, the call
    raises with the message of the first such page behind the prefix
    'Error performing OCR on PDF: ', whatever the pages before it gave
    and whatever the pages after it would give. *)
Theorem ocr_pdf_fails_with_first_bad_page (E : External)
    (pdf_path language : string) (read : list Bitmap) (texts : list string)
    (bad : Bitmap) (rest : list Bitmap) (e : exn) :
  convert_from_path E pdf_path = Ok (read ++ bad :: rest)%list →
  Forall2 (fun img t => image_to_string E img language = Ok t) read texts →
  image_to_string E bad language = Raise e →
  ocr_pdf E pdf_path language =
    Raise (mk_exn Exception ("Error performing OCR on PDF: " +:+ exn_msg e)).
Proof.
  intros Hconv Hall Hbad. unfold ocr_pdf. rewrite Hconv.
  cbn [mbind result_bind].
  by rewrite (ocr_pages_first_failure E language read texts bad rest e 0 ""
                Hall Hbad).
Qed.

Lemma ocr_pdf_fails_with_first_bad_page_example :
  ocr_pdf smudged_page_engine "/srv/media/uploads/a.pdf" "eng" =
  Raise (mk_exn Exception
           "Error performing OCR on PDF: tesseract failed on page 2").
Proof.
  exact (ocr_pdf_fails_with_first_bad_page smudged_page_engine
           "/srv/media/uploads/a.pdf" "eng" [Bitmap_of 1] ["page-1"]
           (Bitmap_of 2) [Bitmap_of 3]
           (mk_exn OtherError "tesseract failed on page 2")
           eq_refl ltac:(repeat constructor) eq_refl).
Defined.

(** ** The dispatcher of the renderers *)



Lemma generate_output_file_written (E : External)
    (text output_format output_path p : string) (f files : FS) :
  generate_output_file E text output_format output_path f = (Ok p, files) →
  temp_txt_path E ≠ p → temp_html_path E ≠ p →
  is_Some (files !! p).
Proof.
  unfold generate_output_file. intros Hgen Htxt Hhtml.
  destruct (String.eqb output_format "txt").
  { unfold create_text_file in Hgen.
    destruct (write_text E output_path text); [|done].
    injection Hgen as <- <-. rewrite lookup_insert_eq. by eexists. }
  destruct (String.eqb output_format "docx").
  { unfold create_docx_file in Hgen.
    destruct (docx_styled E text);
      [injection Hgen as <- <-; rewrite lookup_insert_eq; by eexists|].
    destruct (docx_plain E text); [|done].
    injection Hgen as <- <-. rewrite lookup_insert_eq. by eexists. }
  destruct (String.eqb output_format "pdf").
  { unfold create_pdf_file, pdf_last_resort in Hgen.
    destruct (fpdf_render E text);
      [injection Hgen as <- <-; rewrite lookup_insert_eq; by eexists|].
    destruct (reportlab_render E text);
      [injection Hgen as <- <-; rewrite lookup_insert_eq; by eexists|].
    destruct (wkhtmltopdf E) as [|tool_e].
    - injection Hgen as <- <-.
      rewrite !lookup_delete_ne, lookup_insert_eq by done. by eexists.
    - destruct (tool_unavailable _); [|done].
      destruct (_ !! temp_txt_path E) as [c|]; [|done].
      injection Hgen as <- <-.
      rewrite lookup_delete_ne, lookup_insert_eq by done. by eexists. }
  assert (Himage : ∀ format,
    create_image_file E text output_path format f = (Ok p, files) →
    is_Some (files !! p)).
  { intros format. unfold create_image_file.
    destruct (image_save E output_path format); [|done]. intros [= <- <-].
    rewrite (apply_saves_one_path output_path) by apply image_pen_saved_at.
    rewrite lookup_insert_eq. by eexists. }
  destruct (String.eqb output_format "jpeg"); [by apply (Himage "JPEG")|].
  destruct (String.eqb output_format "png"); [by apply (Himage "PNG")|].
  done.
Qed.

(** Whatever path a renderer returns names a file that is in the store
    when it returns (the temporary files of the PDF last resort being
    elsewhere). *)
Theorem generate_output_file_returns_written_path (E : External)
    (text output_format output_path p : string) (f files : FS) :
  generate_output_file E text output_format output_path f = (Ok p, files) →
  temp_txt_path E ≠ p → temp_html_path E ≠ p →
  is_Some (files !! p).
Proof. apply generate_output_file_written. Qed.

Lemma generate_output_file_returns_written_path_example :
  is_Some
    ((generate_output_file no_pdf_tools_engine "salut" "pdf"
        "/srv/media/outputs/o2.pdf" ∅).2
       !! "/srv/media/outputs/o2.txt").
Proof.
  apply (generate_output_file_returns_written_path no_pdf_tools_engine
           "salut" "pdf" "/srv/media/outputs/o2.pdf"
           "/srv/media/outputs/o2.txt" ∅);
    [reflexivity | discriminate | discriminate].
Defined.

(** The temporary files of the PDF last resort: when wkhtmltopdf runs,
    both are removed; when it cannot be run, the text file is removed
    and the HTML file stays behind. *)
Theorem pdf_last_resort_temporary_files (E : External) (e nested_e : exn)
    (text output_path : string) (f : FS) :
  let out := pdf_last_resort E e nested_e text output_path f in
  (is_ok (wkhtmltopdf E) = true →
   out.2 !! temp_txt_path E = None ∧ out.2 !! temp_html_path E = None)
  ∧ (∀ tool_e,
       wkhtmltopdf E = Raise tool_e →
       tool_unavailable (exn_cls tool_e) = true →
       temp_html_path E ≠ temp_txt_path E →
       temp_html_path E ≠ Py.replace ".pdf" ".txt" output_path →
       out.2 !! temp_txt_path E = None
       ∧ out.2 !! temp_html_path E = Some (HtmlFile (html_content text))).
Proof.
  intros out. subst out. unfold pdf_last_resort. split.
  - destruct (wkhtmltopdf E); [|done]. intros _. cbn [snd].
    split; [apply lookup_delete_eq|].
    destruct (decide (temp_txt_path E = temp_html_path E)) as [->|Hne].
    + apply lookup_delete_eq.
    + rewrite lookup_delete_ne by done. apply lookup_delete_eq.
  - intros tool_e -> -> Htemp Hmoved.
    rewrite lookup_insert_ne, lookup_insert_eq by done. cbn [snd].
    split; [apply lookup_delete_eq|].
    rewrite lookup_delete_ne, lookup_insert_ne by done.
    apply lookup_insert_eq.
Qed.

Lemma pdf_last_resort_temporary_files_example :
  let out := pdf_last_resort no_pdf_tools_engine
               (mk_exn OtherError "No module named 'fpdf'")
               (mk_exn OtherError "Can't open font file")
               "salut" "/srv/media/outputs/o2.pdf" ∅ in
  out.2 !! "/tmp/tmp1.txt" = None
  ∧ out.2 !! "/tmp/tmp2.html" = Some (HtmlFile (html_content "salut")).
Proof.
  exact (proj2 (pdf_last_resort_temporary_files no_pdf_tools_engine
                  (mk_exn OtherError "No module named 'fpdf'")
                  (mk_exn OtherError "Can't open font file")
                  "salut" "/srv/media/outputs/o2.pdf" ∅)
           _ eq_refl eq_refl ltac:(discriminate) ltac:(discriminate)).
Defined.

(** ** The row and the file of a render *)

Lemma list_ascii_of_append (a b : string) :
  list_ascii_of_string (a +:+ b)
  = (list_ascii_of_string a ++ list_ascii_of_string b)%list.
Proof.
  induction a as [|x a IH]; [done|].
  change (String x a +:+ b) with (String x (a +:+ b)).
  cbn [list_ascii_of_string]. by rewrite IH.
Qed.

Lemma outputs_directory_plain (x : string) :
  String.eqb (x +:+ "outputs") "" = false
  ∧ Py.ends_with_slash (x +:+ "outputs") = false.
Proof.
  split; [by destruct x|]. unfold Py.ends_with_slash.
  by rewrite list_ascii_of_append, rev_app_distr.
Qed.

(** Joining the media root with 'outputs/name' and joining the outputs
    directory under the media root with 'name' give one path: the row
    of a render names the path the renderer was asked to write. *)
Lemma storage_path_of_output (E : External) (uuid format : string) :
  String.prefix "/" uuid = false →
  storage_path E (Py.path_join "outputs" (uuid +:+ "." +:+ format))
  = render_path E uuid format.
Proof.
  intros Huuid. pose proof (relative_output_path uuid format Huuid) as Hrel.
  assert (Hname : String.prefix "/" (uuid +:+ "." +:+ format) = false).
  { revert Hrel. unfold Py.path_join.
    destruct (String.prefix "/" (uuid +:+ "." +:+ format)) eqn:Hp; [|done].
    intros Heq. exfalso.
    assert (Hlen : String.length (uuid +:+ "." +:+ format)
                   = String.length ("outputs/" +:+ uuid +:+ "." +:+ format))
      by exact (f_equal String.length Heq).
    rewrite (length_append "outputs/") in Hlen. cbn in Hlen. lia. }
  rewrite Hrel. unfold storage_path, render_path, Py.path_join.
  rewrite Hname.
  change (String.prefix "/" ("outputs/" +:+ uuid +:+ "." +:+ format))
    with false.
  change (String.prefix "/" "outputs") with false. cbv beta iota.
  destruct (String.eqb (MEDIA_ROOT E) "" || Py.ends_with_slash (MEDIA_ROOT E)).
  - destruct (outputs_directory_plain (MEDIA_ROOT E)) as [-> ->].
    cbn [orb]. rewrite !append_assoc. done.
  - destruct (outputs_directory_plain (MEDIA_ROOT E +:+ "/")) as [H1 H2].
    rewrite append_assoc in H1, H2. rewrite H1, H2.
    cbn [orb]. rewrite !append_assoc. done.
Qed.

(** After a render that returned the path it was asked to write, the
    new OutputFile row names, under the media root, a file that is in
    the store. *)
Theorem rendered_row_names_a_stored_file (E : External) (w : World)
    (id : nat) (t : Translation) (posted_text posted_format : option string)
    (uuid edited format : string) (files : FS) :
  get_translation (db w) id = Some t →
  OutputFormatForm posted_text posted_format = Some (edited, format) →
  String.prefix "/" uuid = false →
  generate_output_file E edited format (render_path E uuid format) (fs w)
    = (Ok (render_path E uuid format), files) →
  temp_txt_path E ≠ render_path E uuid format →
  temp_html_path E ≠ render_path E uuid format →
  let w' := (output_format_view E id POST posted_text posted_format uuid w).2 in
  ∃ row,
    row ∈ output_files (db w')
    ∧ out_id row = next_output_file (db w)
    ∧ out_translation row = id
    ∧ is_Some (fs w' !! storage_path E (out_file row)).
Proof.
  intros Ht Hform Huuid Hgen Htxt Hhtml w'. subst w'.
  pose proof (get_translation_id _ _ _ Ht) as Hid.
  rewrite (output_format_view_world E w id t _ _ uuid edited format Ht Hform).
  rewrite Hgen. cbn [db fs].
  exists {| out_id := next_output_file (db w); out_translation := tr_id t;
            out_file := Py.path_join "outputs" (uuid +:+ "." +:+ format);
            out_file_type := format |}.
  cbn [out_id out_translation out_file]. split; [|split; [done|split; [done|]]].
  - rewrite rendered_db_output_files. apply elem_of_app. right.
    apply list_elem_of_here.
  - rewrite storage_path_of_output by done.
    by apply (generate_output_file_written E edited format
                (render_path E uuid format) (render_path E uuid format)
                (fs w)).
Qed.

Lemma rendered_row_names_a_stored_file_example :
  ∃ row,
    row ∈ output_files
            (db (output_format_view three_page_engine 1 POST (Some "salut")
                   (Some "png") "o4" sample_world).2)
    ∧ out_id row = 2
    ∧ out_translation row = 1
    ∧ is_Some
        (fs (output_format_view three_page_engine 1 POST (Some "salut")
               (Some "png") "o4" sample_world).2
           !! storage_path three_page_engine (out_file row)).
Proof.
  apply (rendered_row_names_a_stored_file three_page_engine sample_world 1
           {| tr_id := 1; tr_ocr_result := 1; tr_text := "bonjour";
              tr_source_language := "eng"; tr_target_language := "FR" |}
           (Some "salut") (Some "png") "o4" "salut" "png"
           (generate_output_file three_page_engine "salut" "png"
              "/srv/media/outputs/o4.png" (fs sample_world)).2);
    [reflexivity | reflexivity | reflexivity | reflexivity
    | discriminate | discriminate].
Defined.

(** ** The rows of a rendered image *)

Section Canvas.
Variables (font : Font) (output_path format : string).

Lemma pen_ready_drawing p : pen_ready p → pen_drawing p.
Proof. by intros [? _]. Qed.

Lemma draw_text_drawing s p : pen_ready p → pen_drawing (draw_text s p).
Proof.
  intros [(Hy & Hmax & Himg & Hsaves) Hroom]. unfold pen_drawing, height in *.
  cbn [draw_text y img saves]. rewrite length_app. cbn [length].
  split; [lia|]. split; [lia|]. split; [|done].
  apply Forall_app. split; [done|]. apply Forall_singleton.
  unfold on_canvas, height. cbn [fst snd]. lia.
Qed.

Lemma new_page_if_full_ready p :
  pen_drawing p → pen_ready (new_page_if_full output_path format p).
Proof.
  intros (Hy & Hmax & Himg & Hsaves). unfold new_page_if_full.
  destruct (Z.gtb_spec (y p) (height - 20)) as [Hfull|Hroom].
  - unfold pen_ready, pen_drawing, height in *. cbn [y img saves length].
    repeat split; try done; try lia.
    apply Forall_app. split; [done|]. apply Forall_singleton.
    exists format, (img p). cbn [snd]. repeat split; try done. lia.
  - by split.
Qed.

Lemma wrap_words_ready words :
  ∀ current_line p, pen_ready p →
    pen_ready (wrap_words font output_path format words current_line p).2.
Proof.
  induction words as [|word rest IH]; intros current_line p Hp; [exact Hp|].
  cbn [wrap_words]. destruct (fits font _); apply IH; [exact Hp|].
  by apply new_page_if_full_ready, draw_text_drawing.
Qed.

Lemma draw_line_ready p line :
  pen_ready p → pen_ready (draw_line font output_path format p line).
Proof.
  intros Hp. unfold draw_line. apply new_page_if_full_ready.
  destruct (negb (fits font line)); [|by apply draw_text_drawing].
  pose proof (wrap_words_ready (Py.split_ws line) "" p Hp) as Hw.
  destruct (wrap_words _ _ _ _ _ _) as [current_line p'].
  destruct (nonempty current_line);
    [by apply draw_text_drawing | by apply pen_ready_drawing].
Qed.

Lemma image_pen_ready text :
  pen_ready (image_pen font text output_path format).
Proof.
  unfold image_pen. generalize (Py.split_char "010" text) as lines.
  assert (Hstart : pen_ready {| img := []; y := 20; saves := [] |}).
  { unfold pen_ready, pen_drawing, height. cbn. repeat split; try done. }
  revert Hstart. generalize {| img := []; y := 20%Z; saves := [] |} as p.
  intros p Hp lines. revert p Hp.
  induction lines as [|line rest IH]; intros p Hp; [exact Hp|].
  cbn [foldl]. by apply IH, draw_line_ready.
Qed.
End Canvas.

(** Whatever the text, when the saves succeed the image
    [create_image_file] leaves at the output path has every row at the
    left margin, x = 20, and between the top and the bottom margin,
    20 <= y <= 1400 - 20, and at most 68 rows; and no canvas that was
    flushed on the way had more than 69. *)
Theorem create_image_file_rows_within_margins (E : External)
    (text output_path format : string) (f : FS) :
  image_save E output_path format = Ok tt →
  ∃ canvas : Canvas,
    (create_image_file E text output_path format f).2 !! output_path
      = Some (ImageFile format canvas)
    ∧ Forall (fun d => d.1.1 = 20 ∧ 20 ≤ d.1.2 ≤ 1380)%Z canvas
    ∧ (length canvas ≤ 68)%nat
    ∧ Forall (image_within 69)
        (saves (image_pen (find_font E f) text output_path format)).
Proof.
  intros Hsave.
  exists (img (image_pen (find_font E f) text output_path format)).
  destruct (image_pen_ready (find_font E f) output_path format text)
    as [(Hy & Hmax & Himg & Hsaves) Hroom].
  unfold height in *.
  split; [|split; [exact Himg|split; [lia|done]]].
  unfold create_image_file. rewrite Hsave. cbn [snd].
  rewrite (apply_saves_one_path output_path) by apply image_pen_saved_at.
  apply lookup_insert_eq.
Qed.

Lemma create_image_file_rows_within_margins_example :
  ∃ canvas : Canvas,
    (create_image_file three_page_engine (numbered_lines 71)
       "/srv/media/outputs/o3.png" "PNG" ∅).2 !! "/srv/media/outputs/o3.png"
      = Some (ImageFile "PNG" canvas)
    ∧ Forall (fun d => d.1.1 = 20 ∧ 20 ≤ d.1.2 ≤ 1380)%Z canvas
    ∧ (length canvas ≤ 68)%nat
    ∧ Forall (image_within 69)
        (saves (image_pen (find_font three_page_engine ∅) (numbered_lines 71)
                  "/srv/media/outputs/o3.png" "PNG")).
Proof.
  exact (create_image_file_rows_within_margins three_page_engine
           (numbered_lines 71) "/srv/media/outputs/o3.png" "PNG" ∅ eq_refl).
Defined.

Section Rows_fit.
Variables (font : Font) (output_path format : string) (lines : list string).

Lemma draw_text_rows_fit s p :
  row_fits font lines s → rows_fit font lines p →
  rows_fit font lines (draw_text s p).
Proof.
  intros Hs [Himg Hsaves]. split; [|done]. cbn [draw_text img].
  apply Forall_app. split; [done|]. by apply Forall_singleton.
Qed.

Lemma new_page_if_full_rows_fit p :
  rows_fit font lines p →
  rows_fit font lines (new_page_if_full output_path format p).
Proof.
  intros [Himg Hsaves]. unfold new_page_if_full.
  destruct (y p >? _)%Z; [|done]. split; [constructor|]. cbn [saves].
  apply Forall_app. split; [done|]. apply Forall_singleton.
  by exists format, (img p).
Qed.

Lemma wrap_words_rows_fit (line : string) (words : list string) :
  line ∈ lines →
  (∀ word, word ∈ words → word ∈ Py.split_ws line) →
  ∀ current_line p,
    row_fits font lines current_line → rows_fit font lines p →
    row_fits font lines
      (wrap_words font output_path format words current_line p).1
    ∧ rows_fit font lines
        (wrap_words font output_path format words current_line p).2.
Proof.
  intros Hline. induction words as [|word rest IH];
    intros Hwords current_line p Hcur Hp; [done|].
  assert (Hrest : ∀ w, w ∈ rest → w ∈ Py.split_ws line)
    by (intros w Hw; apply Hwords; by apply list_elem_of_further).
  cbn [wrap_words]. destruct (fits font _) eqn:Hfits.
  - apply IH; [done | by left | done].
  - apply IH; [done | |].
    + right. right. exists line. split; [done|].
      apply Hwords, list_elem_of_here.
    + by apply new_page_if_full_rows_fit, draw_text_rows_fit.
Qed.

Lemma draw_line_rows_fit p line :
  line ∈ lines → rows_fit font lines p →
  rows_fit font lines (draw_line font output_path format p line).
Proof.
  intros Hline Hp. unfold draw_line. apply new_page_if_full_rows_fit.
  destruct (fits font line) eqn:Hfits; cbn [negb];
    [apply draw_text_rows_fit; [by left | done]|].
  destruct (wrap_words_rows_fit line (Py.split_ws line) Hline
              (fun _ H => H) "" p) as [Hcur Hp']; [by right; left | done|].
  destruct (wrap_words _ _ _ _ _ _) as [current_line p'].
  cbn [fst snd] in Hcur, Hp'.
  destruct (nonempty current_line); [by apply draw_text_rows_fit | done].
Qed.

Lemma draw_lines_rows_fit (some_lines : list string) :
  (∀ line, line ∈ some_lines → line ∈ lines) →
  ∀ p, rows_fit font lines p →
       rows_fit font lines
         (foldl (draw_line font output_path format) p some_lines).
Proof.
  induction some_lines as [|line rest IH]; intros Hsub p Hp; [done|].
  cbn [foldl]. apply IH.
  - intros l Hl. apply Hsub. by apply list_elem_of_further.
  - apply draw_line_rows_fit; [|done]. apply Hsub, list_elem_of_here.
Qed.
End Rows_fit.

(** Word wrapping never cuts a word and never draws past the right
    margin by joining words: when the saves succeed, every row of the
    stored image (and of the canvases flushed before it) fits between
    the margins, or is a single word of a line of the text, or is
    empty. *)
Theorem create_image_file_rows_fit_or_are_words (E : External)
    (text output_path format : string) (f : FS) :
  image_save E output_path format = Ok tt →
  let font := find_font E f in
  let lines := Py.split_char "010" text in
  ∃ canvas : Canvas,
    (create_image_file E text output_path format f).2 !! output_path
      = Some (ImageFile format canvas)
    ∧ Forall (fun d => row_fits font lines d.2) canvas
    ∧ Forall (fun s => ∃ format c,
                  s.2 = ImageFile format c
                  ∧ Forall (fun d => row_fits font lines d.2) c)
        (saves (image_pen font text output_path format)).
Proof.
  intros Hsave font lines.
  exists (img (image_pen font text output_path format)).
  assert (Hfit : rows_fit font lines
                   (image_pen font text output_path format)).
  { apply draw_lines_rows_fit; [done|]. by split. }
  split; [|exact Hfit].
  unfold create_image_file. fold font. rewrite Hsave. cbn [snd].
  rewrite (apply_saves_one_path output_path) by apply image_pen_saved_at.
  apply lookup_insert_eq.
Qed.

(** A line of twenty words of eleven letters, too wide for one row. *)
Lemma create_image_file_rows_fit_or_are_words_example :
  let text := String.concat " " (repeat "translation" 20) in
  let font := find_font three_page_engine ∅ in
  let lines := Py.split_char "010" text in
  ∃ canvas : Canvas,
    (create_image_file three_page_engine text "/srv/media/outputs/o4.png"
       "PNG" ∅).2 !! "/srv/media/outputs/o4.png"
      = Some (ImageFile "PNG" canvas)
    ∧ Forall (fun d => row_fits font lines d.2) canvas
    ∧ Forall (fun s => ∃ format c,
                  s.2 = ImageFile format c
                  ∧ Forall (fun d => row_fits font lines d.2) c)
        (saves (image_pen font text "/srv/media/outputs/o4.png" "PNG")).
Proof.
  intros text font lines.
  exact (create_image_file_rows_fit_or_are_words three_page_engine text
           "/srv/media/outputs/o4.png" "PNG" ∅ eq_refl).
Defined.

(** ** Retrying and undoing *)

(** A failed OCR can be retried: after a POST whose OCR call raised, a
    second POST whose OCR call returns leaves the document completed
    with exactly one OCR result, holding the text and the language of
    the second attempt. *)
Theorem ocr_view_retry_after_failure (E1 E2 : External) (w : World)
    (id : nat) (doc : Document) (posted1 posted2 : option string)
    (language1 language2 : string) (e : exn) (text : string) :
  get_document (db w) id = Some doc →
  ocr_result_of (db w) id = None →
  OCRLanguageForm posted1 = Some language1 →
  OCRLanguageForm posted2 = Some language2 →
  ocr_call E1 doc language1 = Raise e →
  ocr_call E2 doc language2 = Ok text →
  let w1 := (ocr_view E1 id POST posted1 w).2 in
  let w2 := (ocr_view E2 id POST posted2 w1).2 in
  get_document (db w1) id =
    Some {| doc_id := id; doc_title := doc_title doc;
            doc_file := doc_file doc; doc_file_type := doc_file_type doc;
            doc_status := "failed" |}
  ∧ ocr_rows_of (db w1) id = []
  ∧ get_document (db w2) id =
      Some {| doc_id := id; doc_title := doc_title doc;
              doc_file := doc_file doc; doc_file_type := doc_file_type doc;
              doc_status := "completed" |}
  ∧ ocr_rows_of (db w2) id =
      [{| ocr_id := next_ocr_result (db w); ocr_document := id;
          ocr_text := text; ocr_language := language2 |}].
Proof.
  intros Hdoc Hnone Hform1 Hform2 Hfail Hok.
  pose proof (get_document_id _ _ _ Hdoc) as Hid. subst id.
  set (id := doc_id doc) in *. intros w1 w2.
  assert (Hid : doc_id doc = id) by done.
  change {| doc_id := id; doc_title := doc_title doc;
            doc_file := doc_file doc; doc_file_type := doc_file_type doc;
            doc_status := "failed" |} with (set_status "failed" doc).
  change {| doc_id := id; doc_title := doc_title doc;
            doc_file := doc_file doc; doc_file_type := doc_file_type doc;
            doc_status := "completed" |} with (set_status "completed" doc).
  assert (Hw1 : w1 = with_db (save_document (set_status "failed" doc) (db w)) w).
  { subst w1.
    rewrite (ocr_view_processed E1 w id doc posted1 language1 Hdoc Hnone Hform1).
    by rewrite Hfail. }
  assert (Hdoc1 : get_document (db w1) id = Some (set_status "failed" doc)).
  { rewrite Hw1. by apply (get_document_when_saved _ _ doc). }
  assert (Hnone1 : ocr_result_of (db w1) id = None) by by rewrite Hw1.
  split; [exact Hdoc1|].
  split; [by apply find_none_filter|].
  pose proof (ocr_view_processed_document E2 w1 id _ posted2 language2
                Hdoc1 Hnone1 Hform2) as Hstatus.
  pose proof (ocr_view_processed E2 w1 id _ posted2 language2
                Hdoc1 Hnone1 Hform2) as Hview.
  change (ocr_call E2 (set_status "failed" doc) language2)
    with (ocr_call E2 doc language2) in Hstatus, Hview.
  rewrite Hok in Hstatus, Hview. fold w2 in Hstatus.
  split; [exact Hstatus|]. subst w2. rewrite Hview. cbn [snd with_db db].
  unfold ocr_rows_of.
  cbn [save_document create_ocr_result snd ocr_results].
  rewrite Hw1. cbn [with_db db save_document ocr_results next_ocr_result].
  rewrite List.filter_app, (find_none_filter _ _ Hnone).
  cbn [List.filter ocr_document]. by rewrite Nat.eqb_refl.
Qed.

Lemma ocr_view_retry_after_failure_example :
  let w1 := (ocr_view broken_pdf_engine 1 POST (Some "deu") uploaded_world).2 in
  let w2 := (ocr_view three_page_engine 1 POST (Some "eng") w1).2 in
  get_document (db w1) 1 =
    Some {| doc_id := 1; doc_title := "Invoice"; doc_file := "uploads/u1.pdf";
            doc_file_type := "pdf"; doc_status := "failed" |}
  ∧ ocr_rows_of (db w1) 1 = []
  ∧ get_document (db w2) 1 =
      Some {| doc_id := 1; doc_title := "Invoice";
              doc_file := "uploads/u1.pdf";
              doc_file_type := "pdf"; doc_status := "completed" |}
  ∧ ocr_rows_of (db w2) 1 =
      [{| ocr_id := 1; ocr_document := 1;
          ocr_text := pages_text 0 ["page-1"; "page-2"; "page-3"];
          ocr_language := "eng" |}].
Proof.
  exact (ocr_view_retry_after_failure broken_pdf_engine three_page_engine
           uploaded_world 1 uploaded_doc (Some "deu") (Some "eng")
           "deu" "eng"
           (mk_exn Exception
              "Error performing OCR on PDF: Unable to get page count.")
           (pages_text 0 ["page-1"; "page-2"; "page-3"])
           eq_refl eq_refl eq_refl eq_refl eq_refl eq_refl).
Defined.

Section Filter.
Context {A : Type}.

Lemma filter_all (f : A → bool) (l : list A) :
  Forall (fun r => f r = true) l → List.filter f l = l.
Proof.
  induction 1 as [|x l Hx _ IH]; [done|]. cbn [List.filter].
  by rewrite Hx, IH.
Qed.

Lemma filter_none (f : A → bool) (l : list A) :
  Forall (fun r => f r = false) l → List.filter f l = [].
Proof.
  induction 1 as [|x l Hx _ IH]; [done|]. cbn [List.filter]. by rewrite Hx.
Qed.

Lemma find_app_none (f : A → bool) (l l' : list A) :
  find f l = None → find f (l ++ l') = find f l'.
Proof.
  induction l as [|x l IH]; [done|]. cbn [find app].
  by destruct (f x).
Qed.
End Filter.

Lemma stored_name_nonempty (dir rest : string) :
  nonempty dir = true → nonempty (Py.path_join dir rest) = true.
Proof.
  intros Hdir. unfold Py.path_join.
  destruct (String.prefix "/" rest) eqn:Hp; [by destruct rest|].
  destruct (String.eqb dir "" || Py.ends_with_slash dir);
    by destruct dir.
Qed.

(** Uploading a document and deleting it again leaves the four tables
    as they were and no file at the path the upload was stored under:
    nothing of an upload survives its deletion. *)
Theorem upload_then_delete_restores_tables (E : External) (w : World)
    (file : UploadedFile) (title uuid : string)
    (t : string) (f : UploadedFile) (file_type : string) :
  reachable w →
  DocumentUploadForm (Some file) title = Some (t, f, file_type) →
  let w1 := (upload_view E POST (Some file) title uuid w).2 in
  let w2 := (delete_document_view E (next_document (db w)) POST w1).2 in
  documents (db w2) = documents (db w)
  ∧ ocr_results (db w2) = ocr_results (db w)
  ∧ translations (db w2) = translations (db w)
  ∧ output_files (db w2) = output_files (db w)
  ∧ fs w2 = delete (storage_path E (get_file_path uuid (uf_name f))) (fs w).
Proof.
  intros Hreach Hform w1 w2.
  apply reachable_consistent in Hreach
    as ((Hfd & _) & _ & (Hro & _) & _ & _).
  destruct (DocumentUploadForm_some _ _ _ _ _ Hform) as ([= <-] & _).
  set (name := get_file_path uuid (uf_name file)) in *.
  set (new := {| doc_id := next_document (db w); doc_title := t;
                 doc_file := name; doc_file_type := file_type;
                 doc_status := "pending" |}).
  assert (Hw1 : w1 = {| db := (create_document t name file_type (db w)).2;
                        fs := <[storage_path E name :=
                                  RawFile (uf_bytes file)]> (fs w) |}).
  { subst w1. unfold upload_view. by rewrite Hform. }
  (* no row of the old tables carries the new key *)
  assert (Hold : Forall (fun r => (doc_id r =? next_document (db w))%nat = false)
                   (documents (db w))).
  { eapply Forall_impl; [exact Hfd|]. intros r Hr. cbn beta in *.
    apply Nat.eqb_neq. lia. }
  assert (Hocr : Forall (fun r => (ocr_document r =? next_document (db w))%nat
                                  = false) (ocr_results (db w))).
  { eapply Forall_impl; [exact Hro|]. intros r Hr. cbn beta in *.
    apply (elem_of_map_key_inv doc_id) in Hr as (x & Hx & Hkey).
    rewrite Forall_forall in Hfd. specialize (Hfd x Hx). cbn beta in Hfd.
    apply Nat.eqb_neq. lia. }
  assert (Hfound : get_document (db w1) (next_document (db w)) = Some new).
  { rewrite Hw1. unfold get_document. cbn [db create_document snd documents].
    rewrite find_app_none.
    - cbn [find doc_id]. by rewrite Nat.eqb_refl.
    - destruct (find _ _) as [x|] eqn:Hfind; [|done].
      apply find_some_holds in Hfind as [Hkey Hin].
      rewrite Forall_forall in Hold. by rewrite (Hold x Hin) in Hkey. }
  subst w2. unfold delete_document_view. rewrite Hfound.
  cbn [snd Document_delete db fs doc_id doc_file new].
  rewrite Hw1. cbn [db fs].
  assert (Hgone_r : ocr_rows_of (create_document t name file_type (db w)).2
                      (next_document (db w)) = []).
  { unfold ocr_rows_of. cbn [create_document snd ocr_results].
    by apply filter_none. }
  assert (Hgone_t : translation_rows_of
                      (create_document t name file_type (db w)).2
                      (next_document (db w)) = []).
  { unfold translation_rows_of. rewrite Hgone_r. cbn [existsb].
    apply filter_false. }
  assert (Hgone_o : output_rows_of
                      (create_document t name file_type (db w)).2
                      (next_document (db w)) = []).
  { unfold output_rows_of. rewrite Hgone_t. cbn [existsb].
    apply filter_false. }
  unfold cascade_delete_document. rewrite Hgone_r, Hgone_t, Hgone_o.
  cbn [documents ocr_results translations output_files create_document snd
         existsb negb].
  rewrite !filter_true. repeat split.
  - rewrite List.filter_app. cbn [List.filter doc_id].
    rewrite Nat.eqb_refl. cbn [negb]. rewrite app_nil_r.
    apply filter_all. eapply Forall_impl; [exact Hold|].
    intros r Hr. cbn beta in *. by rewrite Hr.
  - unfold remove_stored_file. subst name. unfold get_file_path.
    rewrite stored_name_nonempty by done.
    unfold path_exists. rewrite lookup_insert_eq.
    rewrite bool_decide_eq_true_2 by by eexists.
    apply delete_insert_eq.
Qed.

Lemma upload_then_delete_restores_tables_example :
  let w1 := (upload_view three_page_engine POST
               (Some {| uf_name := "scan.png"; uf_bytes := "PNG" |})
               "Scan" "u2" uploaded_world).2 in
  let w2 := (delete_document_view three_page_engine 2 POST w1).2 in
  documents (db w2) = [uploaded_doc]
  ∧ ocr_results (db w2) = []
  ∧ translations (db w2) = []
  ∧ output_files (db w2) = []
  ∧ fs w2 = delete "/srv/media/uploads/u2.png" (fs uploaded_world).
Proof.
  exact (upload_then_delete_restores_tables three_page_engine uploaded_world
           {| uf_name := "scan.png"; uf_bytes := "PNG" |} "Scan" "u2"
           "Scan" {| uf_name := "scan.png"; uf_bytes := "PNG" |} "png"
           uploaded_world_reachable eq_refl).
Defined.

(** ** Deleted objects *)

Lemma find_dropped_by_key {A : Type} (key : A → nat) (sel : A → bool)
    (l : list A) (x : A) :
  x ∈ List.filter sel l →
  find (fun r => key r =? key x)%nat
    (List.filter
       (fun r => negb (existsb (fun g => key g =? key r)%nat
                         (List.filter sel l))) l)
  = None.
Proof.
  intros Hx. destruct (find _ _) as [y|] eqn:Hfind; [|done]. exfalso.
  apply find_some_holds in Hfind as [Hkey Hin].
  apply elem_of_list_filter in Hin as [_ Hkeep].
  apply negb_true_iff, not_true_iff_false in Hkeep. apply Hkeep.
  apply existsb_exists. exists x. split; [by apply list_elem_of_In|].
  apply Nat.eqb_eq in Hkey. by apply Nat.eqb_eq.
Qed.

(** After [Document.delete], every URL of the document and of the rows
    that hung on it answers 404: the OCR page of the document, the
    translate page of its OCR result, the render page of its
    translations and the result page of its output files. *)
Theorem deleted_document_pages_are_404 (E E' : External) (w : World)
    (doc : Document) :
  let w' := Document_delete E doc w in
  (∀ m language,
     serve E' (ReqOcr (doc_id doc) m language) w' = (Http404, w'))
  ∧ (∀ r m target, r ∈ ocr_rows_of (db w) (doc_id doc) →
       serve E' (ReqTranslate (ocr_id r) m target) w' = (Http404, w'))
  ∧ (∀ t m text format uuid,
       t ∈ translation_rows_of (db w) (doc_id doc) →
       serve E' (ReqOutputFormat (tr_id t) m text format uuid) w'
       = (Http404, w'))
  ∧ (∀ o, o ∈ output_rows_of (db w) (doc_id doc) →
       serve E' (ReqResult (out_id o)) w' = (Http404, w')).
Proof.
  intros w'. subst w'. repeat split; intros; apply serve_missing_object;
    cbn [target_exists Document_delete db]; apply bool_decide_eq_false;
    intros [x Hx].
  - apply find_some_holds in Hx as [Hkey Hin].
    cbn [cascade_delete_document documents] in Hin.
    apply elem_of_list_filter in Hin as [_ Hkeep]. by rewrite Hkey in Hkeep.
  - match goal with H : _ ∈ ocr_rows_of _ _ |- _ =>
      pose proof (find_dropped_by_key ocr_id _ _ _ H) as Hnone end.
    unfold get_ocr_result, cascade_delete_document in Hx.
    cbn [ocr_results] in Hx. unfold ocr_rows_of in Hx at 1.
    by rewrite Hnone in Hx.
  - match goal with H : _ ∈ translation_rows_of _ _ |- _ =>
      pose proof (find_dropped_by_key tr_id _ _ _ H) as Hnone end.
    unfold get_translation, cascade_delete_document in Hx.
    cbn [translations] in Hx. unfold translation_rows_of in Hx at 1.
    by rewrite Hnone in Hx.
  - match goal with H : _ ∈ output_rows_of _ _ |- _ =>
      pose proof (find_dropped_by_key out_id _ _ _ H) as Hnone end.
    unfold get_output_file, cascade_delete_document in Hx.
    cbn [output_files] in Hx. unfold output_rows_of in Hx at 1.
    by rewrite Hnone in Hx.
Qed.

Lemma deleted_document_pages_are_404_example :
  let doc := {| doc_id := 1; doc_title := "Invoice";
                doc_file := "uploads/u1.pdf"; doc_file_type := "pdf";
                doc_status := "completed" |} in
  let w' := Document_delete three_page_engine doc sample_world in
  serve three_page_engine (ReqOcr 1 GET None) w' = (Http404, w')
  ∧ serve three_page_engine (ReqTranslate 1 GET None) w' = (Http404, w')
  ∧ serve three_page_engine (ReqOutputFormat 1 GET None None "o2") w'
    = (Http404, w')
  ∧ serve three_page_engine (ReqResult 1) w' = (Http404, w').
Proof.
  intros doc w'.
  destruct (deleted_document_pages_are_404 three_page_engine
              three_page_engine sample_world doc) as (Hocr & Htr & Hout & Hres).
  split; [apply Hocr|].
  split; [apply (Htr {| ocr_id := 1; ocr_document := 1; ocr_text := "hello";
                        ocr_language := "eng" |}); vm_compute; constructor|].
  split; [apply (Hout {| tr_id := 1; tr_ocr_result := 1; tr_text := "bonjour";
                         tr_source_language := "eng";
                         tr_target_language := "FR" |});
          vm_compute; constructor|].
  apply (Hres {| out_id := 1; out_translation := 1;
                 out_file := "outputs/o1.txt"; out_file_type := "txt" |}).
  vm_compute. constructor.
Defined.

(** [OutputFile.delete] removes the stored file of the row and the row,
    and nothing else: every other file, every other output row and the
    three other tables stay. *)
Theorem OutputFile_delete_removes_only_its_own (E : External)
    (o : OutputFile) (w : World) :
  nonempty (out_file o) = true →
  let w' := OutputFile_delete E o w in
  fs w' !! storage_path E (out_file o) = None
  ∧ (∀ p, p ≠ storage_path E (out_file o) → fs w' !! p = fs w !! p)
  ∧ get_output_file (db w') (out_id o) = None
  ∧ (∀ o', o' ∈ output_files (db w) → out_id o' ≠ out_id o →
           o' ∈ output_files (db w'))
  ∧ documents (db w') = documents (db w)
  ∧ ocr_results (db w') = ocr_results (db w)
  ∧ translations (db w') = translations (db w).
Proof.
  intros Hname w'. subst w'. unfold OutputFile_delete. cbn [fs db].
  split; [by apply remove_stored_file_gone|].
  split; [intros p Hp; by apply remove_stored_file_other|].
  split; [|split; [|done]].
  - unfold get_output_file, delete_output_row. cbn [output_files].
    destruct (find _ _) as [x|] eqn:Hfind; [|done].
    apply find_some_holds in Hfind as [Hid Hin].
    apply elem_of_list_filter in Hin as [_ Hkeep]. by rewrite Hid in Hkeep.
  - intros o' Hin Hne. cbn [delete_output_row output_files].
    apply elem_of_list_filter. split; [done|].
    by apply negb_true_iff, Nat.eqb_neq.
Qed.

Lemma OutputFile_delete_removes_only_its_own_example :
  let o := {| out_id := 1; out_translation := 1; out_file := "outputs/o1.txt";
              out_file_type := "txt" |} in
  let w' := OutputFile_delete three_page_engine o sample_world in
  fs w' !! "/srv/media/outputs/o1.txt" = None
  ∧ (∀ p, p ≠ "/srv/media/outputs/o1.txt" →
          fs w' !! p = fs sample_world !! p)
  ∧ get_output_file (db w') 1 = None
  ∧ (∀ o', o' ∈ output_files sample_db → out_id o' ≠ 1 →
           o' ∈ output_files (db w'))
  ∧ documents (db w') = documents sample_db
  ∧ ocr_results (db w') = ocr_results sample_db
  ∧ translations (db w') = translations sample_db.
Proof.
  intros o.
  exact (OutputFile_delete_removes_only_its_own three_page_engine o
           sample_world eq_refl).
Defined.

(** ** The font search *)

Lemma first_loadable_app (E : External) (f : FS) (l1 l2 : list string) :
  first_loadable E f (l1 ++ l2) =
    match first_loadable E f l1 with
    | Some font => Some font
    | None => first_loadable E f l2
    end.
Proof.
  induction l1 as [|p l1 IH]; [done|]. cbn [app first_loadable].
  destruct (path_exists f p); [|exact IH].
  destruct (truetype E p); [done | exact IH].
Qed.

Lemma search_dirs_flat (E : External) (f : FS) (font_file : string)
    (dirs : list string) :
  search_dirs E f font_file dirs =
    first_loadable E f
      (map (fun font_dir => Py.path_join font_dir font_file) dirs).
Proof.
  induction dirs as [|d dirs IH]; [done|]. cbn [search_dirs map first_loadable].
  destruct (path_exists f _); [|exact IH].
  destruct (truetype E _); [done | exact IH].
Qed.

(** The two nested loops of the font search, with their [break] and
    [continue], pick the first of the fifteen candidate paths, font by
    font and directory by directory, that exists and loads: a file that
    exists but does not load does not end the search.  When none does,
    'arial.ttf' is tried, and then the default font. *)
Theorem find_font_is_first_loadable (E : External) (f : FS) :
  find_font E f =
    match first_loadable E f (candidate_paths E) with
    | Some font => font
    | None =>
        match truetype E "arial.ttf" with
        | Ok font => font
        | Raise _ => load_default E
        end
    end.
Proof.
  unfold find_font, candidate_paths.
  assert (Hflat : ∀ fonts,
    search_fonts E f fonts =
      first_loadable E f
        (flat_map
           (fun '(_, font_file) =>
              map (fun font_dir => Py.path_join font_dir font_file)
                (font_dirs E)) fonts)).
  { induction fonts as [|[name file] fonts IH]; [done|].
    cbn [search_fonts flat_map]. rewrite first_loadable_app.
    rewrite search_dirs_flat. by destruct (first_loadable E f (map _ _)). }
  by rewrite Hflat.
Qed.

(** ** The pages of the ReportLab tier *)

Lemma pdf_draw_line_ok (c : PdfCanvas) (line : string) :
  pdf_canvas_ok c → pdf_canvas_ok (pdf_draw_line c line).
Proof.
  intros (Hy & Hlow & Hopen & Hclosed).
  unfold pdf_draw_line, pdf_canvas_ok, letter_height in *.
  destruct (Z.ltb_spec (cursor c) 40) as [Hfull|Hroom];
    cbn [showPage at_top closed_pages open_page cursor];
    rewrite ?length_app; cbn [length app]; unfold letter_height.
  - split; [lia|]. split; [lia|]. split.
    + apply Forall_singleton. unfold on_page, letter_height.
      cbn [fst snd]. lia.
    + apply Forall_app. split; [done|]. apply Forall_singleton.
      split; [done | lia].
  - split; [lia|]. split; [lia|]. split; [|done].
    apply Forall_app. split; [done|]. apply Forall_singleton.
    unfold on_page, letter_height. cbn [fst snd]. lia.
Qed.

Lemma pdf_draw_lines_ok (lines : list string) :
  ∀ c, pdf_canvas_ok c → pdf_canvas_ok (foldl pdf_draw_line c lines).
Proof.
  induction lines as [|line rest IH]; intros c Hc; [exact Hc|].
  cbn [foldl]. by apply IH, pdf_draw_line_ok.
Qed.

(** Starting a content on a page that is still empty. *)
Lemma pdf_draw_content_ok (c : PdfCanvas) (content : string) :
  open_page c = [] →
  Forall (fun page => Forall on_page page ∧ (length page ≤ 51)%nat)
    (closed_pages c) →
  pdf_canvas_ok (pdf_draw_content c content).
Proof.
  intros Hempty Hclosed. apply pdf_draw_lines_ok.
  unfold pdf_canvas_ok, at_top, letter_height.
  cbn [closed_pages open_page cursor]. rewrite Hempty. cbn [length].
  repeat split; try done; lia.
Qed.

Lemma showPage_closed_ok (c : PdfCanvas) :
  pdf_canvas_ok c →
  Forall (fun page => Forall on_page page ∧ (length page ≤ 51)%nat)
    (closed_pages (showPage c)).
Proof.
  intros (Hy & Hlow & Hopen & Hclosed). cbn [showPage closed_pages].
  apply Forall_app. split; [done|]. apply Forall_singleton.
  split; [done|]. unfold letter_height in *. lia.
Qed.

Lemma pdf_draw_contents_ok (contents : list string) :
  ∀ c, pdf_canvas_ok c → pdf_canvas_ok (pdf_draw_contents false c contents).
Proof.
  induction contents as [|content rest IH]; intros c Hc; [exact Hc|].
  cbn [pdf_draw_contents]. apply IH, pdf_draw_content_ok; [done|].
  by apply showPage_closed_ok.
Qed.

Lemma drawn_lines_showPage (c : PdfCanvas) :
  drawn_lines (showPage c) = drawn_lines c.
Proof.
  unfold drawn_lines. cbn [showPage closed_pages open_page].
  by rewrite !concat_app, app_nil_r.
Qed.

Lemma drawn_lines_draw_line (c : PdfCanvas) (line : string) :
  drawn_lines (pdf_draw_line c line) = (drawn_lines c ++ [line])%list.
Proof.
  unfold pdf_draw_line. destruct (cursor c <? 40)%Z.
  - rewrite <- (drawn_lines_showPage c). unfold drawn_lines.
    cbn [showPage at_top closed_pages open_page].
    rewrite !concat_app, !map_app. cbn. by rewrite !app_nil_r.
  - unfold drawn_lines. cbn [closed_pages open_page].
    rewrite !concat_app, !map_app. cbn. rewrite !app_nil_r, map_app.
    by rewrite app_assoc.
Qed.

Lemma drawn_lines_draw_lines (lines : list string) :
  ∀ c, drawn_lines (foldl pdf_draw_line c lines)
       = (drawn_lines c ++ lines)%list.
Proof.
  induction lines as [|line rest IH]; intros c; [by rewrite app_nil_r|].
  cbn [foldl]. rewrite IH, drawn_lines_draw_line. by rewrite <- app_assoc.
Qed.

Lemma drawn_lines_draw_contents (contents : list string) :
  ∀ first c,
    drawn_lines (pdf_draw_contents first c contents)
    = (drawn_lines c ++ flat_map (Py.split_char "010") contents)%list.
Proof.
  induction contents as [|content rest IH]; intros first c;
    [by rewrite app_nil_r|].
  cbn [pdf_draw_contents flat_map]. rewrite IH. unfold pdf_draw_content.
  rewrite drawn_lines_draw_lines.
  assert (drawn_lines (at_top (if first then c else showPage c))
          = drawn_lines c) as ->.
  { destruct first; [done|]. apply drawn_lines_showPage. }
  by rewrite <- app_assoc.
Qed.

(** The ReportLab tier draws every string at the left margin and
    between the top and bottom margins of a letter page, puts at most
    51 lines on a page, and loses no line: the strings of its pages,
    in order, are the lines of the contents it was given. *)
Theorem reportlab_pages_within_margins_and_complete (text : string) :
  Forall (fun page => Forall on_page page ∧ (length page ≤ 51)%nat)
    (reportlab_pages text)
  ∧ map snd (concat (reportlab_pages text))
    = flat_map (Py.split_char "010") (pdf_contents text).
Proof.
  unfold reportlab_pages.
  set (start := {| closed_pages := []; open_page := [];
                   cursor := (letter_height - 40)%Z |}).
  split.
  - assert (Hok : pdf_canvas_ok
                    (pdf_draw_contents true start (pdf_contents text))).
    { destruct (pdf_contents text) as [|content rest].
      - unfold pdf_canvas_ok, letter_height. cbn. repeat split; try done.
      - cbn [pdf_draw_contents]. apply pdf_draw_contents_ok.
        by apply pdf_draw_content_ok. }
    destruct Hok as (Hy & Hlow & Hopen & Hclosed).
    apply Forall_app. split; [done|]. apply Forall_singleton.
    split; [done|]. unfold letter_height in *. lia.
  - exact (drawn_lines_draw_contents (pdf_contents text) true start).
Qed.

(** ** Cutting the text of a PDF back into its pages *)

Section Separators.
Variable sep : string.

Lemma prefix_isolated (c : ascii) :
  has_char c sep = false →
  ∀ x y, String.prefix sep (x +:+ String c y) = String.prefix sep x.
Proof.
  induction sep as [|d sep' IH]; intros Hc x y; [by destruct x|].
  cbn [has_char] in Hc. apply orb_false_elim in Hc as [Hdc Hrest].
  destruct x as [|a x].
  - change ("" +:+ String c y) with (String c y). cbn [String.prefix].
    destruct (ascii_dec d c) as [->|]; [|done].
    by rewrite Ascii.eqb_refl in Hdc.
  - change (String a x +:+ String c y) with (String a (x +:+ String c y)).
    cbn [String.prefix]. destruct (ascii_dec d a); [|done]. by apply IH.
Qed.

(** A character that is not in [sep] cuts the search for [sep] in
    two. *)
Lemma occurs_isolated (c : ascii) (x y : string) :
  has_char c sep = false →
  occurs sep (x +:+ String c y) = occurs sep x || occurs sep y.
Proof.
  intros Hc. induction x as [|a x IH].
  - change ("" +:+ String c y) with (String c y). cbn [occurs].
    rewrite <- (prefix_isolated c Hc "" y).
    change ("" +:+ String c y) with (String c y).
    by rewrite orb_false_r.
  - change (String a x +:+ String c y) with (String a (x +:+ String c y)).
    cbn [occurs]. rewrite IH.
    rewrite <- (prefix_isolated c Hc (String a x) y).
    change (String a x +:+ String c y) with (String a (x +:+ String c y)).
    by rewrite orb_assoc.
Qed.

Lemma occurs_isolated_block (ds : string) :
  sep ≠ "" →
  all_chars (fun c => negb (has_char c sep)) ds = true →
  ds ≠ "" →
  ∀ x y, occurs sep (x +:+ ds +:+ y) = occurs sep x || occurs sep y.
Proof.
  intros Hsep.
  assert (Hempty : occurs sep "" = false) by (by destruct sep).
  induction ds as [|d ds IH]; intros Hall Hne x y; [done|].
  cbn [all_chars] in Hall. apply andb_prop in Hall as [Hd Hall].
  apply negb_true_iff in Hd.
  change (String d ds +:+ y) with (String d (ds +:+ y)).
  rewrite (occurs_isolated d x _ Hd). f_equal.
  destruct ds as [|d' ds]; [done|].
  etransitivity; [exact (IH Hall ltac:(done) "" y)|].
  by rewrite Hempty.
Qed.

Lemma split_aux_skip (x : string) :
  ∀ y, PyStr.split_aux sep (String.length x) (x +:+ y)
       = PyStr.split_aux sep 0 y.
Proof.
  induction x as [|a x IH]; intros y.
  - change ("" +:+ y) with y. by destruct y.
  - change (String a x +:+ y) with (String a (x +:+ y)).
    cbn [String.length PyStr.split_aux]. apply IH.
Qed.

(** Without the separator there is one part. *)
Lemma split_absent (s : string) :
  occurs sep s = false → PyStr.split sep s = [s].
Proof.
  unfold PyStr.split. induction s as [|a s IH]; intros Hno; [done|].
  cbn [occurs] in Hno. apply orb_false_elim in Hno as [Hhere Hlater].
  cbn [PyStr.split_aux]. rewrite Hhere. by rewrite (IH Hlater).
Qed.

Lemma drop_append (x : string) :
  ∀ y, PyStr.drop (String.length x) (x +:+ y) = y.
Proof.
  induction x as [|a x IH]; intros y.
  - change ("" +:+ y) with y. by destruct y.
  - change (String a x +:+ y) with (String a (x +:+ y)).
    cbn [String.length PyStr.drop]. apply IH.
Qed.

Lemma prefix_self (y : string) : String.prefix sep (sep +:+ y) = true.
Proof.
  induction sep as [|d sep' IH].
  - change ("" +:+ y) with y. by destruct y.
  - change (String d sep' +:+ y) with (String d (sep' +:+ y)).
    cbn [String.prefix]. by destruct (ascii_dec d d).
Qed.

End Separators.

Section First_separator.
Variables (init : string) (last : ascii).
Let sep := init +:+ String last "".

Lemma sep_length : String.length sep = S (String.length init).
Proof. unfold sep. rewrite length_append. cbn [String.length]. lia. Qed.

Lemma sep_append (a b : string) :
  a +:+ sep +:+ b = (a +:+ init) +:+ String last b.
Proof.
  unfold sep. rewrite !append_assoc.
  by change (String last "" +:+ b) with (String last b).
Qed.

Lemma prefix_before_first (x : ascii) (a b : string) :
  String.prefix sep (String x a +:+ init) = false →
  String.prefix sep (String x (a +:+ sep +:+ b)) = false.
Proof.
  intros Hno. etransitivity; [|exact Hno].
  change (String x (a +:+ sep +:+ b)) with (String x a +:+ sep +:+ b).
  rewrite sep_append. apply prefix_append.
  rewrite sep_length, length_append. cbn [String.length]. lia.
Qed.

(** When [sep] first occurs after [a], [split] cuts there. *)
Lemma split_first (a b : string) :
  occurs sep (a +:+ init) = false →
  PyStr.split sep (a +:+ sep +:+ b) = a :: PyStr.split sep b.
Proof.
  unfold PyStr.split. induction a as [|x a IH]; intros Hno.
  - change ("" +:+ sep +:+ b) with (sep +:+ b).
    pose proof (prefix_self sep b) as Hhere.
    pose proof sep_length as Hlen.
    destruct sep as [|d sep'] eqn:Hsep; [done|].
    change (String d sep' +:+ b) with (String d (sep' +:+ b)) in *.
    cbn [PyStr.split_aux]. rewrite Hhere. f_equal.
    change (String.length (String d sep') - 1) with (String.length sep' - 0).
    rewrite Nat.sub_0_r. apply split_aux_skip.
  - change (String x a +:+ init) with (String x (a +:+ init)) in Hno.
    cbn [occurs] in Hno. apply orb_false_elim in Hno as [Hhere Hlater].
    change (String x a +:+ sep +:+ b) with (String x (a +:+ sep +:+ b)).
    cbn [PyStr.split_aux].
    rewrite (prefix_before_first x a b Hhere), (IH Hlater). done.
Qed.

(** ... and so does [split(sep, 1)]. *)
Lemma partition_first (a b : string) :
  occurs sep (a +:+ init) = false →
  PyStr.partition sep (a +:+ sep +:+ b) = Some (a, b).
Proof.
  induction a as [|x a IH]; intros Hno.
  - change ("" +:+ sep +:+ b) with (sep +:+ b).
    pose proof (prefix_self sep b) as Hhere.
    pose proof (drop_append sep b) as Hdrop.
    destruct (sep +:+ b); cbn [PyStr.partition]; rewrite Hhere;
      by rewrite Hdrop.
  - change (String x a +:+ init) with (String x (a +:+ init)) in Hno.
    cbn [occurs] in Hno. apply orb_false_elim in Hno as [Hhere Hlater].
    change (String x a +:+ sep +:+ b) with (String x (a +:+ sep +:+ b)).
    cbn [PyStr.partition].
    rewrite (prefix_before_first x a b Hhere), (IH Hlater). done.
Qed.

End First_separator.

Lemma split_first_marker (a b : string) :
  occurs "--- Page" (a +:+ "--- Pag") = false →
  PyStr.split "--- Page" (a +:+ "--- Page" +:+ b)
  = a :: PyStr.split "--- Page" b.
Proof. exact (split_first "--- Pag" "e" a b). Qed.

Lemma partition_first_dashes (a b : string) :
  occurs "---" (a +:+ "--") = false →
  PyStr.partition "---" (a +:+ "---" +:+ b) = Some (a, b).
Proof. exact (partition_first "--" "-" a b). Qed.

(** *** White space around a page *)

Lemma blank_len_line_feed (s : string) : Py.blank_len (String "010" s) = 1.
Proof. by destruct s. Qed.

Lemma find_ext_in {A : Type} (f g : A → bool) (l : list A) :
  (∀ x, x ∈ l → f x = g x) → find f l = find g l.
Proof.
  induction l as [|x l IH]; intros Hfg; [done|]. cbn [find].
  rewrite (Hfg x) by apply list_elem_of_here.
  rewrite IH; [done|]. intros y Hy. by apply Hfg, list_elem_of_further.
Qed.

(** A line feed behind a text does not change the white space the
    text starts with: it completes no longer white-space character. *)
Lemma blank_len_before_line_feed (a : ascii) (x : string) :
  Py.blank_len (String a x +:+ nl) = Py.blank_len (String a x).
Proof.
  unfold Py.blank_len.
  rewrite (find_ext_in _ (fun blank => String.prefix blank (String a x)));
    [done|].
  intros blank Hin.
  assert (Hall : forallb (fun blank => (String.length blank <=? 1)%nat
                                       || negb (has_char "010" blank))
                   Py.blanks = true) by reflexivity.
  rewrite forallb_forall in Hall.
  apply list_elem_of_In, Hall in Hin.
  apply orb_prop in Hin as [Hshort|Hfree].
  - apply prefix_append. apply Nat.leb_le in Hshort. cbn [String.length]. lia.
  - apply negb_true_iff in Hfree. unfold nl.
    by apply prefix_isolated.
Qed.

Lemma all_blank_before_line_feed (x : string) :
  ∀ skip, Py.all_blank_aux skip (x +:+ nl) = Py.all_blank_aux skip x.
Proof.
  induction x as [|a x IH]; intros skip; [by destruct skip|].
  pose proof (blank_len_before_line_feed a x) as Hlen.
  change (String a x +:+ nl) with (String a (x +:+ nl)) in *.
  cbn [Py.all_blank_aux]. destruct skip as [|k]; [|apply IH].
  rewrite Hlen. destruct (Py.blank_len (String a x)); [done | apply IH].
Qed.

Lemma rstrip_line_feed_end (x : string) :
  Py.rstrip (x +:+ nl) = Py.rstrip x.
Proof.
  induction x as [|a x IH]; [done|].
  pose proof (all_blank_before_line_feed (String a x) 0) as Hblank.
  change (String a x +:+ nl) with (String a (x +:+ nl)) in *.
  cbn [Py.rstrip]. unfold Py.all_blank. by rewrite Hblank, IH.
Qed.

Lemma strip_line_feed_end (x : string) : Py.strip (x +:+ nl) = Py.strip x.
Proof. unfold Py.strip. by rewrite rstrip_line_feed_end. Qed.

Lemma all_blank_rstrip (s : string) :
  Py.all_blank s = true → Py.rstrip s = "".
Proof. destruct s as [|a s]; [done|]. cbn [Py.rstrip]. by intros ->. Qed.

Lemma strip_line_feed_start (s : string) :
  Py.strip (String "010" s) = Py.strip s.
Proof.
  unfold Py.strip. cbn [Py.rstrip].
  assert (Py.all_blank (String "010" s) = Py.all_blank s) as ->.
  { unfold Py.all_blank. cbn [Py.all_blank_aux].
    by rewrite blank_len_line_feed. }
  destruct (Py.all_blank s) eqn:Hblank.
  - by rewrite (all_blank_rstrip s Hblank).
  - unfold Py.lstrip. cbn [Py.lstrip_aux].
    by rewrite blank_len_line_feed.
Qed.

Lemma strip_between_line_feeds (t : string) :
  Py.strip (nl +:+ nl +:+ t +:+ nl +:+ nl) = Py.strip t
  ∧ Py.strip (nl +:+ nl +:+ t) = Py.strip t.
Proof.
  assert (Hfront : ∀ s, Py.strip (nl +:+ nl +:+ s) = Py.strip s).
  { intros s. change (nl +:+ nl +:+ s) with (String "010" (String "010" s)).
    by rewrite !strip_line_feed_start. }
  split; [|apply Hfront]. rewrite Hfront.
  rewrite <- append_assoc.
  by rewrite !strip_line_feed_end.
Qed.

(** *** Page numbers are digits *)

Lemma all_chars_impl (p q : ascii → bool) (s : string) :
  (∀ c, p c = true → q c = true) →
  all_chars p s = true → all_chars q s = true.
Proof.
  intros Hpq. induction s as [|a s IH]; [done|]. cbn [all_chars].
  intros [Ha Hs]%andb_prop. by rewrite (Hpq a Ha), (IH Hs).
Qed.

Lemma pretty_N_char_digit (x : N) : is_digit (pretty_N_char x) = true.
Proof. unfold pretty_N_char. by repeat case_match. Qed.

Lemma pretty_N_go_digits (x : N) :
  ∀ s, all_chars is_digit s = true ∧ s ≠ "" →
       all_chars is_digit (pretty_N_go x s) = true ∧ pretty_N_go x s ≠ "".
Proof.
  induction (N.lt_wf_0 x) as [x _ IH]; intros s Hs.
  assert (x = 0 ∨ 0 < x)%N as [->|Hpos] by lia.
  - by rewrite pretty_N_go_0.
  - rewrite pretty_N_go_step by done. apply IH; [by apply N.div_lt|].
    split; [|done]. cbn [all_chars].
    by rewrite pretty_N_char_digit, (proj1 Hs).
Qed.

Lemma pretty_nat_digits (n : nat) :
  all_chars is_digit (pretty n) = true ∧ pretty n ≠ "".
Proof.
  unfold pretty, pretty_nat, pretty, pretty_N.
  destruct (decide (N.of_nat n = 0%N)) as [_|Hpos]; [done|].
  rewrite pretty_N_go_step by lia. apply pretty_N_go_digits.
  split; [|done]. cbn [all_chars]. by rewrite pretty_N_char_digit.
Qed.

Lemma digit_not_in_marker (c : ascii) :
  is_digit c = true →
  negb (has_char c "--- Page") = true ∧ negb (has_char c "---") = true.
Proof. by destruct c as [[] [] [] [] [] [] [] []]. Qed.

Lemma page_number_isolated (n : nat) (x y : string) :
  occurs "--- Page" (x +:+ pretty n +:+ y)
  = occurs "--- Page" x || occurs "--- Page" y
  ∧ occurs "---" (x +:+ pretty n +:+ y)
    = occurs "---" x || occurs "---" y.
Proof.
  destruct (pretty_nat_digits n) as [Hdigits Hne]. split.
  - apply occurs_isolated_block; [done| |done].
    eapply all_chars_impl; [|exact Hdigits].
    intros c Hc. apply (digit_not_in_marker c Hc).
  - apply occurs_isolated_block; [done| |done].
    eapply all_chars_impl; [|exact Hdigits].
    intros c Hc. apply (digit_not_in_marker c Hc).
Qed.

(** *** The parts of a marked text *)

Lemma marker_absent_before_next (x : string) :
  occurs "--- Page" x = false →
  occurs "--- Page" ((x +:+ nl +:+ nl) +:+ "--- Pag") = false.
Proof.
  intros Hx. rewrite !append_assoc.
  change (nl +:+ nl +:+ "--- Pag")
    with (String "010" (nl +:+ "--- Pag")).
  rewrite occurs_isolated by done. by rewrite Hx.
Qed.

Lemma marker_absent_in_part (k : nat) (t : string) :
  marker_free t →
  occurs "--- Page"
    (" " +:+ pretty k +:+ " ---" +:+ nl +:+ nl +:+ t) = false.
Proof.
  intros Ht. rewrite (proj1 (page_number_isolated k " " _)).
  change (" ---" +:+ nl +:+ nl +:+ t)
    with (" ---" +:+ String "010" (String "010" t)).
  rewrite occurs_isolated by done.
  change (String "010" t) with ("" +:+ String "010" t).
  rewrite occurs_isolated by done. by rewrite Ht.
Qed.

Lemma split_marked (texts : list string) :
  ∀ (i : nat) (x : string),
    occurs "--- Page" x = false →
    Forall marker_free texts →
    split_pages (x +:+ pages_text i texts) = marked_parts i x texts.
Proof.
  unfold split_pages.
  induction texts as [|t rest IH]; intros i x Hx Hfree.
  - cbn [pages_text marked_parts]. rewrite append_nil_r.
    by apply split_absent.
  - apply Forall_cons in Hfree as [Ht Hrest].
    cbn [pages_text marked_parts].
    assert (x +:+ page_marker (i + 1) +:+ t +:+ pages_text (S i) rest
            = (x +:+ nl +:+ nl) +:+ "--- Page" +:+
              (" " +:+ pretty (i + 1) +:+ " ---" +:+ nl +:+ nl +:+ t)
              +:+ pages_text (S i) rest) as ->.
    { unfold page_marker. by rewrite !append_assoc. }
    rewrite split_first_marker by by apply marker_absent_before_next.
    f_equal. apply IH; [|done]. by apply marker_absent_in_part.
Qed.

Lemma page_content_marked (k : nat) (t : string) :
  page_content (" " +:+ pretty k +:+ " ---" +:+ nl +:+ nl +:+ t)
  = Py.strip t
  ∧ page_content
      ((" " +:+ pretty k +:+ " ---" +:+ nl +:+ nl +:+ t) +:+ nl +:+ nl)
    = Py.strip t.
Proof.
  assert (Hfirst : occurs "---" ((" " +:+ pretty k +:+ " ") +:+ "--")
                   = false).
  { rewrite !append_assoc.
    by rewrite (proj2 (page_number_isolated k " " _)). }
  unfold page_content. split.
  - assert (" " +:+ pretty k +:+ " ---" +:+ nl +:+ nl +:+ t
            = (" " +:+ pretty k +:+ " ") +:+ "---" +:+ nl +:+ nl +:+ t)
      as -> by by rewrite !append_assoc.
    rewrite (partition_first_dashes _ _ Hfirst).
    apply strip_between_line_feeds.
  - assert ((" " +:+ pretty k +:+ " ---" +:+ nl +:+ nl +:+ t) +:+ nl +:+ nl
            = (" " +:+ pretty k +:+ " ") +:+ "---"
              +:+ nl +:+ nl +:+ t +:+ nl +:+ nl)
      as -> by by rewrite !append_assoc.
    rewrite (partition_first_dashes _ _ Hfirst).
    apply strip_between_line_feeds.
Qed.

Lemma page_contents_marked (rest : list string) :
  ∀ (i k : nat) (t : string),
    map page_content
      (marked_parts i (" " +:+ pretty k +:+ " ---" +:+ nl +:+ nl +:+ t) rest)
    = map Py.strip (t :: rest).
Proof.
  induction rest as [|t' rest IH]; intros i k t.
  - cbn [marked_parts map]. by rewrite (proj1 (page_content_marked k t)).
  - cbn [marked_parts map]. rewrite (proj2 (page_content_marked k t)).
    f_equal. apply IH.
Qed.

(** The parts of the text of a PDF: the empty first part, then one per
    page. *)
Lemma pdf_contents_pages_text (texts : list string) :
  Forall marker_free texts →
  ∃ first rest,
    split_pages (pages_text 0 texts) = first :: rest
    ∧ Py.strip first = ""
    ∧ map page_content rest = map Py.strip texts.
Proof.
  intros Hfree.
  pose proof (split_marked texts 0 "" ltac:(done) Hfree) as Hsplit.
  change ("" +:+ pages_text 0 texts) with (pages_text 0 texts) in Hsplit.
  rewrite Hsplit. destruct texts as [|t rest].
  - by exists "", [].
  - cbn [marked_parts]. eexists _, _. split; [done|]. split; [done|].
    apply page_contents_marked.
Qed.

Lemma ocr_pdf_pages_text (E : External) (pdf_path language : string)
    (images : list Bitmap) (texts : list string) :
  convert_from_path E pdf_path = Ok images →
  Forall2 (fun img t => image_to_string E img language = Ok t) images texts →
  ocr_pdf E pdf_path language = Ok (pages_text 0 texts).
Proof.
  intros Hconv Hall. unfold ocr_pdf. rewrite Hconv. simpl.
  by rewrite (ocr_pages_text E language images texts 0 "" Hall).
Qed.

Lemma flat_map_through_map {A B C : Type} (f : A → C) (g : B → C)
    (h : C → list DocxItem) (xs : list A) :
  ∀ ys : list B,
    map f xs = map g ys →
    flat_map (fun x => h (f x)) xs = flat_map (fun y => h (g y)) ys.
Proof.
  induction xs as [|x xs IH]; intros [|y ys] Heq; try done.
  injection Heq as Hhead Htail. cbn [flat_map].
  by rewrite Hhead, (IH ys Htail).
Qed.

(** When no page of a PDF reads as text holding the words "--- Page",
    the DOCX renderer finds the pages of the OCR text again: the
    document is, for each page in order, a page break followed by one
    paragraph holding the page's text without the white space around
    it.  The page break before the first page is there too. *)
Theorem docx_body_of_ocr_pdf_text (E : External) (pdf_path language : string)
    (images : list Bitmap) (texts : list string) :
  convert_from_path E pdf_path = Ok images →
  Forall2 (fun img t => image_to_string E img language = Ok t) images texts →
  Forall marker_free texts →
  ∃ text,
    ocr_pdf E pdf_path language = Ok text
    ∧ docx_body text
      = flat_map (fun t => [PageBreak; Paragraph (Py.strip t)]) texts.
Proof.
  intros Hconv Hall Hfree. exists (pages_text 0 texts).
  split; [by eapply ocr_pdf_pages_text|].
  destruct (pdf_contents_pages_text texts Hfree)
    as (first & rest & Hsplit & Hfirst & Hrest).
  unfold docx_body. rewrite Hsplit, Hfirst.
  change (nonempty "") with false. cbn [app].
  exact (flat_map_through_map page_content Py.strip
           (fun c => [PageBreak; Paragraph c]) rest texts Hrest).
Qed.


Lemma docx_body_of_ocr_pdf_text_example :
  ∃ text,
    ocr_pdf padded_page_engine "/srv/media/uploads/a.pdf" "jpn" = Ok text
    ∧ docx_body text
      = [PageBreak; Paragraph "page-1"; PageBreak; Paragraph "page-2"].
Proof.
  apply (docx_body_of_ocr_pdf_text padded_page_engine
           "/srv/media/uploads/a.pdf" "jpn"
           [Bitmap_of 1; Bitmap_of 2]
           [Py.utf8 [227; 128; 128] +:+ " page-1" +:+ Py.utf8 [194; 160]
              +:+ nl;
            Py.utf8 [227; 128; 128] +:+ " page-2" +:+ Py.utf8 [194; 160]
              +:+ nl]).
  - reflexivity.
  - repeat constructor.
  - repeat constructor.
Defined.

(** When no page of a PDF reads as text holding the words "--- Page",
    the PDF renderer lays out, from the OCR text, one empty content,
    which takes the first page of the file, and then the text
    of each page of the source, without the white space around it,
    starting on a page of its own; the ReportLab tier draws exactly
    the lines of these contents, in order. *)
Theorem pdf_contents_of_ocr_pdf_text (E : External)
    (pdf_path language : string) (images : list Bitmap)
    (texts : list string) :
  convert_from_path E pdf_path = Ok images →
  Forall2 (fun img t => image_to_string E img language = Ok t) images texts →
  Forall marker_free texts →
  ∃ text,
    ocr_pdf E pdf_path language = Ok text
    ∧ pdf_contents text = "" :: map Py.strip texts
    ∧ map snd (concat (reportlab_pages text))
      = "" :: flat_map (fun t => Py.split_char "010" (Py.strip t)) texts.
Proof.
  intros Hconv Hall Hfree. exists (pages_text 0 texts).
  split; [by eapply ocr_pdf_pages_text|].
  destruct (pdf_contents_pages_text texts Hfree)
    as (first & rest & Hsplit & Hfirst & Hrest).
  assert (Hcontents : pdf_contents (pages_text 0 texts)
                      = "" :: map Py.strip texts).
  { unfold pdf_contents. by rewrite Hsplit, Hfirst, Hrest. }
  split; [exact Hcontents|].
  unfold reportlab_pages.
  etransitivity; [apply (drawn_lines_draw_contents _ true)|].
  rewrite Hcontents. cbn [drawn_lines closed_pages open_page app concat map
                           flat_map].
  change (Py.split_char "010" "") with [""]. cbn [app]. f_equal.
  clear. induction texts as [|t texts IH]; [done|].
  cbn [map flat_map]. by rewrite IH.
Qed.

Lemma pdf_contents_of_ocr_pdf_text_example :
  ∃ text,
    ocr_pdf padded_page_engine "/srv/media/uploads/a.pdf" "jpn" = Ok text
    ∧ pdf_contents text = [""; "page-1"; "page-2"]
    ∧ map snd (concat (reportlab_pages text)) = [""; "page-1"; "page-2"].
Proof.
  apply (pdf_contents_of_ocr_pdf_text padded_page_engine
           "/srv/media/uploads/a.pdf" "jpn"
           [Bitmap_of 1; Bitmap_of 2]
           [Py.utf8 [227; 128; 128] +:+ " page-1" +:+ Py.utf8 [194; 160]
              +:+ nl;
            Py.utf8 [227; 128; 128] +:+ " page-2" +:+ Py.utf8 [194; 160]
              +:+ nl]).
  - reflexivity.
  - repeat constructor.
  - repeat constructor.
Defined.
